(** * SmartStock: store, warehouse and optimizer, embedded from the Python sources

    The development follows four source files:
    - [app/agents/store_agent.py]      ([Module StoreAgent]),
    - [app/agents/warehouse_agent.py]  ([Module WarehouseAgent]),
    - [app/services/optimization/inventory.py] ([Module InventoryOptimizer]),
    - [app/agents/supplier_agent.py]   ([Module SupplierAgent]: the handlers
      of follow-ups and cancellations and the cycle; the intake of purchase
      orders, which queries columns the [Supplier] model does not declare,
      is not embedded),
    together with the SQLAlchemy models under [app/models] ([Module Models]).

    Conventions of the embedding.
    - Python [int] is [Z].  Prices and the warehouse's priority scores are
      Python [float]s, that is IEEE 754 binary64 numbers with their rounding,
      infinities and NaN ([Module PyFloat], over the standard library's
      [SpecFloat]).  The [float]s of the optimizer, which needs [math.sqrt]
      and [math.exp], are real numbers ([R]): what is stated of the optimizer
      is about the branches it takes and the exceptions it raises, and about
      an ordering that rounding keeps; rounding, overflow and underflow in
      that module are not modelled.
    - A Python [dict] used as a table of pending work is an association list
      in insertion order: the order is observable (first match in
      [_handle_transfer_failed], stability of [sorted]).
    - A SQLAlchemy session is a pair of table snapshots, what has been
      committed and what the session currently sees, in front of a database
      that may refuse a commit.  [commit] publishes the working snapshot,
      [rollback] discards it.  Where the source commits inside a [try], as
      the store's handlers do, the model asks the database ([try_commit])
      and follows the [except] clause when it refuses; the warehouse's pass
      over its transfers commits outside any [try], and its model follows
      the passes whose commits go through.
    - An exception that escapes a handler is a [Raise] result; the state
      reached when it was raised is kept, as in Python.
    - A message payload is a dictionary of values.  A string field the
      handlers only test for truthiness is read as a [string] whose empty
      value stands for an absent key; a field with a default, or one that is
      compared or formatted, is read as an [option].  The handlers are
      followed on payloads typed as their docstrings give them: a key that
      holds a value of another type is read as absent, where Python would go
      on with the value and fail at the first operation that does not take
      it.
    - Wall-clock fields (timestamps, [last_updated], [created_at]) of the
      store and of the warehouse and the primary keys of ledger rows are left
      out: nothing below reads them.  The supplier agent runs on time: its
      [datetime.utcnow()] and [random.randint] read two oracles, the n-th
      reading of the clock and the n-th raw draw, and the agent counts its
      readings.
    - [uuid.uuid4()] is a counter in the agent state: the n-th draw is
      [uuid4 n]. *)

From Stdlib Require Import ZArith List String Ascii Bool Lia.
From Stdlib Require Import Floats.SpecFloat.
From Stdlib Require Import Reals Lra.
From Stdlib Require Import Sorting.Sorted Sorting.Permutation.
From Stdlib Require Import Relations.Relation_Operators.
Import ListNotations.

Local Open Scope string_scope.
Local Open Scope Z_scope.

(** ** Exceptions and results *)

Inductive Exn : Type :=
| AttributeError (name : string)
| KeyError (key : string)
| TypeError (what : string)
| ZeroDivisionError
| ValueError
| OverflowError (what : string)
| DatabaseError (what : string).   (* what a failing flush or commit raises *)

Inductive Result (A : Type) : Type :=
| Ok (a : A)
| Raise (e : Exn).
Arguments Ok {A} a.
Arguments Raise {A} e.

Definition bind {A B : Type} (r : Result A) (k : A -> Result B) : Result B :=
  match r with
  | Ok a => k a
  | Raise e => Raise e
  end.

Notation "'do' x <- r ; k" := (bind r (fun x => k))
  (at level 10, x name, r at level 100, k at level 200).

(** [str(e)] as the handlers interpolate it into their error payloads. *)
Definition Exn_str (e : Exn) : string :=
  match e with
  | AttributeError n => n
  | KeyError k => "'" ++ k ++ "'"
  | TypeError w => w
  | ZeroDivisionError => "division by zero"
  | ValueError => "math domain error"
  | OverflowError w => w
  | DatabaseError w => w
  end.

(** ** Python floats

    A [float] is an IEEE 754 binary64 number; the operations are those of
    the standard library's specification of binary floating point, at
    precision 53 and maximal exponent 1024, rounding to nearest, ties to
    even. *)

Module PyFloat.

Definition prec : Z := 53.
Definition emax : Z := 1024.

Definition float : Type := spec_float.

(** The float [m * 2^e], rounded; float literals are written with it. *)
Definition literal (m e : Z) : float := binary_normalize prec emax m e false.

(** [float(n)] for an [int] within the range of the floats. *)
Definition of_Z (n : Z) : float := literal n 0.

(** An [int] as a binary number that has not been rounded. *)
Definition exact (n : Z) : float :=
  match n with
  | Z0 => S754_zero false
  | Zpos p => S754_finite false p 0
  | Zneg p => S754_finite true p 0
  end.

Definition add : float -> float -> float := SFadd prec emax.
Definition mul : float -> float -> float := SFmul prec emax.
Definition div : float -> float -> float := SFdiv prec emax.
Definition ltb : float -> float -> bool := SFltb.


(** [a / b] on two [int]s: the quotient of the two integers, rounded once. *)
Definition int_truediv (a b : Z) : Result float :=
  if b =? 0 then Raise ZeroDivisionError
  else
    match div (exact a) (exact b) with
    | S754_infinity _ =>
        Raise (OverflowError "integer division result too large for a float")
    | q => Ok q
    end.

(** [n * x] with [n] an [int]: [n] is converted first. *)
Definition int_mul (n : Z) (x : float) : Result float :=
  match of_Z n with
  | S754_infinity _ => Raise (OverflowError "int too large to convert to float")
  | n' => Ok (mul n' x)
  end.

(** [min(a, b)]: the builtin keeps its first argument unless the second
    compares below it. *)
Definition min (a b : float) : float := if ltb b a then b else a.

End PyFloat.

(** ** Python dictionaries, in insertion order *)

Section Dict.
Context {V : Type}.

Definition dict : Type := list (string * V).

Fixpoint dict_get (k : string) (d : dict) : option V :=
  match d with
  | [] => None
  | (k', v) :: d' => if String.eqb k k' then Some v else dict_get k d'
  end.

Definition dict_mem (k : string) (d : dict) : bool :=
  match dict_get k d with Some _ => true | None => false end.

(** [d[k] = v]: an existing key keeps its position. *)
Fixpoint dict_set (k : string) (v : V) (d : dict) : dict :=
  match d with
  | [] => [(k, v)]
  | (k', v') :: d' =>
      if String.eqb k k' then (k', v) :: d' else (k', v') :: dict_set k v d'
  end.

Fixpoint dict_del (k : string) (d : dict) : dict :=
  match d with
  | [] => []
  | (k', v') :: d' =>
      if String.eqb k k' then d' else (k', v') :: dict_del k d'
  end.

Definition dict_keys (d : dict) : list string := map fst d.
Definition dict_values (d : dict) : list V := map snd d.
End Dict.
Arguments dict V : clear implicits.

(** The value of a string field whose key is absent from the message. *)
Definition absent : string := EmptyString.

(** Truthiness of a string-valued field: [None] and [''] are both falsy. *)
Definition truthy (s : string) : bool := negb (String.eqb s absent).

(** [a or b] on possibly absent strings. *)
Definition str_or (a b : string) : string := if truthy a then a else b.

(** ** The random id source *)

Definition digit_of (n : nat) : ascii := ascii_of_nat (48 + Nat.modulo n 10).

Fixpoint uuid_digits (fuel n : nat) (acc : string) : string :=
  match fuel with
  | O => acc
  | S fuel' =>
      let acc' := String (digit_of n) acc in
      match Nat.div n 10 with
      | O => acc'
      | q => uuid_digits fuel' q acc'
      end
  end.

Definition uuid4 (n : nat) : string := "uuid-" ++ uuid_digits (S n) n absent.

(** ** The persisted models ([app/models]) *)

Module Models.

(** [class TransactionType(str, enum.Enum)] of [models/transaction.py]. *)
Inductive TransactionType : Type :=
| PURCHASE | SALE | ADJUSTMENT | TRANSFER | RETURN.

Definition TransactionType_members : dict TransactionType :=
  [("PURCHASE", PURCHASE); ("SALE", SALE); ("ADJUSTMENT", ADJUSTMENT);
   ("TRANSFER", TRANSFER); ("RETURN", RETURN)].

(** [TransactionType.<name>]: attribute access on the enum class. *)
Definition TransactionType_getattr (name : string) : Result TransactionType :=
  match dict_get name TransactionType_members with
  | Some t => Ok t
  | None => Raise (AttributeError name)
  end.

(** [class OrderStatus(str, enum.Enum)] of [models/order.py]. *)
Inductive OrderStatus : Type :=
| PENDING | CONFIRMED | SHIPPED | DELIVERED | CANCELED.

Definition OrderStatus_members : dict OrderStatus :=
  [("PENDING", PENDING); ("CONFIRMED", CONFIRMED); ("SHIPPED", SHIPPED);
   ("DELIVERED", DELIVERED); ("CANCELED", CANCELED)].

(** [OrderStatus[name]]: lookup of a member by name. *)
Definition OrderStatus_getitem (name : string) : Result OrderStatus :=
  match dict_get name OrderStatus_members with
  | Some s => Ok s
  | None => Raise (KeyError name)
  end.

Definition OrderStatus_getattr (name : string) : Result OrderStatus :=
  match dict_get name OrderStatus_members with
  | Some s => Ok s
  | None => Raise (AttributeError name)
  end.

Definition OrderStatus_eqb (a b : OrderStatus) : bool :=
  match a, b with
  | PENDING, PENDING | CONFIRMED, CONFIRMED | SHIPPED, SHIPPED
  | DELIVERED, DELIVERED | CANCELED, CANCELED => true
  | _, _ => false
  end.

Record Inventory : Type := mkInventory {
  inv_product_id : string;
  inv_location_id : string;
  inv_quantity : Z
}.

Record Transaction : Type := mkTransaction {
  tx_product_id : string;
  tx_quantity_change : Z;
  tx_transaction_type : TransactionType;
  tx_reason : string;
  tx_location_id : string;
  tx_reference_id : string
}.

Record Product : Type := mkProduct {
  prod_id : string;
  prod_unit_price : PyFloat.float;
  prod_minimum_stock : Z;
  prod_maximum_stock : Z
}.

Record Order : Type := mkOrder {
  ord_id : string;
  ord_status : OrderStatus
}.

Record OrderItem : Type := mkOrderItem {
  oi_order_id : string;
  oi_product_id : string;
  oi_quantity : Z
}.

End Models.
Import Models.

(** ** The database session *)

Record Tables : Type := mkTables {
  t_inventory : list Inventory;
  t_transactions : list Transaction;
  t_products : list Product;
  t_orders : list Order;
  t_order_items : list OrderItem
}.

(** A session: what has been committed, what the session currently sees,
    and the database behind it, which may refuse what it is asked to store
    (a value out of a column's range, a broken constraint, a lost
    connection): [gateway t] is the exception a commit of the tables [t]
    raises, [None] when the commit goes through. *)
Record Session : Type := mkSession {
  committed : Tables;
  working : Tables;
  gateway : Tables -> option Exn
}.

(** A [db.commit()] that goes through. *)
Definition commit (d : Session) : Session :=
  {| committed := working d; working := working d; gateway := gateway d |}.

Definition rollback (d : Session) : Session :=
  {| committed := committed d; working := committed d; gateway := gateway d |}.

Definition on_working (f : Tables -> Tables) (d : Session) : Session :=
  {| committed := committed d; working := f (working d); gateway := gateway d |}.

(** [db.commit()] where the caller catches its failure: the exception leaves
    the session as it was, for the handler to roll back. *)
Definition try_commit (d : Session) : Result Session :=
  match gateway d (working d) with
  | None => Ok (commit d)
  | Some e => Raise e
  end.

Definition inv_matches (pid loc : string) (r : Inventory) : bool :=
  String.eqb (inv_product_id r) pid && String.eqb (inv_location_id r) loc.

(** [db.query(Inventory).filter(product_id == pid, location_id == loc).first()] *)
Definition query_inventory (d : Session) (pid loc : string) : option Inventory :=
  find (inv_matches pid loc) (t_inventory (working d)).

(** Assignment to [inventory.quantity] on the row returned by [first()]. *)
Fixpoint set_first_quantity (pid loc : string) (q : Z) (rows : list Inventory)
  : list Inventory :=
  match rows with
  | [] => []
  | r :: rows' =>
      if inv_matches pid loc r
      then mkInventory (inv_product_id r) (inv_location_id r) q :: rows'
      else r :: set_first_quantity pid loc q rows'
  end.

Definition with_inventory (f : list Inventory -> list Inventory) (t : Tables) : Tables :=
  mkTables (f (t_inventory t)) (t_transactions t) (t_products t)
           (t_orders t) (t_order_items t).

Definition set_quantity (pid loc : string) (q : Z) (d : Session) : Session :=
  on_working (with_inventory (set_first_quantity pid loc q)) d.

(** [db.add(Inventory(...))] *)
Definition add_inventory (r : Inventory) (d : Session) : Session :=
  on_working (with_inventory (fun rows => (rows ++ [r])%list)) d.

(** [db.add(Transaction(...))] *)
Definition add_transaction (x : Transaction) (d : Session) : Session :=
  on_working (fun t => mkTables (t_inventory t) (t_transactions t ++ [x])%list
                                (t_products t) (t_orders t) (t_order_items t)) d.

Definition query_product (d : Session) (pid : string) : option Product :=
  find (fun p => String.eqb (prod_id p) pid) (t_products (working d)).

Definition query_order (d : Session) (oid : string) : option Order :=
  find (fun o => String.eqb (ord_id o) oid) (t_orders (working d)).

Fixpoint set_first_status (oid : string) (s : OrderStatus) (rows : list Order)
  : list Order :=
  match rows with
  | [] => []
  | o :: rows' =>
      if String.eqb (ord_id o) oid then mkOrder (ord_id o) s :: rows'
      else o :: set_first_status oid s rows'
  end.

Definition set_order_status (oid : string) (s : OrderStatus) (d : Session) : Session :=
  on_working (fun t => mkTables (t_inventory t) (t_transactions t) (t_products t)
                                (set_first_status oid s (t_orders t))
                                (t_order_items t)) d.

Definition query_order_items (d : Session) (oid : string) : list OrderItem :=
  filter (fun i => String.eqb (oi_order_id i) oid) (t_order_items (working d)).

(** [db.add(Order(...))] and [db.add(OrderItem(...))] *)
Definition add_order (o : Order) (d : Session) : Session :=
  on_working (fun t => mkTables (t_inventory t) (t_transactions t) (t_products t)
                                (t_orders t ++ [o])%list (t_order_items t)) d.

Definition add_order_item (i : OrderItem) (d : Session) : Session :=
  on_working (fun t => mkTables (t_inventory t) (t_transactions t) (t_products t)
                                (t_orders t) (t_order_items t ++ [i])%list) d.

(** ** Message envelopes *)

Record Item : Type := mkItem {
  item_product_id : string;   (* [item.get("product_id")] *)
  item_quantity : Z           (* [item.get("quantity", 0)] *)
}.

(** The values a payload holds. *)
Inductive Value : Type :=
| VNone
| VStr (s : string)
| VInt (z : Z)
| VItems (items : list Item).

(** A payload is a dictionary, as in the source.  A key that holds [None]
    reads like an absent key, as [content.get] has it.  So does, in this
    model, a key that holds a value of another type than the handler
    computes with: the source would take such a value as present and raise at
    the first operation on it. *)
Definition Content : Type := dict Value.

Definition get_str (k : string) (c : Content) : string :=
  match dict_get k c with Some (VStr v) => v | _ => absent end.

Definition get_opt_str (k : string) (c : Content) : option string :=
  match dict_get k c with Some (VStr v) => Some v | _ => None end.

Definition get_int (k : string) (c : Content) : option Z :=
  match dict_get k c with Some (VInt v) => Some v | _ => None end.

Definition get_items (k : string) (c : Content) : list Item :=
  match dict_get k c with Some (VItems v) => v | _ => [] end.

Definition v_str (o : option string) : Value :=
  match o with Some v => VStr v | None => VNone end.

Definition v_int (o : option Z) : Value :=
  match o with Some v => VInt v | None => VNone end.

(** The keys the handlers read with [content.get]. *)
Definition c_transaction_id : Content -> string := get_str "transaction_id".
Definition c_items : Content -> list Item := get_items "items".
Definition c_customer_id : Content -> string := get_str "customer_id".
Definition c_product_id : Content -> string := get_str "product_id".
Definition c_quantity : Content -> option Z := get_int "quantity".
Definition c_update_type : Content -> option string := get_opt_str "update_type".
Definition c_reason : Content -> option string := get_opt_str "reason".
Definition c_request_id : Content -> string := get_str "request_id".
Definition c_transfer_id : Content -> string := get_str "transfer_id".
Definition c_order_id : Content -> string := get_str "order_id".
Definition c_status : Content -> string := get_str "status".
Definition c_store_id : Content -> option string := get_opt_str "store_id".
Definition c_priority : Content -> option string := get_opt_str "priority".

Record Message : Type := mkMessage {
  sender : string;
  recipient : string;
  message_type : string;
  content : Content
}.

Definition opt_default {A : Type} (o : option A) (a : A) : A :=
  match o with Some x => x | None => a end.

(** f-string rendering of an optional string. *)
Definition fmt_opt (o : option string) : string := opt_default o "None".

(** ** The store agent ([app/agents/store_agent.py]) *)

Module StoreAgent.

(** One entry of an [insufficient_items] list. *)
Record Shortfall : Type := mkShortfall {
  sf_product_id : string;
  sf_requested : Z;
  sf_available : Z
}.

(** The dictionaries the handlers return. *)
Inductive Response : Type :=
| RError (message : string)
| RInsufficient (insufficient_items : list Shortfall)
| RSaleSuccess (transaction_id : string)
| RInventorySuccess (product_id : string) (new_quantity : Z)
| ROrderSuccess (order_id : string)
| RAcknowledged (message : string).

Definition response_status (r : Response) : string :=
  match r with
  | RError _ => "error"
  | RInsufficient _ => "insufficient_inventory"
  | RSaleSuccess _ => "success"
  | RInventorySuccess _ _ => "success"
  | ROrderSuccess _ => "success"
  | RAcknowledged _ => "acknowledged"
  end.

Record PendingTransaction : Type := mkPendingTransaction {
  pt_items : list Item;
  pt_customer_id : string;
  pt_status : string
}.

Record Replenishment : Type := mkReplenishment {
  rr_product_id : string;
  rr_quantity : Z;
  rr_priority : string;
  rr_status : string;
  rr_retry_count : option Z;       (* [None]: the key is absent *)
  rr_reference_id : option string;
  rr_failure_reason : option string
}.

Record Store : Type := mkStore {
  store_id : string;
  db : Session;
  pending_transactions : dict PendingTransaction;
  pending_replenishments : dict Replenishment;
  outbox : list Message;           (* what [send_message] was called with *)
  uuid_next : nat
}.

Definition agent_id (s : Store) : string := "store_agent_" ++ store_id s.

Definition with_db (d : Session) (s : Store) : Store :=
  mkStore (store_id s) d (pending_transactions s) (pending_replenishments s)
          (outbox s) (uuid_next s).

Definition with_pending_transactions (p : dict PendingTransaction) (s : Store) : Store :=
  mkStore (store_id s) (db s) p (pending_replenishments s) (outbox s) (uuid_next s).

Definition with_pending_replenishments (p : dict Replenishment) (s : Store) : Store :=
  mkStore (store_id s) (db s) (pending_transactions s) p (outbox s) (uuid_next s).

(** [Agent.send_message]: the base class only logs the envelope. *)
Definition send_message (m : Message) (s : Store) : Store :=
  mkStore (store_id s) (db s) (pending_transactions s) (pending_replenishments s)
          (outbox s ++ [m])%list (uuid_next s).

(** [str(uuid.uuid4())] *)
Definition draw_uuid (s : Store) : string * Store :=
  (uuid4 (uuid_next s),
   mkStore (store_id s) (db s) (pending_transactions s) (pending_replenishments s)
           (outbox s) (S (uuid_next s))).

Definition available (o : option Inventory) : Z :=
  match o with Some r => inv_quantity r | None => 0 end.

(** [not inventory or inventory.quantity < quantity] *)
Definition insufficient (o : option Inventory) (quantity : Z) : bool :=
  match o with
  | None => true
  | Some r => inv_quantity r <? quantity
  end.

(** The validation loop of [_handle_sale_request]: returns
    [insufficient_items] and [valid_items]. *)
Fixpoint check_items (d : Session) (loc : string) (items : list Item)
  : list Shortfall * list Item :=
  match items with
  | [] => ([], [])
  | item :: rest =>
      let '(ins, val) := check_items d loc rest in
      let product_id := item_product_id item in
      let quantity := item_quantity item in
      if negb (truthy product_id) || (quantity <=? 0) then (ins, val)
      else
        let inventory := query_inventory d product_id loc in
        if insufficient inventory quantity
        then (mkShortfall product_id quantity (available inventory) :: ins, val)
        else (ins, item :: val)
  end.

(** [sum(req["quantity"] for req in pending_replenishments.values()
        if req["product_id"] == product_id and req["status"] == "pending")] *)
Definition pending_quantity (product_id : string) (p : dict Replenishment) : Z :=
  fold_right Z.add 0
    (map rr_quantity
       (filter (fun r => String.eqb (rr_product_id r) product_id
                         && String.eqb (rr_status r) "pending")
               (dict_values p))).

(** The envelope [_request_replenishment] hands to [send_message]. *)
Definition replenishment_request (store_id request_id product_id : string)
    (quantity : Z) (priority : string) : Message :=
  mkMessage ("store_agent_" ++ store_id) "warehouse_agent_main"
    "REPLENISHMENT_REQUEST"
    [("request_id", VStr request_id); ("product_id", VStr product_id);
     ("quantity", VInt quantity); ("store_id", VStr store_id);
     ("priority", VStr priority)].

Definition _request_replenishment (product_id : string) (quantity : Z)
    (priority : string) (is_retry : bool) (original_request_id : string)
    (s : Store) : string * Store :=
  let '(request_id, s1) :=
    if is_retry then (original_request_id, s) else draw_uuid s in
  let s2 :=
    if dict_mem request_id (pending_replenishments s1) then s1
    else with_pending_replenishments
           (dict_set request_id
              (mkReplenishment product_id quantity priority "pending"
                 (Some (if is_retry then 1 else 0)) None None)
              (pending_replenishments s1)) s1 in
  let s3 :=
    send_message
      (replenishment_request (store_id s2) request_id product_id quantity priority)
      s2 in
  (request_id, s3).

Definition _check_reorder_needed (product_id : string) (s : Store) : Store :=
  match query_inventory (db s) product_id (store_id s) with
  | None => s
  | Some inventory =>
      match query_product (db s) product_id with
      | None => s
      | Some product =>
          if inv_quantity inventory <=? prod_minimum_stock product then
            let order_qty := Z.max 10 (prod_minimum_stock product * 4) in
            if pending_quantity product_id (pending_replenishments s) =? 0
            then snd (_request_replenishment product_id order_qty "HIGH" false absent s)
            else s
          else s
      end
  end.

(** How the [for item in items] loop of [_process_sale] ends. *)
Inductive LoopExit : Type :=
| Completed                        (* fell through to [db.commit()] *)
| Short (product_id : string)      (* the early [return] after [db.rollback()] *)
| Failed (e : Exn).                (* an exception reached the [except] clause *)

Fixpoint sale_loop (transaction_id loc : string) (items : list Item) (d : Session)
  : LoopExit * Session :=
  match items with
  | [] => (Completed, d)
  | item :: rest =>
      let product_id := item_product_id item in
      let quantity := item_quantity item in
      let inventory := query_inventory d product_id loc in
      if insufficient inventory quantity
      then (Short product_id, rollback d)
      else
        let d1 := set_quantity product_id loc (available inventory - quantity) d in
        match TransactionType_getattr "SALE" with
        | Raise e => (Failed e, d1)
        | Ok ty =>
            let d2 := add_transaction
                        (mkTransaction product_id (- quantity) ty
                           ("Sale " ++ transaction_id) loc transaction_id) d1 in
            sale_loop transaction_id loc rest d2
        end
  end.

Definition mark_completed (transaction_id : string) (s : Store) : Store :=
  match dict_get transaction_id (pending_transactions s) with
  | None => s
  | Some t =>
      with_pending_transactions
        (dict_set transaction_id
           (mkPendingTransaction (pt_items t) (pt_customer_id t) "completed")
           (pending_transactions s)) s
  end.

(** The [try] of the source covers the loop, the commit and the reorder
    checks that follow it.  On the rows of this model (no column is NULL) the
    reorder checks raise nothing, so the [except] clause is reached from the
    loop and from the commit only; in the source it also answers for what
    raises after the commit. *)
Definition _process_sale (transaction_id : string) (s : Store) : Response * Store :=
  match dict_get transaction_id (pending_transactions s) with
  | None => (RError ("Unknown transaction: " ++ transaction_id), s)
  | Some transaction =>
      let items := pt_items transaction in
      match sale_loop transaction_id (store_id s) items (db s) with
      | (Failed e, d) =>
          (RError ("Error processing sale: " ++ Exn_str e), with_db (rollback d) s)
      | (Short product_id, d) =>
          (RError ("Insufficient inventory for product " ++ product_id), with_db d s)
      | (Completed, d) =>
          match try_commit d with
          | Raise e =>
              (RError ("Error processing sale: " ++ Exn_str e), with_db (rollback d) s)
          | Ok d' =>
              let s1 := with_db d' s in
              let s2 := mark_completed transaction_id s1 in
              let s3 := fold_left (fun acc item =>
                                     _check_reorder_needed (item_product_id item) acc)
                                  items s2 in
              (RSaleSuccess transaction_id, s3)
          end
      end
  end.

Definition _handle_sale_request (m : Message) (s : Store) : Response * Store :=
  let c := content m in
  let transaction_id := c_transaction_id c in
  let items := c_items c in
  if negb (truthy transaction_id && negb (Nat.eqb (List.length items) 0)) then
    (RError "Invalid sale request: transaction_id and items required", s)
  else
    let '(insufficient_items, valid_items) := check_items (db s) (store_id s) items in
    match insufficient_items with
    | _ :: _ => (RInsufficient insufficient_items, s)
    | [] =>
        match valid_items with
        | [] => (RError "No valid items in sale request", s)
        | _ :: _ =>
            let s1 := with_pending_transactions
                        (dict_set transaction_id
                           (mkPendingTransaction valid_items (c_customer_id c) "pending")
                           (pending_transactions s)) s in
            let '(result, s2) := _process_sale transaction_id s1 in
            if String.eqb (response_status result) "success"
            then (RSaleSuccess transaction_id, s2)
            else (result, s2)
        end
    end.

Definition mark_fulfilled (request_id : string) (s : Store) : Store :=
  match dict_get request_id (pending_replenishments s) with
  | None => s
  | Some r =>
      with_pending_replenishments
        (dict_set request_id
           (mkReplenishment (rr_product_id r) (rr_quantity r) (rr_priority r)
              "fulfilled" (rr_retry_count r) (rr_reference_id r)
              (rr_failure_reason r))
           (pending_replenishments s)) s
  end.

(** The [if inventory: ... else: ...] block of [_handle_inventory_update]:
    [None] is the early [return] for a removal from a missing row. *)
Definition apply_update (update_type product_id loc : string) (quantity : Z)
    (d : Session) : option Session :=
  match query_inventory d product_id loc with
  | Some inventory =>
      if String.eqb update_type "ADD" then
        Some (set_quantity product_id loc (inv_quantity inventory + quantity) d)
      else if String.eqb update_type "REMOVE" then
        Some (set_quantity product_id loc
                (Z.max 0 (inv_quantity inventory - quantity)) d)
      else Some d
  | None =>
      if String.eqb update_type "ADD" then
        Some (add_inventory (mkInventory product_id loc quantity) d)
      else None
  end.

Definition _handle_inventory_update (m : Message) (s : Store)
  : Result Response * Store :=
  let c := content m in
  let product_id := c_product_id c in
  let quantity := opt_default (c_quantity c) 0 in
  let update_type := opt_default (c_update_type c) "ADD" in
  let reason := opt_default (c_reason c) "Warehouse transfer" in
  let request_id := c_request_id c in
  let transfer_id := c_transfer_id c in
  if negb (truthy product_id && negb (quantity =? 0)) then
    (Ok (RError "Invalid inventory update: product_id and quantity required"), s)
  else
    match apply_update update_type product_id (store_id s) quantity (db s) with
    | None =>
        (Ok (RError ("Cannot remove inventory for non-existent product: "
                     ++ product_id)), s)
    | Some d1 =>
        let s1 := with_db d1 s in
        match (if String.eqb update_type "ADD"
               then TransactionType_getattr "DELIVERY"
               else TransactionType_getattr "TRANSFER") with
        | Raise e => (Raise e, s1)      (* outside any [try]: it escapes *)
        | Ok transaction_type =>
            let '(reference_id, s2) :=
              if truthy request_id then (request_id, s1)
              else if truthy transfer_id then (transfer_id, s1)
              else draw_uuid s1 in
            let transaction :=
              mkTransaction product_id
                (if String.eqb update_type "ADD" then quantity else - quantity)
                transaction_type reason (store_id s) reference_id in
            let d2 := add_transaction transaction (db s2) in
            match try_commit d2 with
            | Raise e =>                (* the [except] clause *)
                (Ok (RError ("Error updating inventory: " ++ Exn_str e)),
                 with_db (rollback d2) s2)
            | Ok d3 =>
                let s3 := with_db d3 s2 in
                let s4 :=
                  if truthy request_id
                     && dict_mem request_id (pending_replenishments s3)
                  then mark_fulfilled request_id s3 else s3 in
                (Ok (RInventorySuccess product_id
                       (available (query_inventory (db s4) product_id (store_id s)))),
                 s4)
            end
        end
    end.

(** The [for order_item in order_items] loop of [_handle_order_update]. *)
Fixpoint return_items (order_id loc : string) (items : list OrderItem) (d : Session)
  : Result Session :=
  match items with
  | [] => Ok d
  | order_item :: rest =>
      match query_inventory d (oi_product_id order_item) loc with
      | None => return_items order_id loc rest d
      | Some inventory =>
          let d1 := set_quantity (oi_product_id order_item) loc
                      (inv_quantity inventory + oi_quantity order_item) d in
          do ty <- TransactionType_getattr "RETURN";
          return_items order_id loc rest
            (add_transaction
               (mkTransaction (oi_product_id order_item) (oi_quantity order_item)
                  ty ("Order cancelled: " ++ order_id) loc order_id) d1)
      end
  end.

(** The body of the [try] of [_handle_order_update], up to and with
    [db.commit()]. *)
Definition order_update_body (order_id status loc : string) (d : Session)
  : Result Session :=
  do new_status <- OrderStatus_getitem status;
  let d1 := set_order_status order_id new_status d in
  do d2 <-
    (if String.eqb status "CANCELLED" then
       do delivered <- OrderStatus_getattr "DELIVERED";
       if negb (OrderStatus_eqb new_status delivered)
       then return_items order_id loc (query_order_items d1 order_id) d1
       else Ok d1
     else Ok d1);
  try_commit d2.

Definition _handle_order_update (m : Message) (s : Store) : Response * Store :=
  let c := content m in
  let order_id := c_order_id c in
  let status := c_status c in
  if negb (truthy order_id && truthy status) then
    (RError "Invalid order update: order_id and status required", s)
  else
    match query_order (db s) order_id with
    | None => (RError ("Unknown order: " ++ order_id), s)
    | Some _ =>
        match order_update_body order_id status (store_id s) (db s) with
        | Ok d => (ROrderSuccess order_id, with_db d s)
        | Raise e =>
            (RError ("Error updating order: " ++ Exn_str e),
             with_db (rollback (db s)) s)
        end
    end.

(** [request.get("reference_id") == transfer_id] *)
Definition references (transfer_id : string) (kv : string * Replenishment) : bool :=
  match rr_reference_id (snd kv) with
  | Some r => String.eqb r transfer_id
  | None => false
  end.

(** ["MEDIUM" if request.get("priority") == "HIGH" else "LOW"] *)
Definition lowered (priority : string) : string :=
  if String.eqb priority "HIGH" then "MEDIUM" else "LOW".

(** The in-place updates of [_handle_transfer_failed] on the request found. *)
Definition failed_request (request : Replenishment) (reason : string)
    (retry_count : option Z) : Replenishment :=
  mkReplenishment (rr_product_id request) (rr_quantity request)
    (rr_priority request) "failed" retry_count (rr_reference_id request)
    (Some reason).

(** ["retry_count" not in request or request["retry_count"] < 3] *)
Definition may_retry (request : Replenishment) : bool :=
  match rr_retry_count request with
  | None => true
  | Some n => n <? 3
  end.

Definition _handle_transfer_failed (m : Message) (s : Store) : Response * Store :=
  let c := content m in
  let transfer_id := c_transfer_id c in
  let product_id := c_product_id c in
  let reason := opt_default (c_reason c) "Unknown reason" in
  if negb (truthy transfer_id && truthy product_id) then
    (RError "Invalid transfer failed notification: transfer_id and product_id required",
     s)
  else
    match find (references transfer_id) (pending_replenishments s) with
    | Some (request_id, request) =>
        if may_retry request then
          let retry_count := opt_default (rr_retry_count request) 0 + 1 in
          let s1 := with_pending_replenishments
                      (dict_set request_id
                         (failed_request request reason (Some retry_count))
                         (pending_replenishments s)) s in
          let priority := lowered (rr_priority request) in
          let s2 := snd (_request_replenishment product_id (rr_quantity request)
                           priority true request_id s1) in
          (RAcknowledged ("Transfer failure processed for request " ++ request_id), s2)
        else
          (RAcknowledged ("Transfer failure processed for request " ++ request_id),
           with_pending_replenishments
             (dict_set request_id
                (failed_request request reason (rr_retry_count request))
                (pending_replenishments s)) s)
    | None => (RAcknowledged "Transfer failure acknowledged", s)
    end.

Definition process_message (m : Message) (s : Store)
  : Result (option Response) * Store :=
  let message_type := message_type m in
  if String.eqb message_type "SALE_REQUEST" then
    let '(r, s') := _handle_sale_request m s in (Ok (Some r), s')
  else if String.eqb message_type "INVENTORY_UPDATE" then
    match _handle_inventory_update m s with
    | (Ok r, s') => (Ok (Some r), s')
    | (Raise e, s') => (Raise e, s')
    end
  else if String.eqb message_type "ORDER_UPDATE" then
    let '(r, s') := _handle_order_update m s in (Ok (Some r), s')
  else if String.eqb message_type "TRANSFER_FAILED" then
    let '(r, s') := _handle_transfer_failed m s in (Ok (Some r), s')
  else (Ok None, s).

(** What [create_order] returns. *)
Inductive OrderResult : Type :=
| OError (message : string)
| OInsufficient (insufficient_items : list Shortfall)
| OCreated (order_id : string) (total_amount : PyFloat.float).

(** The second [for item in items] loop of [create_order]: it runs over all
    the items, also those the validation loop skipped. *)
Fixpoint create_order_items (order_id loc : string) (items : list Item)
    (d : Session) (order_total : PyFloat.float) : Result (Session * PyFloat.float) :=
  match items with
  | [] => Ok (d, order_total)
  | item :: rest =>
      let product_id := item_product_id item in
      let quantity := item_quantity item in
      match query_product d product_id with
      | None => create_order_items order_id loc rest d order_total
      | Some product =>
          let d1 := add_order_item (mkOrderItem order_id product_id quantity) d in
          match query_inventory d1 product_id loc with
          | None => Raise (AttributeError "quantity")   (* [None.quantity] *)
          | Some inventory =>
              let d2 := set_quantity product_id loc
                          (inv_quantity inventory - quantity) d1 in
              do ty <- TransactionType_getattr "ORDER";
              let d3 := add_transaction
                          (mkTransaction product_id (- quantity) ty
                             ("Customer order " ++ order_id) loc order_id) d2 in
              do line_total <- PyFloat.int_mul quantity (prod_unit_price product);
              create_order_items order_id loc rest d3
                (PyFloat.add order_total line_total)
          end
      end
  end.

(** The body of the [try] of [create_order], up to and with [db.commit()].
    The arguments of [Order(...)] are evaluated before the row is built. *)
Definition create_order_body (order_id loc : string) (items : list Item)
    (d : Session) : Result (Session * PyFloat.float) :=
  do status <- OrderStatus_getattr "PROCESSING";
  let d1 := add_order (mkOrder order_id status) d in
  do r <- create_order_items order_id loc items d1 (PyFloat.of_Z 0);
  do d2 <- try_commit (fst r);
  Ok (d2, snd r).

Definition create_order (customer_id : string) (items : list Item) (s : Store)
  : OrderResult * Store :=
  match items with
  | [] => (OError "No items in order", s)
  | _ :: _ =>
      match fst (check_items (db s) (store_id s) items) with
      | _ :: _ as insufficient_items => (OInsufficient insufficient_items, s)
      | [] =>
          let '(order_id, s1) := draw_uuid s in
          match create_order_body order_id (store_id s1) items (db s1) with
          | Ok (d, order_total) =>
              let s2 := with_db d s1 in
              let s3 := fold_left
                          (fun acc item =>
                             _check_reorder_needed (item_product_id item) acc)
                          items s2 in
              (OCreated order_id order_total, s3)
          | Raise e =>
              (OError ("Error creating order: " ++ Exn_str e),
               with_db (rollback (db s1)) s1)
          end
      end
  end.

End StoreAgent.

(** ** The warehouse agent ([app/agents/warehouse_agent.py]) *)

Module WarehouseAgent.

Record Transfer : Type := mkTransfer {
  tr_product_id : string;
  tr_store_id : option string;
  tr_requested_quantity : Z;
  tr_available_quantity : Z;
  tr_priority : string;
  tr_status : string;
  tr_reason : option string
}.

Record SupplyOrder : Type := mkSupplyOrder {
  so_product_id : string;
  so_quantity : option Z;
  so_store_id : option string;
  so_status : string
}.

Record Warehouse : Type := mkWarehouse {
  warehouse_id : string;
  db : Session;
  pending_transfers : dict Transfer;
  pending_orders : dict SupplyOrder;
  transfer_priorities : dict PyFloat.float;
  outbox : list Message;
  uuid_next : nat
}.

Definition agent_id (w : Warehouse) : string := "warehouse_agent_" ++ warehouse_id w.

Definition with_db (d : Session) (w : Warehouse) : Warehouse :=
  mkWarehouse (warehouse_id w) d (pending_transfers w) (pending_orders w)
              (transfer_priorities w) (outbox w) (uuid_next w).

Definition with_pending_transfers (p : dict Transfer) (w : Warehouse) : Warehouse :=
  mkWarehouse (warehouse_id w) (db w) p (pending_orders w)
              (transfer_priorities w) (outbox w) (uuid_next w).

Definition with_pending_orders (p : dict SupplyOrder) (w : Warehouse) : Warehouse :=
  mkWarehouse (warehouse_id w) (db w) (pending_transfers w) p
              (transfer_priorities w) (outbox w) (uuid_next w).

Definition with_transfer_priorities (p : dict PyFloat.float) (w : Warehouse)
  : Warehouse :=
  mkWarehouse (warehouse_id w) (db w) (pending_transfers w) (pending_orders w)
              p (outbox w) (uuid_next w).

Definition send_message (m : Message) (w : Warehouse) : Warehouse :=
  mkWarehouse (warehouse_id w) (db w) (pending_transfers w) (pending_orders w)
              (transfer_priorities w) (outbox w ++ [m])%list (uuid_next w).

Definition draw_uuid (w : Warehouse) : string * Warehouse :=
  (uuid4 (uuid_next w),
   mkWarehouse (warehouse_id w) (db w) (pending_transfers w) (pending_orders w)
               (transfer_priorities w) (outbox w) (S (uuid_next w))).

(** [priority_values.get(priority, 50)] *)
Definition base_score (priority : string) : Z :=
  if String.eqb priority "HIGH" then 100
  else if String.eqb priority "MEDIUM" then 50
  else if String.eqb priority "LOW" then 10
  else 50.

(** The two quantities are [int]s and the price is a [float]: the quotient is
    rounded once, the base score is converted for the product, and the
    products are taken from left to right. *)
Definition _calculate_priority_score (priority : string) (product : Product)
    (available_quantity requested_quantity : Z) : Result PyFloat.float :=
  let base_score := base_score priority in
  do quotient <- PyFloat.int_truediv available_quantity requested_quantity;
  let fulfillment_pct := PyFloat.min (PyFloat.literal 1 0) quotient in
  let value_factor :=
    PyFloat.min (PyFloat.literal 2 0)
      (PyFloat.add (PyFloat.div (prod_unit_price product) (PyFloat.literal 100 0))
                   (PyFloat.literal 1 (-1))) in
  do scaled <- PyFloat.int_mul base_score fulfillment_pct;
  Ok (PyFloat.mul scaled value_factor).

Definition store_agent_of (store_id : option string) : string :=
  "store_agent_" ++ fmt_opt store_id.

Definition _request_from_supplier (product_id : string) (quantity : option Z)
    (store_id : option string) (w : Warehouse) : Warehouse :=
  let w1 :=
    send_message
      (mkMessage (agent_id w) "supplier_agent" "SUPPLY_REQUEST"
         [("product_id", VStr product_id); ("quantity", v_int quantity);
          ("warehouse_id", VStr (warehouse_id w)); ("store_id", v_str store_id)]) w in
  let '(request_id, w2) := draw_uuid w1 in
  with_pending_orders
    (dict_set request_id (mkSupplyOrder product_id quantity store_id "REQUESTED")
       (pending_orders w2)) w2.

Definition inventory_response (w : Warehouse) (m : Message) (c : Content) : Message :=
  mkMessage (agent_id w) (sender m) "INVENTORY_RESPONSE" c.

(** Creation of a PENDING transfer and of its entry in the priority index,
    shared by the PARTIAL and the APPROVED exits. *)
Definition enqueue_transfer (product : Product) (product_id : string)
    (store_id : option string) (priority : string)
    (requested_quantity available_quantity : Z) (w : Warehouse)
  : Result string * Warehouse :=
  let '(transfer_id, w1) := draw_uuid w in
  let w2 := with_pending_transfers
              (dict_set transfer_id
                 (mkTransfer product_id store_id requested_quantity
                    available_quantity priority "PENDING" None)
                 (pending_transfers w1)) w1 in
  match _calculate_priority_score priority product available_quantity
          requested_quantity with
  | Raise e => (Raise e, w2)
  | Ok priority_score =>
      (Ok transfer_id,
       with_transfer_priorities
         (dict_set transfer_id priority_score (transfer_priorities w2)) w2)
  end.

Definition _handle_inventory_request (m : Message) (w : Warehouse)
  : Result Message * Warehouse :=
  let c := content m in
  let product_id := c_product_id c in
  let store_id := c_store_id c in
  let priority := opt_default (c_priority c) "MEDIUM" in
  let inventory := query_inventory (db w) product_id (warehouse_id w) in
  match query_product (db w) product_id with
  | None =>
      (Ok (inventory_response w m
             [("product_id", VStr product_id); ("status", VStr "REJECTED");
              ("reason", VStr "Product not found")]), w)
  | Some product =>
      match inventory, c_quantity c with
      | Some _, None => (Raise (TypeError "'<' not supported between instances of 'int' and 'NoneType'"), w)
      | None, requested =>
          let w1 := _request_from_supplier product_id requested store_id w in
          (Ok (inventory_response w m
                 [("product_id", VStr product_id); ("status", VStr "BACKORDERED");
                  ("reason", VStr "Insufficient inventory, order placed with supplier");
                  ("available_quantity", VInt 0);
                  ("requested_quantity", v_int requested)]), w1)
      | Some inv, Some requested_quantity =>
          if inv_quantity inv <? requested_quantity then
            let available_quantity := inv_quantity inv in
            if 0 <? available_quantity then
              match enqueue_transfer product product_id store_id priority
                      requested_quantity available_quantity w with
              | (Raise e, w1) => (Raise e, w1)
              | (Ok transfer_id, w1) =>
                  (Ok (inventory_response w m
                         [("product_id", VStr product_id); ("status", VStr "PARTIAL");
                          ("transfer_id", VStr transfer_id);
                          ("available_quantity", VInt available_quantity);
                          ("requested_quantity", VInt requested_quantity)]),
                   w1)
              end
            else
              let w1 := _request_from_supplier product_id (Some requested_quantity)
                          store_id w in
              (Ok (inventory_response w m
                     [("product_id", VStr product_id); ("status", VStr "BACKORDERED");
                      ("reason",
                       VStr "Insufficient inventory, order placed with supplier");
                      ("available_quantity", VInt available_quantity);
                      ("requested_quantity", VInt requested_quantity)]), w1)
          else
            match enqueue_transfer product product_id store_id priority
                    requested_quantity requested_quantity w with
            | (Raise e, w1) => (Raise e, w1)
            | (Ok transfer_id, w1) =>
                (Ok (inventory_response w m
                       [("product_id", VStr product_id); ("status", VStr "APPROVED");
                        ("transfer_id", VStr transfer_id);
                        ("quantity", VInt requested_quantity)]), w1)
            end
      end
  end.

Definition with_status (status : string) (reason : option string) (t : Transfer)
  : Transfer :=
  mkTransfer (tr_product_id t) (tr_store_id t) (tr_requested_quantity t)
             (tr_available_quantity t) (tr_priority t) status reason.

(** The envelope both failure paths send to the store. *)
Definition transfer_failure_notice (w : Warehouse) (store_id : option string)
    (transfer_id product_id reason : string) : Message :=
  mkMessage (agent_id w) (store_agent_of store_id) "TRANSFER_UPDATE"
    [("transfer_id", VStr transfer_id); ("product_id", VStr product_id);
     ("status", VStr "FAILED"); ("reason", VStr reason)].

Definition _handle_supply_confirmation (m : Message) (w : Warehouse) : Warehouse :=
  let c := content m in
  let order_id := c_order_id c in
  let status := c_status c in
  match dict_get order_id (pending_orders w) with
  | None => w
  | Some order_data =>
      let w1 := with_pending_orders
                  (dict_set order_id
                     (mkSupplyOrder (so_product_id order_data) (so_quantity order_data)
                        (so_store_id order_data) status)
                     (pending_orders w)) w in
      if String.eqb status "DELIVERED" then
        let notify (acc : Warehouse) (item : Item) : Warehouse :=
          match so_store_id order_data with
          | Some store_id =>
              if truthy store_id then
                send_message
                  (mkMessage (agent_id acc) ("store_agent_" ++ store_id)
                     "INVENTORY_AVAILABLE"
                     [("product_id", VStr (item_product_id item));
                      ("quantity", VInt (item_quantity item));
                      ("warehouse_id", VStr (warehouse_id acc));
                      ("order_id", VStr order_id)]) acc
              else acc
          | None => acc
          end in
        let w2 := fold_left notify (c_items c) w1 in
        with_pending_orders (dict_del order_id (pending_orders w2)) w2
      else w1
  end.

Definition _handle_transfer_status_update (m : Message) (w : Warehouse) : Warehouse :=
  let c := content m in
  let transfer_id := c_transfer_id c in
  let status := c_status c in
  match dict_get transfer_id (pending_transfers w) with
  | None => w
  | Some transfer_data =>
      let w1 := with_pending_transfers
                  (dict_set transfer_id
                     (with_status status (tr_reason transfer_data) transfer_data)
                     (pending_transfers w)) w in
      if String.eqb status "COMPLETED" || String.eqb status "FAILED" then
        let w2 :=
          if String.eqb status "FAILED" then
            send_message
              (transfer_failure_notice w1 (tr_store_id transfer_data) transfer_id
                 (tr_product_id transfer_data)
                 (opt_default (c_reason c) "Unknown reason")) w1
          else w1 in
        let w3 := with_pending_transfers
                    (dict_del transfer_id (pending_transfers w2)) w2 in
        if dict_mem transfer_id (transfer_priorities w3)
        then with_transfer_priorities
               (dict_del transfer_id (transfer_priorities w3)) w3
        else w3
      else w1
  end.

(** [sorted(items, key=lambda x: x[1], reverse=True)]: a stable sort, so
    entries of equal score keep their insertion order.  The sort compares
    keys with [<] alone.  It is the order Python produces when the keys can
    be compared, which floats can unless one of them is a NaN. *)
Fixpoint insert_desc (x : string * PyFloat.float) (l : list (string * PyFloat.float))
  : list (string * PyFloat.float) :=
  match l with
  | [] => [x]
  | y :: l' =>
      if PyFloat.ltb (snd y) (snd x)
      then x :: y :: l'
      else y :: insert_desc x l'
  end.

Definition sorted_desc (l : list (string * PyFloat.float))
  : list (string * PyFloat.float) :=
  fold_left (fun acc x => insert_desc x acc) l [].

(** One iteration of the [for transfer_id, _ in sorted_transfers] loop. *)
Definition execute_transfer (transfer_id : string) (w : Warehouse)
  : Result unit * Warehouse :=
  match dict_get transfer_id (pending_transfers w) with
  | None => (Ok tt, w)
  | Some transfer_data =>
      if negb (String.eqb (tr_status transfer_data) "PENDING") then (Ok tt, w)
      else
        let product_id := tr_product_id transfer_data in
        let store_id := tr_store_id transfer_data in
        let quantity := tr_available_quantity transfer_data in
        match query_inventory (db w) product_id (warehouse_id w) with
        | Some warehouse_inventory =>
            if inv_quantity warehouse_inventory <? quantity then
              let w1 := with_pending_transfers
                          (dict_set transfer_id
                             (with_status "FAILED" (Some "Insufficient inventory")
                                transfer_data)
                             (pending_transfers w)) w in
              (Ok tt,
               send_message
                 (transfer_failure_notice w1 store_id transfer_id product_id
                    "Insufficient inventory") w1)
            else
              let d1 := set_quantity product_id (warehouse_id w)
                          (inv_quantity warehouse_inventory - quantity) (db w) in
              match TransactionType_getattr "TRANSFER" with
              | Raise e => (Raise e, with_db d1 w)
              | Ok ty =>
                  let d2 := add_transaction
                              (mkTransaction product_id (- quantity) ty
                                 ("Transfer to store " ++ fmt_opt store_id)
                                 (warehouse_id w) transfer_id) d1 in
                  let w1 := with_pending_transfers
                              (dict_set transfer_id
                                 (with_status "IN_TRANSIT" (tr_reason transfer_data)
                                    transfer_data)
                                 (pending_transfers w)) w in
                  let w2 := with_db (commit d2) w1 in
                  (Ok tt,
                   send_message
                     (mkMessage (agent_id w2) (store_agent_of store_id)
                        "TRANSFER_INITIATED"
                        [("transfer_id", VStr transfer_id);
                         ("product_id", VStr product_id);
                         ("quantity", VInt quantity);
                         ("warehouse_id", VStr (warehouse_id w2))])
                     w2)
              end
        | None =>
            let w1 := with_pending_transfers
                        (dict_set transfer_id
                           (with_status "FAILED" (Some "Insufficient inventory")
                              transfer_data)
                           (pending_transfers w)) w in
            (Ok tt,
             send_message
               (transfer_failure_notice w1 store_id transfer_id product_id
                  "Insufficient inventory") w1)
        end
  end.

Fixpoint execute_transfers (ids : list string) (w : Warehouse)
  : Result unit * Warehouse :=
  match ids with
  | [] => (Ok tt, w)
  | transfer_id :: rest =>
      match execute_transfer transfer_id w with
      | (Raise e, w1) => (Raise e, w1)
      | (Ok _, w1) => execute_transfers rest w1
      end
  end.

Definition _process_pending_transfers (w : Warehouse) : Result unit * Warehouse :=
  match pending_transfers w with
  | [] => (Ok tt, w)
  | _ :: _ =>
      let sorted_transfers := sorted_desc (transfer_priorities w) in
      execute_transfers (map fst sorted_transfers) w
  end.

(** [already_ordered] of [_check_stock_levels]. *)
Definition already_ordered (product_id : string) (p : dict SupplyOrder) : bool :=
  existsb (fun o => String.eqb (so_product_id o) product_id
                    && (String.eqb (so_status o) "PENDING"
                        || String.eqb (so_status o) "CONFIRMED"
                        || String.eqb (so_status o) "SHIPPED"))
          (dict_values p).

Definition _check_stock_levels (w : Warehouse) : Warehouse :=
  fold_left
    (fun acc inventory =>
       match query_product (db acc) (inv_product_id inventory) with
       | None => acc
       | Some product =>
           if inv_quantity inventory <? prod_minimum_stock product then
             let quantity_to_order :=
               prod_maximum_stock product - inv_quantity inventory in
             if negb (already_ordered (prod_id product) (pending_orders acc))
                && (0 <? quantity_to_order)
             then _request_from_supplier (prod_id product) (Some quantity_to_order)
                    None acc
             else acc
           else acc
       end)
    (filter (fun r => String.eqb (inv_location_id r) (warehouse_id w))
            (t_inventory (working (db w))))
    w.

Definition run_cycle (w : Warehouse) : Result unit * Warehouse :=
  _process_pending_transfers (_check_stock_levels w).

Definition process_message (m : Message) (w : Warehouse)
  : Result (option Message) * Warehouse :=
  let message_type := message_type m in
  if String.eqb message_type "INVENTORY_REQUEST" then
    match _handle_inventory_request m w with
    | (Ok r, w') => (Ok (Some r), w')
    | (Raise e, w') => (Raise e, w')
    end
  else if String.eqb message_type "SUPPLY_CONFIRMATION" then
    (Ok None, _handle_supply_confirmation m w)
  else if String.eqb message_type "TRANSFER_STATUS_UPDATE" then
    (Ok None, _handle_transfer_status_update m w)
  else (Ok None, w).

End WarehouseAgent.

(** ** The inventory optimizer ([app/services/optimization/inventory.py]) *)

Module InventoryOptimizer.

Local Open Scope R_scope.

Record Optimizer : Type := mkOptimizer {
  holding_cost_pct : R;
  ordering_cost : R
}.

(** [InventoryOptimizer()] with the defaults of [__init__]. *)
Definition default_optimizer : Optimizer := mkOptimizer (25 / 100) 20.

Definition Rleb (x y : R) : bool := if Rle_dec x y then true else false.
Definition Rltb (x y : R) : bool := if Rlt_dec x y then true else false.

(** [math.ceil] *)
Definition ceil (x : R) : Z := (1 - up (- x))%Z.

(** [int(x)]: truncation towards zero. *)
Definition trunc (x : R) : Z := if Rleb 0 x then (up x - 1)%Z else ceil x.

(** [round(x, ndigits)], to the nearest multiple of [10^-ndigits], ties to even. *)
Definition round_half_even (y : R) : Z :=
  let f := (up y - 1)%Z in
  let d := y - IZR f in
  if Rltb d (1 / 2) then f
  else if Rltb (1 / 2) d then (f + 1)%Z
  else if Z.even f then f else (f + 1)%Z.

Definition py_round (x : R) (ndigits : nat) : R :=
  IZR (round_half_even (x * 10 ^ ndigits)) / 10 ^ ndigits.

(** [a / b] on floats. *)
Definition py_div (a b : R) : Result R :=
  if Req_dec_T b 0 then Raise ZeroDivisionError else Ok (a / b).

(** [math.sqrt] *)
Definition py_sqrt (x : R) : Result R :=
  if Rltb x 0 then Raise ValueError else Ok (sqrt x).

Definition calculate_eoq (self : Optimizer) (annual_demand unit_cost : R) : Result Z :=
  if Rleb annual_demand 0 || Rleb unit_cost 0 then Ok 0%Z
  else
    let holding_cost := unit_cost * holding_cost_pct self in
    do q <- py_div (2 * annual_demand * ordering_cost self) holding_cost;
    do eoq <- py_sqrt q;
    Ok (ceil eoq).

Definition calculate_safety_stock (self : Optimizer)
    (avg_daily_demand lead_time_days service_level : R) (demand_std_dev : option R)
  : Result R :=
  if Rleb avg_daily_demand 0 || Rleb lead_time_days 0 then Ok 0
  else
    let demand_std_dev :=
      match demand_std_dev with
      | None => avg_daily_demand * (3 / 10)
      | Some v => v
      end in
    let z_score :=
      if Rleb (99 / 100) service_level then 2326 / 1000
      else if Rleb (95 / 100) service_level then 1645 / 1000
      else 1282 / 1000 in
    do root <- py_sqrt lead_time_days;
    Ok (z_score * demand_std_dev * root).

Definition calculate_reorder_point (self : Optimizer)
    (avg_daily_demand lead_time_days service_level : R) : Result Z :=
  if Rleb avg_daily_demand 0 || Rleb lead_time_days 0 then Ok 0%Z
  else
    let lead_time_demand := avg_daily_demand * lead_time_days in
    do safety_stock <-
      calculate_safety_stock self avg_daily_demand lead_time_days service_level None;
    Ok (ceil (lead_time_demand + safety_stock)).

(** The parameters [calculate_reorder_point] declares after [self]. *)
Definition calculate_reorder_point_params : list string :=
  ["avg_daily_demand"; "lead_time_days"; "service_level"].

(** Binding of keyword arguments: the first keyword that names no declared
    parameter makes the call raise [TypeError]. *)
Definition unexpected_keyword (params : list string) (kwargs : dict R)
  : option string :=
  option_map fst
    (find (fun kv => negb (existsb (String.eqb (fst kv)) params)) kwargs).

(** [self.calculate_reorder_point(a, b, **kwargs)]: two positional arguments
    and keyword arguments. *)
Definition call_calculate_reorder_point (self : Optimizer)
    (avg_daily_demand lead_time_days : R) (kwargs : dict R) : Result Z :=
  match unexpected_keyword calculate_reorder_point_params kwargs with
  | Some k =>
      Raise (TypeError
               ("calculate_reorder_point() got an unexpected keyword argument '"
                ++ k ++ "'"))
  | None =>
      calculate_reorder_point self avg_daily_demand lead_time_days
        (opt_default (dict_get "service_level" kwargs) (95 / 100))
  end.

Definition _calculate_stockout_probability
    (current_stock avg_demand demand_std_dev lead_time : R) : Result R :=
  if Rleb avg_demand 0 then Ok (if Rltb 0 current_stock then 0 else 1)
  else
    let expected_demand := avg_demand * lead_time in
    do root <- py_sqrt lead_time;
    if Rleb (expected_demand + 3 * demand_std_dev * root) current_stock then Ok 0
    else if Rleb current_stock (expected_demand - 3 * demand_std_dev * root) then Ok 1
    else
      do z_score <- py_div (current_stock - expected_demand) (demand_std_dev * root);
      if Rltb z_score 0 then
        Ok (1 / 2 + 1 / 2 * (1 - exp (- (7 / 10) * z_score * z_score))
                    * (if Rltb z_score 0 then -1 else 1))
      else
        Ok (1 / 2 - 1 / 2 * (1 - exp (- (7 / 10) * z_score * z_score))).

(** The slice of a [pandas.DataFrame] the optimizer reads. *)
Record DataFrame : Type := mkDataFrame {
  forecast : list R;
  lower_bound : option (list R);
  upper_bound : option (list R)
}.

Definition series_sum (l : list R) : R := fold_right Rplus 0 l.
Definition series_mean (l : list R) : R := series_sum l / INR (List.length l).
Definition series_max (l : list R) : R :=
  match l with
  | [] => 0
  | x :: l' => fold_left Rmax l' x
  end.
(** [Series.std()]: the sample standard deviation (one degree of freedom
    removed).  For a single row pandas yields NaN, which [R] cannot express. *)
Definition series_std (l : list R) : R :=
  let m := series_mean l in
  sqrt (series_sum (map (fun x => (x - m) * (x - m)) l)
        / (INR (List.length l) - 1)).
Fixpoint series_sub (a b : list R) : list R :=
  match a, b with
  | x :: a', y :: b' => (x - y) :: series_sub a' b'
  | _, _ => []
  end.

Record ProductData : Type := mkProductData {
  pd_unit_price : option R;
  pd_current_stock : option R
}.

Record SupplierData : Type := mkSupplierData {
  sd_lead_time : option R;
  sd_reliability_score : option R
}.

Record Constraints : Type := mkConstraints {
  cs_service_level : option R
}.

Record Results : Type := mkResults {
  economic_order_quantity : Z;
  reorder_point : Z;
  safety_stock : Z;
  max_stock_level : Z;
  current_stock : R;
  order_recommendation : Z;
  days_of_supply : R;
  avg_daily_demand : R;
  stockout_probability : R;
  annual_holding_cost : R;
  order_cycle_days : R;
  error : option string
}.

(** The dictionary returned by the [except] clause. *)
Definition default_results (current_stock : R) (e : Exn) : Results :=
  mkResults 0 0 0 0 current_stock 0 0 0 100 0 0 (Some (Exn_str e)).

(** The body of the [try] of [optimize_inventory_levels]. *)
Definition optimize_body (self : Optimizer) (product_data : ProductData)
    (forecast_data : DataFrame) (supplier_data : SupplierData)
    (constraints : Constraints) : Result Results :=
  let unit_cost := opt_default (pd_unit_price product_data) 0 in
  let current_stock := opt_default (pd_current_stock product_data) 0 in
  let lead_time_days := opt_default (sd_lead_time supplier_data) 7 in
  let reliability := opt_default (sd_reliability_score supplier_data) (9 / 10) in
  let '(avg_daily_demand, demand_variability) :=
    match forecast forecast_data with
    | _ :: _ =>
        (series_mean (forecast forecast_data),
         match lower_bound forecast_data, upper_bound forecast_data with
         | Some lo, Some hi => series_mean (series_sub hi lo) / 4
         | _, _ => series_std (forecast forecast_data)
         end)
    | [] => (1, 1 / 2)
    end in
  let service_level := opt_default (cs_service_level constraints) (95 / 100) in
  let annual_demand := avg_daily_demand * 365 in
  do eoq <- calculate_eoq self annual_demand unit_cost;
  do adjusted_lead_time <- py_div lead_time_days reliability;
  do reorder_point <-
    call_calculate_reorder_point self avg_daily_demand adjusted_lead_time
      [("service_level", service_level); ("demand_std_dev", demand_variability)];
  do safety_stock <-
    calculate_safety_stock self avg_daily_demand adjusted_lead_time service_level
      (Some demand_variability);
  let max_stock := (reorder_point + eoq)%Z in
  let order_recommendation :=
    if Rleb current_stock (IZR reorder_point) then eoq else 0%Z in
  do days_of_supply <-
    (if Rltb 0 avg_daily_demand then py_div current_stock avg_daily_demand else Ok 0);
  do stockout_prob <-
    _calculate_stockout_probability current_stock avg_daily_demand
      demand_variability lead_time_days;
  do order_cycle <-
    (if Rltb 0 avg_daily_demand then py_div (IZR eoq) avg_daily_demand else Ok 0);
  Ok (mkResults eoq reorder_point (trunc safety_stock) max_stock
        (IZR (trunc current_stock)) order_recommendation
        (py_round days_of_supply 1) (py_round avg_daily_demand 2)
        (py_round (stockout_prob * 100) 2)
        (py_round (IZR max_stock * unit_cost * holding_cost_pct self) 2)
        (py_round order_cycle 1) None).

Definition optimize_inventory_levels (self : Optimizer) (product_data : ProductData)
    (forecast_data : DataFrame) (supplier_data : SupplierData)
    (constraints : Constraints) : Results :=
  match optimize_body self product_data forecast_data supplier_data constraints with
  | Ok results => results
  | Raise e => default_results (opt_default (pd_current_stock product_data) 0) e
  end.

End InventoryOptimizer.

(** ** The supplier agent ([app/agents/supplier_agent.py]) *)

Module SupplierAgent.

(** A [datetime] counts microseconds, and so does a [timedelta]. *)
Definition datetime : Type := Z.
Definition minutes (n : Z) : Z := n * 60000000.
Definition hours (n : Z) : Z := n * 3600000000.
Definition days (n : Z) : Z := n * 86400000000.

(** An entry of [order["items"]]. *)
Record Line : Type := mkLine {
  line_product_id : string;
  line_product_name : string;
  line_quantity : Z;
  line_unit_price : PyFloat.float;
  line_supplier_id : string;
  line_supplier_name : string;
  line_lead_time_days : Z
}.

(** An entry of [order["updates"]]. *)
Record Update : Type := mkUpdate {
  up_status : string;
  up_timestamp : datetime;
  up_message : string
}.

(** A value of [self.pending_orders]. *)
Record PlacedOrder : Type := mkPlacedOrder {
  po_order_id : string;
  po_items : list Line;
  po_warehouse_id : string;
  po_status : string;
  po_timestamp : datetime;
  po_expected_delivery : datetime;
  po_updates : list Update
}.

(** The values the supplier puts into a payload.  [FIso t] is the string
    [t.isoformat()]; [FUpdates] holds the update records themselves, with
    their [datetime] objects. *)
Inductive Field : Type :=
| FNone
| FStr (s : string)
| FIso (t : datetime)
| FUpdates (us : list Update)
| FLines (ls : list (string * Z * PyFloat.float)).

Record Notice : Type := mkNotice {
  n_sender : string;
  n_recipient : string;
  n_message_type : string;
  n_content : dict Field
}.

Record Reply : Type := mkReply {
  r_status : string;
  r_message : string
}.

(** The agent, without its database session: the functions embedded here
    do not read it. *)
Record Agent : Type := mkAgent {
  agent_id : string;
  pending_orders : dict PlacedOrder;
  outbox : list Notice;
  clock_reads : nat;      (* readings of [datetime.utcnow()] so far *)
  dice_rolls : nat        (* calls of [random.randint] so far *)
}.

Definition with_pending_orders (p : dict PlacedOrder) (a : Agent) : Agent :=
  mkAgent (agent_id a) p (outbox a) (clock_reads a) (dice_rolls a).

(** What a cycle can raise: the [IndexError] of [updates[-1]] on an empty
    list, or an exception of [send_message]. *)
Inductive CycleExn : Type :=
| IndexError
| Escaped (e : Exn).

(** [json.dumps] accepts strings, numbers, [None] and lists of them; it
    rejects a [datetime]. *)
Definition json_serializable (f : Field) : bool :=
  match f with
  | FUpdates (_ :: _) => false
  | _ => true
  end.

(** [Agent.send_message] of [app/agents/base.py]: the message is rendered
    with [json.dumps] for the log line, which raises on a value it cannot
    render; the outbox records the messages that were handed over. *)
Definition send_message (m : Notice) (a : Agent) : Result unit * Agent :=
  if forallb json_serializable (dict_values (n_content m)) then
    (Ok tt,
     mkAgent (agent_id a) (pending_orders a) (outbox a ++ [m])%list
             (clock_reads a) (dice_rolls a))
  else
    (Raise (TypeError "Object of type datetime is not JSON serializable"), a).

Definition warehouse_agent_of (warehouse_id : string) : string :=
  "warehouse_agent_" ++ warehouse_id.

(** [updates[-1]] *)
Fixpoint last_update (us : list Update) : option Update :=
  match us with
  | [] => None
  | [u] => Some u
  | _ :: us' => last_update us'
  end.

(** [order["status"] = status] followed by [order["updates"].append(...)]. *)
Definition log (status : string) (t : datetime) (message : string)
    (o : PlacedOrder) : PlacedOrder :=
  mkPlacedOrder (po_order_id o) (po_items o) (po_warehouse_id o) status
    (po_timestamp o) (po_expected_delivery o)
    (po_updates o ++ [mkUpdate status t message])%list.

Definition with_expected_delivery (t : datetime) (o : PlacedOrder) : PlacedOrder :=
  mkPlacedOrder (po_order_id o) (po_items o) (po_warehouse_id o) (po_status o)
    (po_timestamp o) t (po_updates o).

Definition in_list (x : string) (l : list string) : bool :=
  existsb (String.eqb x) l.

Section World.

(** The successive readings of [datetime.utcnow()] and the randomness behind
    [random.randint]. *)
Variable clock : nat -> datetime.
Variable dice : nat -> Z.

Definition utcnow (a : Agent) : datetime * Agent :=
  (clock (clock_reads a),
   mkAgent (agent_id a) (pending_orders a) (outbox a) (S (clock_reads a))
           (dice_rolls a)).

(** [random.randint(lo, hi)]: some integer between [lo] and [hi]. *)
Definition randint (lo hi : Z) (a : Agent) : Z * Agent :=
  (lo + dice (dice_rolls a) mod (hi - lo + 1),
   mkAgent (agent_id a) (pending_orders a) (outbox a) (clock_reads a)
           (S (dice_rolls a))).

(** The requester is answered at [message.get("sender", ...)]; the envelopes
    of this development always carry their sender. *)
Definition _handle_order_followup (m : Message) (a : Agent)
  : Result Reply * Agent :=
  let order_id := c_order_id (content m) in
  if negb (truthy order_id) then
    (Ok (mkReply "error" "Invalid order followup: order_id required"), a)
  else
    match dict_get order_id (pending_orders a) with
    | None => (Ok (mkReply "error" ("Unknown order: " ++ order_id)), a)
    | Some order =>
        let recipient := sender m in
        match
          send_message
            (mkNotice (agent_id a) recipient "SUPPLY_CONFIRMATION"
               [("order_id", FStr order_id);
                ("status", FStr (po_status order));
                ("updates", FUpdates (po_updates order));
                ("expected_delivery", FIso (po_expected_delivery order))]) a
        with
        | (Raise e, a1) => (Raise e, a1)
        | (Ok _, a1) =>
            (Ok (mkReply "success" ("Followup processed for order " ++ order_id)),
             a1)
        end
    end.

Definition _handle_order_cancellation (m : Message) (a : Agent)
  : Result Reply * Agent :=
  let order_id := c_order_id (content m) in
  let reason := opt_default (c_reason (content m)) "No reason provided" in
  if negb (truthy order_id) then
    (Ok (mkReply "error" "Invalid order cancellation: order_id required"), a)
  else
    match dict_get order_id (pending_orders a) with
    | None => (Ok (mkReply "error" ("Unknown order: " ++ order_id)), a)
    | Some order =>
        if in_list (po_status order) ["SHIPPED"; "DELIVERED"] then
          (Ok (mkReply "error"
                 ("Cannot cancel order " ++ order_id ++ " with status "
                  ++ po_status order)), a)
        else
          let '(now, a1) := utcnow a in
          let order1 := log "CANCELLED" now ("Order cancelled: " ++ reason) order in
          let a2 := with_pending_orders
                      (dict_set order_id order1 (pending_orders a1)) a1 in
          match
            send_message
              (mkNotice (agent_id a2) (warehouse_agent_of (po_warehouse_id order1))
                 "SUPPLY_CONFIRMATION"
                 [("order_id", FStr order_id);
                  ("status", FStr "CANCELLED");
                  ("message", FStr ("Order cancelled: " ++ reason))]) a2
          with
          | (Raise e, a3) => (Raise e, a3)
          | (Ok _, a3) =>
              (Ok (mkReply "success"
                     ("Order " ++ order_id ++ " cancelled successfully")), a3)
          end
    end.

(** The [if]/[elif] chain of [_update_order_statuses]: the new status, the
    order as the chain leaves it, and the agent after the draws (and after
    the write of [expected_delivery], which happens in the chain). *)
Definition new_status (now : datetime) (order_id : string) (order : PlacedOrder)
    (time_since_update : Z) (a : Agent) : string * PlacedOrder * Agent :=
  let current_status := po_status order in
  if String.eqb current_status "PLACED" then
    let '(h, a1) := randint 1 4 a in
    (if hours h <? time_since_update then "CONFIRMED" else current_status,
     order, a1)
  else if String.eqb current_status "CONFIRMED" then
    let '(h, a1) := randint 6 24 a in
    (if hours h <? time_since_update then "PROCESSING" else current_status,
     order, a1)
  else if String.eqb current_status "PROCESSING" then
    let '(d, a1) := randint 1 3 a in
    if days d <? time_since_update then
      let '(d', a2) := randint 1 3 a1 in
      let order1 := with_expected_delivery (now + days d') order in
      ("SHIPPED", order1,
       with_pending_orders (dict_set order_id order1 (pending_orders a2)) a2)
    else (current_status, order, a1)
  else if String.eqb current_status "SHIPPED" then
    (if po_expected_delivery order <=? now then "DELIVERED" else current_status,
     order, a)
  else (current_status, order, a).

(** One pass of the loop of [_update_order_statuses].  [order] is the object
    stored under [order_id]: what the loop assigns to it is written to the
    dictionary. *)
Definition update_order (now : datetime) (entry : string * PlacedOrder)
    (a : Agent) : option CycleExn * Agent :=
  let '(order_id, order) := entry in
  match last_update (po_updates order) with
  | None => (Some IndexError, a)
  | Some last =>
      if in_list (po_status order) ["DELIVERED"; "CANCELLED"; "REJECTED"] then
        (None,
         if days 30 <? now - up_timestamp last
         then with_pending_orders (dict_del order_id (pending_orders a)) a
         else a)
      else
        let time_since_update := now - up_timestamp last in
        let '(new, order1, a1) :=
          new_status now order_id order time_since_update a in
        if String.eqb new (po_status order) then (None, a1)
        else
          let order2 :=
            log new now ("Order status updated to " ++ new) order1 in
          let a2 := with_pending_orders
                      (dict_set order_id order2 (pending_orders a1)) a1 in
          match
            send_message
              (mkNotice (agent_id a2) (warehouse_agent_of (po_warehouse_id order2))
                 "SUPPLY_CONFIRMATION"
                 [("order_id", FStr order_id);
                  ("status", FStr new);
                  ("expected_delivery", FIso (po_expected_delivery order2));
                  ("message", FStr ("Order status updated to " ++ new))]) a2
          with
          | (Raise e, a3) => (Some (Escaped e), a3)
          | (Ok _, a3) => (None, a3)
          end
  end.

(** [for order_id, order in list(self.pending_orders.items())]: the loop runs
    over a snapshot and stops at the first exception. *)
Fixpoint for_each (visit : string * PlacedOrder -> Agent -> option CycleExn * Agent)
    (snapshot : list (string * PlacedOrder)) (a : Agent)
  : option CycleExn * Agent :=
  match snapshot with
  | [] => (None, a)
  | entry :: rest =>
      match visit entry a with
      | (Some e, a1) => (Some e, a1)
      | (None, a1) => for_each visit rest a1
      end
  end.

Definition _update_order_statuses (a : Agent) : option CycleExn * Agent :=
  let '(now, a1) := utcnow a in
  for_each (update_order now) (pending_orders a1) a1.

(** One pass of the loop of [_process_deliveries]. *)
Definition deliver_order (entry : string * PlacedOrder) (a : Agent)
  : option CycleExn * Agent :=
  let '(order_id, order) := entry in
  if negb (String.eqb (po_status order) "DELIVERED") then (None, a)
  else
    match last_update (po_updates order) with
    | None => (Some IndexError, a)
    | Some last =>
        if negb (String.eqb (up_status last) "DELIVERED") then (None, a)
        else
          let '(t, a1) := utcnow a in
          if t - up_timestamp last <? minutes 5 then
            let '(delivery_date, a2) := utcnow a1 in
            match
              send_message
                (mkNotice (agent_id a2)
                   (warehouse_agent_of (po_warehouse_id order))
                   "SUPPLY_CONFIRMATION"
                   [("order_id", FStr order_id);
                    ("status", FStr "DELIVERED");
                    ("items",
                     FLines (map (fun item =>
                                    (line_product_id item, line_quantity item,
                                     line_unit_price item))
                                 (po_items order)));
                    ("warehouse_id", FStr (po_warehouse_id order));
                    ("delivery_date", FIso delivery_date)]) a2
            with
            | (Raise e, a3) => (Some (Escaped e), a3)
            | (Ok _, a3) => (None, a3)
            end
          else (None, a1)
    end.

Definition _process_deliveries (a : Agent) : option CycleExn * Agent :=
  for_each deliver_order (pending_orders a) a.

(** [run_cycle]; the closing [asyncio.sleep(1)] changes nothing here. *)
Definition run_cycle (a : Agent) : option CycleExn * Agent :=
  match _update_order_statuses a with
  | (Some e, a1) => (Some e, a1)
  | (None, a1) => _process_deliveries a1
  end.

End World.

End SupplierAgent.

(** ** Vocabulary of the statements *)

Import StoreAgent.

(** An item the validation loop of a sale reports as short: it names a
    product, asks for a positive quantity, and the store holds less. *)
Definition is_short (s : Store) (item : Item) : bool :=
  truthy (item_product_id item)
  && (0 <? item_quantity item)
  && (available (query_inventory (StoreAgent.db s) (item_product_id item) (store_id s))
      <? item_quantity item).

Definition shortfall_of (s : Store) (item : Item) : Shortfall :=
  mkShortfall (item_product_id item) (item_quantity item)
    (available (query_inventory (StoreAgent.db s) (item_product_id item) (store_id s))).

(** The priority score as the specification words it. *)
Module Spec.

Inductive Priority : Type := HIGH | MEDIUM | LOW.

Definition name (p : Priority) : string :=
  match p with
  | HIGH => "HIGH"
  | MEDIUM => "MEDIUM"
  | LOW => "LOW"
  end.

Definition base (p : Priority) : Z :=
  match p with
  | HIGH => 100
  | MEDIUM => 50
  | LOW => 10
  end.

(** min(1, available/requested), on the quotient as a float. *)
Definition fulfillment_ratio (quotient : PyFloat.float) : PyFloat.float :=
  PyFloat.min (PyFloat.of_Z 1) quotient.

(** min(2.0, unit_price/100 + 0.5) *)
Definition value_factor (unit_price : PyFloat.float) : PyFloat.float :=
  PyFloat.min (PyFloat.of_Z 2)
    (PyFloat.add (PyFloat.div unit_price (PyFloat.of_Z 100))
                 (PyFloat.div (PyFloat.of_Z 1) (PyFloat.of_Z 2))).

(** base(priority) x fulfillment_ratio x value_factor *)
Definition priority_score (p : Priority) (quotient unit_price : PyFloat.float)
  : PyFloat.float :=
  PyFloat.mul (PyFloat.mul (PyFloat.of_Z (base p)) (fulfillment_ratio quotient))
              (value_factor unit_price).

End Spec.




(** The warehouse's ledger as its session sees it. *)
Definition ledger (w : WarehouseAgent.Warehouse) : list Transaction :=
  t_transactions (working (WarehouseAgent.db w)).



(** No inventory row holds a negative quantity, neither in what the session
    sees nor in what has been committed. *)
Definition nonneg_tables (t : Tables) : Prop :=
  Forall (fun r => 0 <= inv_quantity r) (t_inventory t).

Definition nonneg_session (d : Session) : Prop :=
  nonneg_tables (committed d) /\ nonneg_tables (working d).

(** A store and a warehouse, each with its own session. *)
Record System : Type := mkSystem {
  sys_store : Store;
  sys_warehouse : WarehouseAgent.Warehouse
}.

Definition nonneg_system (y : System) : Prop :=
  nonneg_session (StoreAgent.db (sys_store y))
  /\ nonneg_session (WarehouseAgent.db (sys_warehouse y)).

(** An INVENTORY_UPDATE of type ADD (also the default type) whose quantity
    is negative. *)
Definition adds_negative (m : Message) : bool :=
  String.eqb (message_type m) "INVENTORY_UPDATE"
  && String.eqb (opt_default (c_update_type (content m)) "ADD") "ADD"
  && (opt_default (c_quantity (content m)) 0 <? 0).

(** The quantity of the message, if it carries one, is an [int]. *)
Definition int_quantity (m : Message) : bool :=
  match dict_get "quantity" (content m) with
  | None | Some VNone | Some (VInt _) => true
  | Some _ => false
  end.

(** A message that adds no negative quantity. *)
Definition harmless (m : Message) : Prop :=
  int_quantity m = true /\ adds_negative m = false.

(** What can happen to the system: the store processes a message it is
    allowed to receive, the warehouse processes a message, the warehouse
    runs a cycle (which executes the pending transfers). *)
Inductive step (allowed : Message -> Prop) : System -> System -> Prop :=
| step_store_message : forall m s w,
    allowed m ->
    step allowed (mkSystem s w) (mkSystem (snd (StoreAgent.process_message m s)) w)
| step_warehouse_message : forall m s w,
    step allowed (mkSystem s w) (mkSystem s (snd (WarehouseAgent.process_message m w)))
| step_warehouse_cycle : forall s w,
    step allowed (mkSystem s w) (mkSystem s (snd (WarehouseAgent.run_cycle w))).

Definition reachable (allowed : Message -> Prop) : System -> System -> Prop :=
  clos_refl_trans_1n System (step allowed).

(** The store after [n] successive deliveries of the same TRANSFER_FAILED
    envelope. *)
Fixpoint repeat_failure (n : nat) (m : Message) (s : Store) : Store :=
  match n with
  | O => s
  | S n' => repeat_failure n' m (snd (_handle_transfer_failed m s))
  end.

(** The pending requests around the one a failure notice refers to. *)
Record Located (transfer_id request_id : string) (request : Replenishment)
    (before after : dict Replenishment) (p : dict Replenishment) : Prop := {
  loc_split : p = (before ++ (request_id, request) :: after)%list;
  loc_first : Forall (fun x => references transfer_id x = false) before;
  loc_key : Forall (fun x => String.eqb request_id (fst x) = false) before;
  loc_ref : references transfer_id (request_id, request) = true
}.

(** ** Sample data *)

Module Examples.

(** A session with nothing uncommitted, on a database that accepts every
    commit. *)
Definition clean (t : Tables) : Session := mkSession t t (fun _ => None).

(** Store S1 holds 2 units of P1 and 5 units of P2. *)
Definition store_tables : Tables :=
  mkTables [mkInventory "P1" "S1" 2; mkInventory "P2" "S1" 5] []
           [mkProduct "P1" (PyFloat.of_Z 50) 0 100; mkProduct "P2" (PyFloat.of_Z 200) 0 100]
           [mkOrder "O1" DELIVERED] [mkOrderItem "O1" "P1" 1].

Definition store : Store := mkStore "S1" (clean store_tables) [] [] [] 0.

(** The same store with one HIGH replenishment request R1 (20 x P1) that the
    warehouse tracks as transfer T1. *)
Definition store_awaiting : Store :=
  mkStore "S1" (clean store_tables) []
    [("R1", mkReplenishment "P1" 20 "HIGH" "pending" (Some 0) (Some "T1") None)]
    [] 0.

Definition issued_priorities (s : Store) : list (option string) :=
  map (fun m => c_priority (content m)) (StoreAgent.outbox s).

Definition envelope (message_type : string) (c : Content) : Message :=
  mkMessage "client" "store_agent_S1" message_type c.

(** The sale of section 8 of the specification: 3 x P1 and 1 x P2. *)
Definition sale_request : Message :=
  envelope "SALE_REQUEST"
    [("transaction_id", VStr "TX1");
     ("items", VItems [mkItem "P1" 3; mkItem "P2" 1])].

Definition inventory_update (product_id update_type : string) (quantity : Z)
  : Message :=
  envelope "INVENTORY_UPDATE"
    [("product_id", VStr product_id); ("quantity", VInt quantity);
     ("update_type", VStr update_type)].

Definition order_update (order_id status : string) : Message :=
  envelope "ORDER_UPDATE"
    [("order_id", VStr order_id); ("status", VStr status)].

Definition transfer_failed (transfer_id product_id : string) : Message :=
  envelope "TRANSFER_FAILED"
    [("transfer_id", VStr transfer_id); ("product_id", VStr product_id)].

(** Warehouse "main" holds 2 units of P1 (unit price 50) and 50 units of P2
    (unit price 200). *)
Definition warehouse_tables : Tables :=
  mkTables [mkInventory "P1" "main" 2; mkInventory "P2" "main" 50] []
           [mkProduct "P1" (PyFloat.of_Z 50) 0 100; mkProduct "P2" (PyFloat.of_Z 200) 0 100] [] [].

Definition warehouse : WarehouseAgent.Warehouse :=
  WarehouseAgent.mkWarehouse "main" (clean warehouse_tables) [] [] [] [] 0.

(** The same warehouse with transfer T1 (20 x P1 for store S1) queued while
    the stock was still there. *)
Definition warehouse_short : WarehouseAgent.Warehouse :=
  WarehouseAgent.mkWarehouse "main" (clean warehouse_tables)
    [("T1", WarehouseAgent.mkTransfer "P1" (Some "S1") 20 20 "HIGH" "PENDING" None)]
    [] [("T1", PyFloat.of_Z 100)] [] 0.

Definition inventory_request (product_id : string) (quantity : Z)
    (priority : string) : Message :=
  mkMessage "store_agent_S1" "warehouse_agent_main" "INVENTORY_REQUEST"
    [("product_id", VStr product_id); ("quantity", VInt quantity);
     ("store_id", VStr "S1"); ("priority", VStr priority)].

(** Two requests reach the warehouse: first LOW for 5 x P2, then HIGH for
    2 x P1. *)
Definition warehouse_two_queued : WarehouseAgent.Warehouse :=
  snd (WarehouseAgent.process_message (inventory_request "P1" 2 "HIGH")
         (snd (WarehouseAgent.process_message (inventory_request "P2" 5 "LOW")
                 warehouse))).


(** A sale of one unit of P2, which the store can serve. *)
Definition small_sale : Message :=
  envelope "SALE_REQUEST"
    [("transaction_id", VStr "TX2"); ("items", VItems [mkItem "P2" 1])].

(** A product priced 10 with 50 units in stock, a flat forecast of 10 units a
    day, a supplier with a lead time of 7 days and reliability 0.9. *)
Definition product_data : InventoryOptimizer.ProductData :=
  InventoryOptimizer.mkProductData (Some 10%R) (Some 50%R).

Definition forecast_data : InventoryOptimizer.DataFrame :=
  InventoryOptimizer.mkDataFrame [10%R; 10%R; 10%R] None None.

Definition supplier_data : InventoryOptimizer.SupplierData :=
  InventoryOptimizer.mkSupplierData (Some 7%R) (Some (9 / 10)%R).

Definition constraints : InventoryOptimizer.Constraints :=
  InventoryOptimizer.mkConstraints (Some (95 / 100)%R).

(** The system made of store S1 and the warehouse with transfer T1 queued,
    and what it becomes after a small sale and a warehouse cycle. *)
Definition system_start : System := mkSystem store warehouse_short.

Definition system_later : System :=
  mkSystem (snd (StoreAgent.process_message small_sale store))
           (snd (WarehouseAgent.run_cycle warehouse_short)).

(** Store S1 after an ADD-type update of -5 x P1, and after the small sale
    that follows it. *)
Definition store_after_negative_add : Store :=
  snd (StoreAgent.process_message (inventory_update "P1" "ADD" (-5)) store).

Definition store_after_next_sale : Store :=
  snd (StoreAgent.process_message small_sale store_after_negative_add).

(** The store with request R1 after four failure notices for T1. *)
Definition store_after_four_failures : Store :=
  repeat_failure 4 (transfer_failed "T1" "P1") store_awaiting.

End Examples.

(** ** Vocabulary of the further properties *)

Definition tx_matches (pid loc : string) (x : Transaction) : bool :=
  String.eqb (tx_product_id x) pid && String.eqb (tx_location_id x) loc.

(** The quantity of the row the agents read for a product at a location
    (0 without a row), and the sum of the ledger rows for it. *)
Definition stock (t : Tables) (pid loc : string) : Z :=
  match find (inv_matches pid loc) (t_inventory t) with
  | Some r => inv_quantity r
  | None => 0
  end.

Definition ledger_sum (t : Tables) (pid loc : string) : Z :=
  fold_right Z.add 0
    (map tx_quantity_change (filter (tx_matches pid loc) (t_transactions t))).

(** What the stock is beyond what the ledger accounts for. *)
Definition book_balance (t : Tables) (pid loc : string) : Z :=
  stock t pid loc - ledger_sum t pid loc.

(** Nothing in the session is waiting for a commit. *)
Definition clean_session (d : Session) : Prop := working d = committed d.

(** No pending replenishment request refers to a transfer. *)
Definition no_references (s : Store) : Prop :=
  Forall (fun r => rr_reference_id r = None)
         (dict_values (pending_replenishments s)).

(** The store after it has processed the messages [ms] in turn. *)
Definition deliver (ms : list Message) (s : Store) : Store :=
  fold_left (fun acc m => snd (StoreAgent.process_message m acc)) ms s.

(** The transfer is on record and still waiting to be executed. *)
Definition is_pending (transfer_id : string) (w : WarehouseAgent.Warehouse) : bool :=
  match dict_get transfer_id (WarehouseAgent.pending_transfers w) with
  | Some t => String.eqb (WarehouseAgent.tr_status t) "PENDING"
  | None => false
  end.

(** The warehouse after it has processed the messages [ms] in turn. *)
Definition deliver_warehouse (ms : list Message) (w : WarehouseAgent.Warehouse)
  : WarehouseAgent.Warehouse :=
  fold_left (fun acc m => snd (WarehouseAgent.process_message m acc)) ms w.

(** A supply order in one of the statuses [_check_stock_levels] counts as
    already ordered. *)
Definition counts_as_ordered (o : WarehouseAgent.SupplyOrder) : bool :=
  String.eqb (WarehouseAgent.so_status o) "PENDING"
  || String.eqb (WarehouseAgent.so_status o) "CONFIRMED"
  || String.eqb (WarehouseAgent.so_status o) "SHIPPED".

(** The envelope [_request_from_supplier] sends for a warehouse. *)
Definition supply_request (warehouse_id product_id : string) (quantity : option Z)
    (store_id : option string) : Message :=
  mkMessage ("warehouse_agent_" ++ warehouse_id) "supplier_agent" "SUPPLY_REQUEST"
    [("product_id", VStr product_id); ("quantity", v_int quantity);
     ("warehouse_id", VStr warehouse_id); ("store_id", v_str store_id)].

Definition none_ordered (w : WarehouseAgent.Warehouse) : Prop :=
  Forall (fun o => counts_as_ordered o = false)
         (dict_values (WarehouseAgent.pending_orders w)).

(** The supplier's life cycle of an order. *)
Definition successor (status : string) : option string :=
  if String.eqb status "PLACED" then Some "CONFIRMED"
  else if String.eqb status "CONFIRMED" then Some "PROCESSING"
  else if String.eqb status "PROCESSING" then Some "SHIPPED"
  else if String.eqb status "SHIPPED" then Some "DELIVERED"
  else None.

(** [o'] is [o] one status later: its log has one more entry, for the new
    status and stamped [now]. *)
Definition advanced (now : Z) (o o' : SupplierAgent.PlacedOrder) : Prop :=
  successor (SupplierAgent.po_status o) = Some (SupplierAgent.po_status o')
  /\ SupplierAgent.po_updates o'
     = (SupplierAgent.po_updates o
        ++ [SupplierAgent.mkUpdate (SupplierAgent.po_status o') now
              ("Order status updated to " ++ SupplierAgent.po_status o')])%list.

(** What one pass of the status loop does to the order it visits: nothing,
    or it forgets the order, or it moves the order one status on. *)
Inductive pass_outcome (now : Z) (k : string) (o : SupplierAgent.PlacedOrder)
    (a a' : SupplierAgent.Agent) : Prop :=
| pass_kept :
    SupplierAgent.pending_orders a' = SupplierAgent.pending_orders a ->
    pass_outcome now k o a a'
| pass_forgot :
    SupplierAgent.pending_orders a'
    = dict_del k (SupplierAgent.pending_orders a) ->
    pass_outcome now k o a a'
| pass_advanced :
    forall o', advanced now o o' ->
               dict_get k (SupplierAgent.pending_orders a') = Some o' ->
               pass_outcome now k o a a'.

(** The last entry of the log carries the status of the order. *)
Definition logged (o : SupplierAgent.PlacedOrder) : bool :=
  match SupplierAgent.last_update (SupplierAgent.po_updates o) with
  | Some u => String.eqb (SupplierAgent.up_status u) (SupplierAgent.po_status o)
  | None => false
  end.

Definition all_logged (a : SupplierAgent.Agent) : Prop :=
  Forall (fun o => logged o = true) (dict_values (SupplierAgent.pending_orders a)).

(** When the log was last written. *)
Definition last_logged (o : SupplierAgent.PlacedOrder) : option Z :=
  option_map SupplierAgent.up_timestamp
    (SupplierAgent.last_update (SupplierAgent.po_updates o)).

(** The bounds of the random delay after which a status moves on. *)
Definition shortest_wait (status : string) : option Z :=
  if String.eqb status "PLACED" then Some (SupplierAgent.hours 1)
  else if String.eqb status "CONFIRMED" then Some (SupplierAgent.hours 6)
  else if String.eqb status "PROCESSING" then Some (SupplierAgent.days 1)
  else None.

Definition longest_wait (status : string) : option Z :=
  if String.eqb status "PLACED" then Some (SupplierAgent.hours 4)
  else if String.eqb status "CONFIRMED" then Some (SupplierAgent.hours 24)
  else if String.eqb status "PROCESSING" then Some (SupplierAgent.days 3)
  else None.

(** The order as a cancellation at time [t] leaves it. *)
Definition cancelled (t : Z) (reason : option string)
    (o : SupplierAgent.PlacedOrder) : SupplierAgent.PlacedOrder :=
  SupplierAgent.log "CANCELLED" t
    ("Order cancelled: " ++ opt_default reason "No reason provided") o.

(** The notices of an outbox that carry the delivery details of an order. *)
Definition is_delivery_of (order_id : string) (n : SupplierAgent.Notice) : bool :=
  match dict_get "order_id" (SupplierAgent.n_content n),
        dict_get "status" (SupplierAgent.n_content n),
        dict_get "items" (SupplierAgent.n_content n) with
  | Some (SupplierAgent.FStr k), Some (SupplierAgent.FStr s),
    Some (SupplierAgent.FLines _) =>
      String.eqb k order_id && String.eqb s "DELIVERED"
  | _, _, _ => false
  end.

Definition deliveries_sent (order_id : string) (a : SupplierAgent.Agent) : nat :=
  List.length (filter (is_delivery_of order_id) (SupplierAgent.outbox a)).

Module MoreExamples.

(** A sale whose two lines each fit the 2 units of P1 in stock but together
    ask for 3. *)
Definition double_sale : Message :=
  Examples.envelope "SALE_REQUEST"
    [("transaction_id", VStr "TX3");
     ("items", VItems [mkItem "P1" 1; mkItem "P1" 2])].

(** A sale that takes the last 2 units of P1. *)
Definition sellout_sale : Message :=
  Examples.envelope "SALE_REQUEST"
    [("transaction_id", VStr "TX4"); ("items", VItems [mkItem "P1" 2])].

(** A removal of 5 units announced for store S1. *)
Definition removal (product_id : string) (quantity : Z) : Message :=
  Examples.inventory_update product_id "REMOVE" quantity.

(** A database whose integer columns hold 32 bits: it refuses a commit that
    offers a quantity or a quantity change outside that range. *)
Definition int4 (z : Z) : bool := (- 2 ^ 31 <=? z) && (z <? 2 ^ 31).

Definition int4_gateway (t : Tables) : option Exn :=
  if forallb (fun r => int4 (inv_quantity r)) (t_inventory t)
     && forallb (fun x => int4 (tx_quantity_change x)) (t_transactions t)
  then None
  else Some (DatabaseError "integer out of range").

(** Store S1 of the examples on such a database. *)
Definition store_on_int4 : Store :=
  mkStore "S1" (mkSession Examples.store_tables Examples.store_tables int4_gateway)
          [] [] [] 0.

(** A status update for a transfer, as the warehouse takes it from anyone. *)
Definition status_update (transfer_id status : string) : Message :=
  mkMessage "store_agent_S1" "warehouse_agent_main" "TRANSFER_STATUS_UPDATE"
    [("transfer_id", VStr transfer_id); ("status", VStr status)].

(** Store S1 with no unit of P1 left and nothing requested yet. *)
Definition store_sold_out : Store :=
  mkStore "S1"
    (Examples.clean
       (mkTables [mkInventory "P1" "S1" 0; mkInventory "P2" "S1" 5] []
                 [mkProduct "P1" (PyFloat.of_Z 50) 0 100; mkProduct "P2" (PyFloat.of_Z 200) 0 100] [] []))
    [] [] [] 0.

(** The supplier reports order SO1 (30 x P1, asked for on behalf of store S1)
    as delivered. *)
Definition delivery_confirmation : Message :=
  mkMessage "supplier_agent" "warehouse_agent_main" "SUPPLY_CONFIRMATION"
    [("order_id", VStr "SO1"); ("status", VStr "DELIVERED");
     ("items", VItems [mkItem "P1" 30])].

Definition warehouse_awaiting_supply : WarehouseAgent.Warehouse :=
  WarehouseAgent.mkWarehouse "main" (Examples.clean Examples.warehouse_tables) []
    [("SO1", WarehouseAgent.mkSupplyOrder "P1" (Some 30) (Some "S1") "REQUESTED")]
    [] [] 0.

(** A warehouse whose P1 stock (2 units) is below the minimum of 10. *)
Definition warehouse_low : WarehouseAgent.Warehouse :=
  WarehouseAgent.mkWarehouse "main"
    (Examples.clean
       (mkTables [mkInventory "P1" "main" 2] []
                 [mkProduct "P1" (PyFloat.of_Z 50) 10 100] [] []))
    [] [] [] [] 0.

(** The supplier agent tracking three orders of warehouse main: PO1 placed
    at time 0, PO2 delivered two minutes after the tenth day, PO3 shipped. *)
Definition supplier_line : SupplierAgent.Line :=
  SupplierAgent.mkLine "P1" "Widget" 30 (PyFloat.of_Z 5) "SUP1" "Acme" 5.

Definition supplier_order (order_id status : string) (stamp : Z)
  : SupplierAgent.PlacedOrder :=
  SupplierAgent.mkPlacedOrder order_id [supplier_line] "main" status 0
    (SupplierAgent.days 10)
    [SupplierAgent.mkUpdate status stamp "Order status updated"].

Definition supplier : SupplierAgent.Agent :=
  SupplierAgent.mkAgent "supplier_agent"
    [("PO1", supplier_order "PO1" "PLACED" 0);
     ("PO2", supplier_order "PO2" "DELIVERED"
               (SupplierAgent.days 10 + SupplierAgent.minutes 2));
     ("PO3", supplier_order "PO3" "SHIPPED" (SupplierAgent.days 8))]
    [] 0 0.

(** A clock that reads five hours at first and one second more each time. *)
Definition clock_at_five_hours (n : nat) : Z :=
  SupplierAgent.hours 5 + Z.of_nat n * 1000000.

(** A clock that reads three minutes past the tenth day, and one second
    more each time for the first ten readings. *)
Definition clock_at_delivery (n : nat) : Z :=
  SupplierAgent.days 10 + SupplierAgent.minutes 3
  + Z.of_nat (Nat.min n 10) * 1000000.

Definition no_dice (n : nat) : Z := 0.

Definition followup (order_id : string) : Message :=
  mkMessage "warehouse_agent_main" "supplier_agent" "ORDER_FOLLOWUP"
    [("order_id", VStr order_id)].

Definition cancellation (order_id : string) : Message :=
  mkMessage "warehouse_agent_main" "supplier_agent" "ORDER_CANCELLATION"
    [("order_id", VStr order_id); ("reason", VStr "no longer needed")].

End MoreExamples.

(** * Properties *)

(** ** Sales are all-or-nothing *)

Lemma check_items_insufficient :
  forall (s : Store) (items : list Item),
    fst (check_items (StoreAgent.db s) (store_id s) items)
    = map (shortfall_of s) (filter (is_short s) items).
Proof.
  intros s items. induction items as [|item rest IH]; [reflexivity|].
  cbn [check_items filter].
  destruct (check_items (StoreAgent.db s) (store_id s) rest) as [ins val] eqn:E.
  cbn [fst] in IH. unfold is_short.
  destruct (truthy (item_product_id item)); cbn [negb orb andb]; [|exact IH].
  rewrite Z.leb_antisym.
  destruct (0 <? item_quantity item) eqn:Hq; cbn [negb andb]; [|exact IH].
  apply Z.ltb_lt in Hq.
  destruct (query_inventory (StoreAgent.db s) (item_product_id item) (store_id s))
    as [r|] eqn:Hr; cbn [insufficient available].
  - destruct (inv_quantity r <? item_quantity item); cbn [fst map].
    + unfold shortfall_of. rewrite Hr. cbn [available]. now rewrite IH.
    + exact IH.
  - replace (0 <? item_quantity item) with true by (symmetry; now apply Z.ltb_lt).
    cbn [fst map]. unfold shortfall_of. rewrite Hr. cbn [available]. now rewrite IH.
Qed.

(** C3. A SALE_REQUEST carrying a transaction id in which some item asks for
    more than the store holds is rejected as a whole: the agent state (hence
    every inventory row, the ledger and the pending transactions) is returned
    unchanged, and the response lists exactly the short items, each with its
    requested and its available quantity. *)
Theorem sale_request_rejected_atomically :
  forall (m : Message) (s : Store) (item : Item),
    truthy (c_transaction_id (content m)) = true ->
    In item (c_items (content m)) ->
    is_short s item = true ->
    _handle_sale_request m s
    = (RInsufficient (map (shortfall_of s) (filter (is_short s) (c_items (content m)))), s)
    /\ In (shortfall_of s item)
          (map (shortfall_of s) (filter (is_short s) (c_items (content m)))).
Proof.
  intros m s item Htid Hin Hshort.
  assert (Hmem : In (shortfall_of s item)
                    (map (shortfall_of s) (filter (is_short s) (c_items (content m))))).
  { apply in_map, filter_In. split; assumption. }
  split; [|exact Hmem].
  unfold _handle_sale_request. rewrite Htid.
  destruct (c_items (content m)) as [|i0 items0] eqn:Hitems; [contradiction|].
  cbn [List.length Nat.eqb negb andb].
  pose proof (check_items_insufficient s (i0 :: items0)) as Hins.
  destruct (check_items (StoreAgent.db s) (store_id s) (i0 :: items0)) as [ins val].
  cbn [fst] in Hins. subst ins.
  destruct (map (shortfall_of s) (filter (is_short s) (i0 :: items0))) as [|x xs];
    [contradiction|reflexivity].
Qed.

Lemma sale_request_rejected_atomically_witness :
  truthy (c_transaction_id (content Examples.sale_request)) = true
  /\ In (mkItem "P1" 3) (c_items (content Examples.sale_request))
  /\ is_short Examples.store (mkItem "P1" 3) = true
  /\ _handle_sale_request Examples.sale_request Examples.store
     = (RInsufficient [mkShortfall "P1" 3 2], Examples.store).
Proof.
  split; [reflexivity|]. split; [left; reflexivity|]. split; [reflexivity|].
  exact (proj1 (sale_request_rejected_atomically Examples.sale_request Examples.store
                  (mkItem "P1" 3) eq_refl (or_introl eq_refl) eq_refl)).
Defined.

(** ** Inventory updates from the warehouse *)

(** A removal for a product the store has no row for is answered with an
    error and changes nothing. *)
Lemma inventory_update_remove_missing :
  forall (m : Message) (s : Store),
    c_update_type (content m) = Some "REMOVE" ->
    query_inventory (StoreAgent.db s) (c_product_id (content m)) (store_id s) = None ->
    exists msg, _handle_inventory_update m s = (Ok (RError msg), s).
Proof.
  intros m s Hty Hq. unfold _handle_inventory_update. rewrite Hty. cbn [opt_default].
  destruct (negb _); [eexists; reflexivity|].
  unfold apply_update. rewrite Hq. cbn. eexists; reflexivity.
Qed.

(** An addition that passes validation always stops at the lookup of
    [TransactionType.DELIVERY]: the enum has no such member, the
    [AttributeError] escapes the handler, nothing is committed and the ledger
    is not touched. *)
Lemma inventory_update_add_raises :
  forall (m : Message) (s : Store),
    opt_default (c_update_type (content m)) "ADD" = "ADD" ->
    truthy (c_product_id (content m)) = true ->
    opt_default (c_quantity (content m)) 0 <> 0 ->
    let '(r, s') := _handle_inventory_update m s in
    r = Raise (AttributeError "DELIVERY")
    /\ committed (StoreAgent.db s') = committed (StoreAgent.db s)
    /\ t_transactions (working (StoreAgent.db s'))
       = t_transactions (working (StoreAgent.db s)).
Proof.
  intros m s Hty Hpid Hq. unfold _handle_inventory_update.
  rewrite Hty, Hpid. apply Z.eqb_neq in Hq. rewrite Hq. cbn [negb andb].
  unfold apply_update.
  destruct (query_inventory _ _ _); cbn; repeat split; reflexivity.
Qed.

(** C10. At store S1, which has no row for P9, the update [ADD 5 x P9] does
    create the row with quantity 5 in the session, but the handler then
    raises [AttributeError] on [TransactionType.DELIVERY]: no DELIVERY
    transaction is recorded and nothing is committed.  The update
    [REMOVE 5 x P9] is answered with an error and leaves the state as it was. *)
Theorem inventory_update_missing_row :
  (let '(r, s') := _handle_inventory_update
                     (Examples.inventory_update "P9" "ADD" 5) Examples.store in
   r = Raise (AttributeError "DELIVERY")
   /\ query_inventory (StoreAgent.db s') "P9" "S1" = Some (mkInventory "P9" "S1" 5)
   /\ t_transactions (working (StoreAgent.db s')) = []
   /\ committed (StoreAgent.db s') = Examples.store_tables)
  /\ _handle_inventory_update (Examples.inventory_update "P9" "REMOVE" 5) Examples.store
     = (Ok (RError "Cannot remove inventory for non-existent product: P9"),
        Examples.store).
Proof. repeat split; reflexivity. Qed.

(** ** Order updates *)

Lemma order_update_cancelled_raises :
  forall (order_id loc : string) (d : Session),
    order_update_body order_id "CANCELLED" loc d = Raise (KeyError "CANCELLED").
Proof. reflexivity. Qed.

(** C2. For an order whose status is DELIVERED, an ORDER_UPDATE with status
    CANCELLED is answered with an error; what has been committed is left as
    it was, and the session either is untouched or has been rolled back to
    the committed tables.  So no quantity is added back and no RETURN
    transaction is written. *)
Theorem delivered_order_not_returned :
  forall (m : Message) (s : Store) (order : Order),
    c_status (content m) = "CANCELLED" ->
    query_order (StoreAgent.db s) (c_order_id (content m)) = Some order ->
    ord_status order = DELIVERED ->
    let '(r, s') := _handle_order_update m s in
    response_status r = "error"
    /\ committed (StoreAgent.db s') = committed (StoreAgent.db s)
    /\ (working (StoreAgent.db s') = working (StoreAgent.db s)
        \/ working (StoreAgent.db s') = committed (StoreAgent.db s)).
Proof.
  intros m s order Hst Hq _. unfold _handle_order_update. rewrite Hst, Hq.
  destruct (negb _).
  - repeat split. now left.
  - rewrite order_update_cancelled_raises. cbn. repeat split. now right.
Qed.

(** With the enum's own spelling the status is stored, and nothing is
    returned either: the handler compares the text with "CANCELLED". *)
Example order_update_canceled_spelling :
  _handle_order_update (Examples.order_update "O1" "CANCELED") Examples.store
  = (ROrderSuccess "O1",
     with_db (commit (set_order_status "O1" CANCELED (StoreAgent.db Examples.store)))
       Examples.store).
Proof. reflexivity. Qed.

Lemma delivered_order_not_returned_witness :
  c_status (content (Examples.order_update "O1" "CANCELLED")) = "CANCELLED"
  /\ query_order (StoreAgent.db Examples.store) "O1" = Some (mkOrder "O1" DELIVERED)
  /\ ord_status (mkOrder "O1" DELIVERED) = DELIVERED
  /\ (let '(r, s') := _handle_order_update (Examples.order_update "O1" "CANCELLED")
                        Examples.store in
      response_status r = "error"
      /\ committed (StoreAgent.db s') = committed (StoreAgent.db Examples.store)
      /\ (working (StoreAgent.db s') = working (StoreAgent.db Examples.store)
          \/ working (StoreAgent.db s') = committed (StoreAgent.db Examples.store))).
Proof.
  split; [reflexivity|]. split; [reflexivity|]. split; [reflexivity|].
  exact (delivered_order_not_returned
           (Examples.order_update "O1" "CANCELLED") Examples.store
           (mkOrder "O1" DELIVERED) eq_refl eq_refl eq_refl).
Defined.

(** ** Retries after a failed transfer *)

Section DictSplit.
Context {V : Type}.
Implicit Types (d before after : dict V) (k : string) (v : V).

Lemma find_split :
  forall (f : string * V -> bool) d kv,
    find f d = Some kv ->
    exists before after,
      d = (before ++ kv :: after)%list
      /\ f kv = true
      /\ Forall (fun x => f x = false) before.
Proof.
  intros f d kv. induction d as [|x d IH]; cbn [find]; [discriminate|].
  destruct (f x) eqn:Hx.
  - intros [= <-]. exists [], d. repeat split; [assumption|constructor].
  - intros H. destruct (IH H) as (before & after & -> & Hkv & Hb).
    exists (x :: before), after. repeat split; [assumption|].
    constructor; assumption.
Qed.

Lemma nodup_keys_before :
  forall before after k v,
    NoDup (dict_keys (before ++ (k, v) :: after)%list) ->
    Forall (fun x => String.eqb k (fst x) = false) before.
Proof.
  intros before after k v. unfold dict_keys. rewrite map_app. cbn [map fst].
  intros Hnd. apply Forall_forall. intros x Hx.
  apply String.eqb_neq. intros Heq.
  apply NoDup_remove_2 in Hnd. apply Hnd, in_or_app. left.
  rewrite Heq. now apply in_map.
Qed.

Lemma dict_set_split :
  forall before after k v v',
    Forall (fun x => String.eqb k (fst x) = false) before ->
    dict_set k v' (before ++ (k, v) :: after)%list = (before ++ (k, v') :: after)%list.
Proof.
  intros before after k v v'. induction before as [|[k0 v0] before IH]; intros Hb.
  - cbn. now rewrite String.eqb_refl.
  - inversion Hb as [|? ? Hk Hb']; subst. cbn [fst] in Hk.
    cbn. rewrite Hk. now rewrite IH.
Qed.

Lemma dict_get_split :
  forall before after k v,
    Forall (fun x => String.eqb k (fst x) = false) before ->
    dict_get k (before ++ (k, v) :: after)%list = Some v.
Proof.
  intros before after k v. induction before as [|[k0 v0] before IH]; intros Hb.
  - cbn. now rewrite String.eqb_refl.
  - inversion Hb as [|? ? Hk Hb']; subst. cbn [fst] in Hk.
    cbn. rewrite Hk. now apply IH.
Qed.

Lemma find_skip :
  forall (f : string * V -> bool) before after kv,
    Forall (fun x => f x = false) before ->
    f kv = true ->
    find f (before ++ kv :: after)%list = Some kv.
Proof.
  intros f before after kv. induction before as [|x before IH]; intros Hb Hkv.
  - cbn. now rewrite Hkv.
  - inversion Hb as [|? ? Hx Hb']; subst. cbn. rewrite Hx. now apply IH.
Qed.

Lemma dict_keys_split :
  forall before after k v v',
    dict_keys (before ++ (k, v') :: after)%list
    = dict_keys (before ++ (k, v) :: after)%list.
Proof. intros. unfold dict_keys. now rewrite !map_app. Qed.

Lemma dict_get_set_same :
  forall d k v, dict_get k (dict_set k v d) = Some v.
Proof.
  intros d k v. induction d as [|[k0 v0] d IH].
  - cbn. now rewrite String.eqb_refl.
  - cbn. destruct (String.eqb k k0) eqn:Hk; cbn; rewrite Hk; [reflexivity|exact IH].
Qed.

End DictSplit.

Lemma located_of_find :
  forall transfer_id request_id request p,
    NoDup (dict_keys p) ->
    find (references transfer_id) p = Some (request_id, request) ->
    exists before after, Located transfer_id request_id request before after p.
Proof.
  intros tid rid req p Hnd Hfind.
  destruct (find_split _ _ _ Hfind) as (before & after & -> & Href & Hb).
  exists before, after. constructor; try assumption; [reflexivity|].
  eapply nodup_keys_before; eassumption.
Qed.

(** One failure notice: the request found is marked failed in place; while
    fewer than three retries were made the count goes up by one and the same
    request id is sent again at the lowered priority. *)
Lemma transfer_failed_once :
  forall (m : Message) (s : Store) request_id request before after,
    truthy (c_transfer_id (content m)) = true ->
    truthy (c_product_id (content m)) = true ->
    Located (c_transfer_id (content m)) request_id request before after
            (pending_replenishments s) ->
    let reason := opt_default (c_reason (content m)) "Unknown reason" in
    snd (_handle_transfer_failed m s)
    = if may_retry request then
        mkStore (store_id s) (StoreAgent.db s) (pending_transactions s)
          (before
           ++ (request_id,
               failed_request request reason
                 (Some (opt_default (rr_retry_count request) 0 + 1))) :: after)%list
          (StoreAgent.outbox s
           ++ [replenishment_request (store_id s) request_id
                 (c_product_id (content m)) (rr_quantity request)
                 (lowered (rr_priority request))])%list
          (StoreAgent.uuid_next s)
      else
        mkStore (store_id s) (StoreAgent.db s) (pending_transactions s)
          (before
           ++ (request_id, failed_request request reason (rr_retry_count request))
              :: after)%list
          (StoreAgent.outbox s) (StoreAgent.uuid_next s).
Proof.
  intros m s rid req before after Htid Hpid [Hsplit Hfirst Hkey Href] reason.
  unfold _handle_transfer_failed. rewrite Htid, Hpid. cbn [andb negb].
  rewrite Hsplit, (find_skip _ _ _ _ Hfirst Href).
  fold reason. destruct (may_retry req).
  - cbn [snd]. unfold _request_replenishment.
    unfold with_pending_replenishments at 1. cbn [pending_replenishments].
    rewrite (dict_set_split _ _ _ _ _ Hkey).
    unfold dict_mem. cbn [pending_replenishments with_pending_replenishments].
    rewrite (dict_get_split _ _ _ _ Hkey). reflexivity.
  - cbn [snd]. unfold with_pending_replenishments.
    now rewrite (dict_set_split _ _ _ _ _ Hkey).
Qed.

Lemma located_failed :
  forall transfer_id request_id request before after reason count,
    Located transfer_id request_id request before after
      (before ++ (request_id, request) :: after)%list ->
    Located transfer_id request_id (failed_request request reason count) before after
      (before ++ (request_id, failed_request request reason count) :: after)%list.
Proof.
  intros tid rid req before after reason count [_ Hfirst Hkey Href].
  constructor; try assumption; reflexivity.
Qed.

Lemma repeat_failure_located :
  forall (n : nat) (m : Message) (s : Store) request_id request before after (k : nat),
    truthy (c_transfer_id (content m)) = true ->
    truthy (c_product_id (content m)) = true ->
    Located (c_transfer_id (content m)) request_id request before after
            (pending_replenishments s) ->
    rr_retry_count request = Some (Z.of_nat k) ->
    repeat_failure (S n) m s
    = mkStore (store_id s) (StoreAgent.db s) (pending_transactions s)
        (before
         ++ (request_id,
             failed_request request (opt_default (c_reason (content m)) "Unknown reason")
               (Some (Z.of_nat (k + Nat.min (S n) (3 - k))))) :: after)%list
        (StoreAgent.outbox s
         ++ repeat (replenishment_request (store_id s) request_id
                      (c_product_id (content m)) (rr_quantity request)
                      (lowered (rr_priority request)))
                   (Nat.min (S n) (3 - k)))%list
        (StoreAgent.uuid_next s).
Proof.
  induction n as [|n IH]; intros m s rid req before after k Htid Hpid Hloc Hcount.
  - cbn [repeat_failure]. rewrite (transfer_failed_once _ _ _ _ _ _ Htid Hpid Hloc).
    unfold may_retry. rewrite Hcount. cbn [opt_default].
    destruct (Z.of_nat k <? 3) eqn:Hk.
    + apply Z.ltb_lt in Hk.
      replace (Nat.min 1 (3 - k)) with 1%nat by lia.
      replace (Z.of_nat k + 1) with (Z.of_nat (k + 1)) by lia. reflexivity.
    + apply Z.ltb_ge in Hk.
      replace (Nat.min 1 (3 - k)) with 0%nat by lia.
      cbn [repeat]. rewrite app_nil_r, Nat.add_0_r. reflexivity.
  - change (repeat_failure (S (S n)) m s)
      with (repeat_failure (S n) m (snd (_handle_transfer_failed m s))).
    rewrite (transfer_failed_once _ _ _ _ _ _ Htid Hpid Hloc).
    destruct Hloc as [Hsplit Hfirst Hkey Href].
    assert (Hloc0 : Located (c_transfer_id (content m)) rid req before after
                      (before ++ (rid, req) :: after)%list)
      by (constructor; try assumption; reflexivity).
    unfold may_retry. rewrite Hcount. cbn [opt_default].
    destruct (Z.of_nat k <? 3) eqn:Hk.
    + apply Z.ltb_lt in Hk.
      erewrite (IH m _ rid _ before after (k + 1)%nat Htid Hpid).
      2:{ cbn [pending_replenishments]. apply located_failed. exact Hloc0. }
      2:{ cbn [failed_request rr_retry_count]. f_equal. lia. }
      cbn [store_id StoreAgent.db pending_transactions StoreAgent.outbox
           StoreAgent.uuid_next failed_request rr_product_id rr_quantity
           rr_priority rr_reference_id].
      replace (Nat.min (S (S n)) (3 - k)) with (S (Nat.min (S n) (3 - (k + 1)))) by lia.
      replace (k + 1 + Nat.min (S n) (3 - (k + 1)))%nat
        with (k + S (Nat.min (S n) (3 - (k + 1))))%nat by lia.
      cbn [repeat]. rewrite <- app_assoc. reflexivity.
    + apply Z.ltb_ge in Hk.
      erewrite (IH m _ rid _ before after k Htid Hpid).
      2:{ cbn [pending_replenishments]. apply located_failed. exact Hloc0. }
      2:{ cbn [failed_request rr_retry_count]. reflexivity. }
      cbn [store_id StoreAgent.db pending_transactions StoreAgent.outbox
           StoreAgent.uuid_next failed_request rr_product_id rr_quantity
           rr_priority rr_reference_id].
      replace (Nat.min (S (S n)) (3 - k)) with (Nat.min (S n) (3 - k)) by lia.
      reflexivity.
Qed.

(** C4, as the code has it.  Let a failure notice name a transfer that some
    pending request refers to, and let that request have made no retry yet.
    After any number [S n] of deliveries of the notice, exactly
    [min (S n) 3] retries have been sent; every one of them carries the same
    request id and the priority one step below the priority stored with the
    request (MEDIUM under HIGH, LOW otherwise); the table of requests has the
    same keys as before, and the entry of the request is the original one
    with status failed, the reason, and the retry count [min (S n) 3]: its
    stored priority is never rewritten. *)
Theorem transfer_failed_retries_bounded :
  forall (m : Message) (s : Store) (request_id : string) (request : Replenishment)
         (n : nat),
    truthy (c_transfer_id (content m)) = true ->
    truthy (c_product_id (content m)) = true ->
    NoDup (dict_keys (pending_replenishments s)) ->
    find (references (c_transfer_id (content m))) (pending_replenishments s)
    = Some (request_id, request) ->
    rr_retry_count request = Some 0 ->
    let s' := repeat_failure (S n) m s in
    StoreAgent.outbox s'
    = (StoreAgent.outbox s
       ++ repeat (replenishment_request (store_id s) request_id
                    (c_product_id (content m)) (rr_quantity request)
                    (lowered (rr_priority request)))
                 (Nat.min (S n) 3))%list
    /\ dict_keys (pending_replenishments s') = dict_keys (pending_replenishments s)
    /\ dict_get request_id (pending_replenishments s')
       = Some (failed_request request
                 (opt_default (c_reason (content m)) "Unknown reason")
                 (Some (Z.of_nat (Nat.min (S n) 3)))).
Proof.
  intros m s rid req n Htid Hpid Hnd Hfind Hcount s'.
  destruct (located_of_find _ _ _ _ Hnd Hfind) as (before & after & Hloc).
  subst s'.
  rewrite (repeat_failure_located n m s rid req before after 0 Htid Hpid Hloc Hcount).
  cbn [StoreAgent.outbox pending_replenishments Nat.add Nat.sub].
  destruct Hloc as [Hsplit Hfirst Hkey Href].
  repeat split.
  - rewrite Hsplit. apply dict_keys_split.
  - now apply dict_get_split.
Qed.

Lemma transfer_failed_retries_bounded_witness :
  truthy (c_transfer_id (content (Examples.transfer_failed "T1" "P1"))) = true
  /\ truthy (c_product_id (content (Examples.transfer_failed "T1" "P1"))) = true
  /\ NoDup (dict_keys (pending_replenishments Examples.store_awaiting))
  /\ find (references "T1") (pending_replenishments Examples.store_awaiting)
     = Some ("R1", mkReplenishment "P1" 20 "HIGH" "pending" (Some 0) (Some "T1") None)
  /\ StoreAgent.outbox Examples.store_after_four_failures
     = repeat (replenishment_request "S1" "R1" "P1" 20 "MEDIUM") 3
  /\ dict_keys (pending_replenishments Examples.store_after_four_failures) = ["R1"]
  /\ dict_get "R1" (pending_replenishments Examples.store_after_four_failures)
     = Some (mkReplenishment "P1" 20 "HIGH" "failed" (Some 3) (Some "T1")
               (Some "Unknown reason")).
Proof.
  assert (Hnd : NoDup (dict_keys (pending_replenishments Examples.store_awaiting))).
  { constructor; [intros []|constructor]. }
  split; [reflexivity|]. split; [reflexivity|]. split; [exact Hnd|].
  split; [reflexivity|].
  exact (transfer_failed_retries_bounded (Examples.transfer_failed "T1" "P1")
           Examples.store_awaiting "R1"
           (mkReplenishment "P1" 20 "HIGH" "pending" (Some 0) (Some "T1") None)
           3 eq_refl eq_refl Hnd eq_refl eq_refl).
Defined.

(** Four failures of the transfer behind a HIGH request: the three retries
    all go out at MEDIUM, not at MEDIUM, LOW, LOW, and the stored request
    still says HIGH. *)
Lemma retry_priority_not_stepwise :
  Examples.issued_priorities Examples.store_after_four_failures
  = [Some "MEDIUM"; Some "MEDIUM"; Some "MEDIUM"]
  /\ Examples.issued_priorities Examples.store_after_four_failures
     <> [Some "MEDIUM"; Some "LOW"; Some "LOW"]
  /\ option_map rr_priority
       (dict_get "R1" (pending_replenishments Examples.store_after_four_failures))
     = Some "HIGH".
Proof. repeat split. vm_compute. discriminate. Qed.

(** ** What the warehouse does with the store's requests *)

(** The warehouse's dispatcher knows three message types; any other envelope
    is dropped without a reply and without a change of state. *)
Lemma warehouse_drops_other_types :
  forall (m : Message) (w : WarehouseAgent.Warehouse),
    String.eqb (message_type m) "INVENTORY_REQUEST" = false ->
    String.eqb (message_type m) "SUPPLY_CONFIRMATION" = false ->
    String.eqb (message_type m) "TRANSFER_STATUS_UPDATE" = false ->
    WarehouseAgent.process_message m w = (Ok None, w).
Proof.
  intros m w H1 H2 H3. unfold WarehouseAgent.process_message.
  now rewrite H1, H2, H3.
Qed.

(** C5. Whatever replenishment the store asks for, the envelope it hands to
    [send_message] is addressed to the warehouse with message type
    REPLENISHMENT_REQUEST, and the warehouse's [process_message] drops that
    envelope: no reply, no pending transfer, no SUPPLY_REQUEST, the warehouse
    state is the one before. *)
Theorem replenishment_request_dropped :
  forall (product_id : string) (quantity : Z) (priority : string) (is_retry : bool)
         (original_request_id : string) (s : Store) (w : WarehouseAgent.Warehouse),
    exists m,
      StoreAgent.outbox
        (snd (_request_replenishment product_id quantity priority is_retry
                original_request_id s))
      = (StoreAgent.outbox s ++ [m])%list
      /\ message_type m = "REPLENISHMENT_REQUEST"
      /\ recipient m = "warehouse_agent_main"
      /\ WarehouseAgent.process_message m w = (Ok None, w).
Proof.
  intros pid q prio is_retry orig s w. unfold _request_replenishment.
  destruct (if is_retry then (orig, s) else draw_uuid s) as [rid s1] eqn:E.
  assert (Hout : StoreAgent.outbox s1 = StoreAgent.outbox s
                 /\ store_id s1 = store_id s).
  { destruct is_retry; inversion E; subst; split; reflexivity. }
  destruct Hout as [Hout Hid].
  exists (replenishment_request (store_id s) rid pid q prio). cbn [snd].
  split; [|repeat split].
  destruct (dict_mem rid (pending_replenishments s1));
    cbn [send_message StoreAgent.outbox with_pending_replenishments store_id];
    rewrite Hout, Hid; reflexivity.
Qed.

(** The envelope the warehouse does understand: the same request sent as
    INVENTORY_REQUEST is queued as a pending transfer with its score. *)
Example inventory_request_is_queued :
  let w' := snd (WarehouseAgent.process_message
                   (Examples.inventory_request "P2" 5 "LOW") Examples.warehouse) in
  dict_keys (WarehouseAgent.pending_transfers w') = [uuid4 0]
  /\ dict_keys (WarehouseAgent.transfer_priorities w') = [uuid4 0].
Proof. split; reflexivity. Qed.

(** ** What the store does with the warehouse's failure notices *)

Lemma store_drops_failure_notice :
  forall (w : WarehouseAgent.Warehouse) (store_id : option string)
         (transfer_id product_id reason : string) (s : Store),
    StoreAgent.process_message
      (WarehouseAgent.transfer_failure_notice w store_id transfer_id product_id reason) s
    = (Ok None, s).
Proof. reflexivity. Qed.

(** A request the store has just created refers to no transfer, and no
    handler of the store ever fills the reference in. *)
Lemma fresh_request_has_no_reference :
  forall (product_id : string) (quantity : Z) (priority : string) (s : Store),
    dict_mem (uuid4 (StoreAgent.uuid_next s)) (pending_replenishments s) = false ->
    let '(request_id, s') :=
      _request_replenishment product_id quantity priority false absent s in
    option_map rr_reference_id (dict_get request_id (pending_replenishments s'))
    = Some None.
Proof.
  intros pid q prio s Hfresh. unfold _request_replenishment. cbn [draw_uuid].
  cbn [pending_replenishments]. rewrite Hfresh.
  cbn [send_message pending_replenishments with_pending_replenishments].
  now rewrite dict_get_set_same.
Qed.

(** C6. Transfer T1 (20 x P1 for store S1) is executed when the warehouse
    holds only 2 units: the transfer is marked FAILED and exactly one
    envelope is sent, with message type TRANSFER_UPDATE.  The store, whose
    request R1 refers to T1, does not dispatch that envelope to
    [_handle_transfer_failed]: [process_message] returns no response and the
    store, R1 included, is left as it was (still pending, no retry sent). *)
Theorem transfer_failure_notice_dropped :
  let '(_, w') := WarehouseAgent._process_pending_transfers Examples.warehouse_short in
  exists notice,
    WarehouseAgent.outbox w' = [notice]
    /\ message_type notice = "TRANSFER_UPDATE"
    /\ recipient notice = "store_agent_S1"
    /\ c_transfer_id (content notice) = "T1"
    /\ option_map WarehouseAgent.tr_status
         (dict_get "T1" (WarehouseAgent.pending_transfers w')) = Some "FAILED"
    /\ StoreAgent.process_message notice Examples.store_awaiting
       = (Ok None, Examples.store_awaiting)
    /\ option_map rr_status
         (dict_get "R1" (pending_replenishments Examples.store_awaiting))
       = Some "pending".
Proof. cbn. eexists. repeat split. Qed.

(** ** Priority scores and the order of transfers *)














Lemma find_set_first_same :
  forall pid loc q rows r,
    find (inv_matches pid loc) rows = Some r ->
    find (inv_matches pid loc) (set_first_quantity pid loc q rows)
    = Some (mkInventory (inv_product_id r) (inv_location_id r) q).
Proof.
  intros pid loc q rows r. induction rows as [|x rows IH]; cbn [find set_first_quantity].
  - discriminate.
  - destruct (inv_matches pid loc x) eqn:Hx.
    + intros [= <-]. cbn [find]. unfold inv_matches in *. cbn. now rewrite Hx.
    + intros H. cbn [find]. rewrite Hx. now apply IH.
Qed.

Lemma find_set_first_other :
  forall pid loc pid' loc' q rows,
    String.eqb pid' pid && String.eqb loc' loc = false ->
    find (inv_matches pid' loc') (set_first_quantity pid loc q rows)
    = find (inv_matches pid' loc') rows.
Proof.
  intros pid loc pid' loc' q rows Hne.
  induction rows as [|x rows IH]; cbn [find set_first_quantity]; [reflexivity|].
  destruct (inv_matches pid loc x) eqn:Hx; cbn [find].
  - assert (Hx' : inv_matches pid' loc' x = false).
    { unfold inv_matches in *. apply andb_true_iff in Hx. destruct Hx as [H1 H2].
      apply String.eqb_eq in H1, H2. rewrite H1, H2.
      rewrite (String.eqb_sym pid pid'), (String.eqb_sym loc loc'). exact Hne. }
    rewrite Hx'. unfold inv_matches at 1. cbn. fold (inv_matches pid' loc' x).
    now rewrite Hx'.
  - destruct (inv_matches pid' loc' x); [reflexivity|exact IH].
Qed.

(** One visit of the loop: it raises nothing, and it writes either no ledger
    row or the debit of the transfer it visits, which was PENDING. *)
Lemma dict_get_set_other :
  forall (V : Type) (d : dict V) k k' v,
    String.eqb k k' = false -> dict_get k (dict_set k' v d) = dict_get k d.
Proof.
  intros V d k k' v Hne. induction d as [|[k0 v0] d IH]; cbn.
  - now rewrite Hne.
  - destruct (String.eqb k' k0) eqn:Hk; cbn.
    + apply String.eqb_eq in Hk. subst k0. now rewrite Hne.
    + destruct (String.eqb k k0); [reflexivity|exact IH].
Qed.












(** Rounding shows in the score and in the order.  For a HIGH request of
    which 2 of 3 units can be sent, at a unit price of 100, the three
    factors are 100, 2/3 and 3/2; the floats give 99.99999999999999, below
    the score 100 of a HIGH request served in full at a unit price of 50.
    Queued first, the partial transfer is still visited second. *)
Example rounded_score_orders_transfers :
  WarehouseAgent._calculate_priority_score "HIGH"
    (mkProduct "P" (PyFloat.of_Z 100) 0 0) 2 3
  = Ok (S754_finite false 7036874417766399 (-46))
  /\ WarehouseAgent._calculate_priority_score "HIGH"
       (mkProduct "P" (PyFloat.of_Z 50) 0 0) 3 3
     = Ok (PyFloat.of_Z 100)
  /\ PyFloat.ltb (S754_finite false 7036874417766399 (-46)) (PyFloat.of_Z 100) = true
  /\ map fst (WarehouseAgent.sorted_desc
                [("partial", S754_finite false 7036874417766399 (-46));
                 ("full", PyFloat.of_Z 100)])
     = ["full"; "partial"].
Proof. repeat split; vm_compute; reflexivity. Qed.

(** ** Quantities stay non-negative *)

Lemma set_first_quantity_nonneg :
  forall pid loc q rows,
    0 <= q ->
    Forall (fun r => 0 <= inv_quantity r) rows ->
    Forall (fun r => 0 <= inv_quantity r) (set_first_quantity pid loc q rows).
Proof.
  intros pid loc q rows Hq. induction rows as [|r rows IH]; intros Hrows.
  - constructor.
  - inversion Hrows; subst. cbn [set_first_quantity].
    destruct (inv_matches pid loc r); constructor; auto.
Qed.

Lemma query_inventory_nonneg :
  forall d pid loc r,
    nonneg_session d -> query_inventory d pid loc = Some r -> 0 <= inv_quantity r.
Proof.
  intros d pid loc r [_ Hw] Hq. unfold query_inventory in Hq.
  apply find_some in Hq. destruct Hq as [Hin _].
  unfold nonneg_tables in Hw. rewrite Forall_forall in Hw. now apply Hw.
Qed.

Lemma try_commit_inv : forall d d', try_commit d = Ok d' -> d' = commit d.
Proof.
  intros d d'. unfold try_commit. destruct (gateway d (working d)); congruence.
Qed.

Lemma nonneg_commit : forall d, nonneg_session d -> nonneg_session (commit d).
Proof. intros d [_ Hw]. split; exact Hw. Qed.

Lemma nonneg_rollback : forall d, nonneg_session d -> nonneg_session (rollback d).
Proof. intros d [Hc _]. split; exact Hc. Qed.

Lemma nonneg_add_transaction :
  forall x d, nonneg_session d -> nonneg_session (add_transaction x d).
Proof. intros x d [Hc Hw]. split; assumption. Qed.

Lemma nonneg_set_order_status :
  forall oid st d, nonneg_session d -> nonneg_session (set_order_status oid st d).
Proof. intros oid st d [Hc Hw]. split; assumption. Qed.

Lemma nonneg_set_quantity :
  forall pid loc q d,
    0 <= q -> nonneg_session d -> nonneg_session (set_quantity pid loc q d).
Proof.
  intros pid loc q d Hq [Hc Hw]. split; [exact Hc|].
  unfold nonneg_tables. cbn. now apply set_first_quantity_nonneg.
Qed.

Lemma nonneg_add_inventory :
  forall r d,
    0 <= inv_quantity r -> nonneg_session d -> nonneg_session (add_inventory r d).
Proof.
  intros r d Hq [Hc Hw]. split; [exact Hc|].
  unfold nonneg_tables. cbn. apply Forall_app. split; [exact Hw|].
  constructor; [exact Hq|constructor].
Qed.

Create HintDb nonneg.

#[local] Hint Resolve nonneg_commit nonneg_rollback nonneg_add_transaction
  nonneg_set_order_status nonneg_set_quantity nonneg_add_inventory : nonneg.

(** A debit is refused unless the row holds at least the amount. *)
Lemma sufficient_debit :
  forall o q, insufficient o q = false -> 0 <= available o - q.
Proof.
  intros [r|] q H; cbn in *; [|discriminate].
  apply Z.ltb_ge in H. lia.
Qed.

Lemma sale_loop_nonneg :
  forall tid loc items d,
    nonneg_session d -> nonneg_session (snd (sale_loop tid loc items d)).
Proof.
  intros tid loc items. induction items as [|item rest IH]; intros d Hd.
  - exact Hd.
  - cbn [sale_loop].
    destruct (insufficient _ _) eqn:Hins; cbn [snd]; [auto with nonneg|].
    cbn [TransactionType_getattr dict_get TransactionType_members String.eqb].
    cbn. apply IH. apply nonneg_add_transaction, nonneg_set_quantity; [|exact Hd].
    now apply sufficient_debit.
Qed.

Lemma request_replenishment_db :
  forall pid q prio is_retry orig s,
    StoreAgent.db (snd (_request_replenishment pid q prio is_retry orig s))
    = StoreAgent.db s.
Proof.
  intros pid q prio is_retry orig s. unfold _request_replenishment.
  destruct is_retry; cbn [draw_uuid];
    match goal with
    | |- context [dict_mem ?k ?p] => destruct (dict_mem k p)
    end; reflexivity.
Qed.

Lemma check_reorder_needed_db :
  forall pid s, StoreAgent.db (_check_reorder_needed pid s) = StoreAgent.db s.
Proof.
  intros pid s. unfold _check_reorder_needed.
  destruct (query_inventory _ _ _); [|reflexivity].
  destruct (query_product _ _); [|reflexivity].
  destruct (_ <=? _); [|reflexivity].
  destruct (_ =? _); [|reflexivity].
  apply request_replenishment_db.
Qed.

Lemma check_reorder_all_db :
  forall items s,
    StoreAgent.db
      (fold_left (fun acc item => _check_reorder_needed (item_product_id item) acc)
                 items s)
    = StoreAgent.db s.
Proof.
  induction items as [|item rest IH]; intros s; cbn [fold_left]; [reflexivity|].
  rewrite IH. apply check_reorder_needed_db.
Qed.

Lemma mark_completed_db :
  forall tid s, StoreAgent.db (mark_completed tid s) = StoreAgent.db s.
Proof.
  intros tid s. unfold mark_completed.
  destruct (dict_get tid (pending_transactions s)); reflexivity.
Qed.

Lemma process_sale_nonneg :
  forall tid s,
    nonneg_session (StoreAgent.db s) ->
    nonneg_session (StoreAgent.db (snd (_process_sale tid s))).
Proof.
  intros tid s Hs. unfold _process_sale.
  destruct (dict_get tid (pending_transactions s)) as [t|]; [|exact Hs].
  pose proof (sale_loop_nonneg tid (store_id s) (pt_items t) (StoreAgent.db s) Hs) as Hl.
  destruct (sale_loop tid (store_id s) (pt_items t) (StoreAgent.db s)) as [[| |] d];
    cbn [snd] in *.
  - destruct (try_commit d) as [d'|e] eqn:Hc; cbn [snd].
    + apply try_commit_inv in Hc. subst d'.
      rewrite check_reorder_all_db, mark_completed_db. cbn. auto with nonneg.
    + cbn. auto with nonneg.
  - exact Hl.
  - cbn. auto with nonneg.
Qed.

Lemma handle_sale_request_nonneg :
  forall m s,
    nonneg_session (StoreAgent.db s) ->
    nonneg_session (StoreAgent.db (snd (_handle_sale_request m s))).
Proof.
  intros m s Hs. unfold _handle_sale_request.
  destruct (negb _); [exact Hs|].
  destruct (check_items _ _ _) as [[|x ins] [|y val]]; try exact Hs.
  match goal with
  | |- context [_process_sale ?t ?s1] =>
      pose proof (process_sale_nonneg t s1 Hs) as Hp;
      destruct (_process_sale t s1) as [r s2]
  end.
  cbn [snd] in Hp. destruct (String.eqb _ _); exact Hp.
Qed.

Lemma handle_inventory_update_nonneg :
  forall m s,
    adds_negative m = false ->
    message_type m = "INVENTORY_UPDATE" ->
    nonneg_session (StoreAgent.db s) ->
    nonneg_session (StoreAgent.db (snd (_handle_inventory_update m s))).
Proof.
  intros m s Hadd Hty Hs. unfold adds_negative in Hadd. rewrite Hty in Hadd.
  cbn [String.eqb Ascii.eqb Bool.eqb andb] in Hadd.
  unfold _handle_inventory_update.
  destruct (negb _); [exact Hs|].
  set (ut := opt_default (c_update_type (content m)) "ADD") in *.
  set (q := opt_default (c_quantity (content m)) 0) in *.
  set (pid := c_product_id (content m)).
  assert (Hd1 : forall d1,
             apply_update ut pid (store_id s) q (StoreAgent.db s) = Some d1 ->
             nonneg_session d1).
  { unfold apply_update. intros d1.
    destruct (query_inventory (StoreAgent.db s) pid (store_id s)) as [r|] eqn:Hq.
    - pose proof (query_inventory_nonneg _ _ _ _ Hs Hq) as Hr.
      destruct (String.eqb ut "ADD") eqn:Hut.
      + cbn [andb] in Hadd. apply Z.ltb_ge in Hadd.
        intros [= <-]. apply nonneg_set_quantity; [lia|exact Hs].
      + destruct (String.eqb ut "REMOVE"); intros [= <-]; [|exact Hs].
        apply nonneg_set_quantity; [lia|exact Hs].
    - destruct (String.eqb ut "ADD") eqn:Hut; [|discriminate].
      cbn [andb] in Hadd. apply Z.ltb_ge in Hadd.
      intros [= <-]. apply nonneg_add_inventory; [exact Hadd|exact Hs]. }
  destruct (apply_update ut pid (store_id s) q (StoreAgent.db s)) as [d1|];
    [|exact Hs].
  specialize (Hd1 d1 eq_refl).
  destruct (if String.eqb ut "ADD" then _ else _) as [ty|e]; [|exact Hd1].
  match goal with
  | |- context [if truthy ?a then (?a, ?s1) else ?rest] =>
      assert (Hdb : StoreAgent.db (snd (if truthy a then (a, s1) else rest)) = d1)
        by (destruct (truthy a); [reflexivity|];
            match goal with
            | |- context [if truthy ?b then _ else _] => destruct (truthy b)
            end; reflexivity);
      destruct (if truthy a then (a, s1) else rest) as [rid s2]
  end.
  cbn [snd] in Hdb.
  unfold try_commit. destruct (gateway _ _) as [e|].
  { cbn [snd with_db StoreAgent.db]. rewrite Hdb. auto with nonneg. }
  match goal with
  | |- context [if ?c then mark_fulfilled ?r ?s3 else ?s3] =>
      assert (Hm : StoreAgent.db (if c then mark_fulfilled r s3 else s3)
                   = StoreAgent.db s3)
        by (destruct c; [|reflexivity]; unfold mark_fulfilled;
            destruct (dict_get r (pending_replenishments s3)); reflexivity)
  end.
  cbn [snd]. rewrite Hm. cbn [with_db StoreAgent.db]. rewrite Hdb.
  auto with nonneg.
Qed.

Lemma order_update_body_nonneg :
  forall oid status loc d d',
    nonneg_session d ->
    order_update_body oid status loc d = Ok d' ->
    nonneg_session d'.
Proof.
  intros oid status loc d d' Hd. unfold order_update_body.
  destruct (OrderStatus_getitem status) as [st|e] eqn:Hst; cbn [bind]; [|discriminate].
  destruct (String.eqb status "CANCELLED") eqn:Hc.
  - apply String.eqb_eq in Hc. subst status. discriminate Hst.
  - cbn [bind]. intros H. apply try_commit_inv in H. subst d'. auto with nonneg.
Qed.

Lemma handle_order_update_nonneg :
  forall m s,
    nonneg_session (StoreAgent.db s) ->
    nonneg_session (StoreAgent.db (snd (_handle_order_update m s))).
Proof.
  intros m s Hs. unfold _handle_order_update.
  destruct (negb _); [exact Hs|].
  destruct (query_order _ _); [|exact Hs].
  destruct (order_update_body _ _ _ _) as [d|e] eqn:Hb; cbn.
  - eapply order_update_body_nonneg; eassumption.
  - auto with nonneg.
Qed.

Lemma handle_transfer_failed_db :
  forall m s, StoreAgent.db (snd (_handle_transfer_failed m s)) = StoreAgent.db s.
Proof.
  intros m s. unfold _handle_transfer_failed.
  destruct (negb _); [reflexivity|].
  destruct (find _ _) as [[rid req]|]; [|reflexivity].
  destruct (may_retry req); cbn [snd]; [|reflexivity].
  now rewrite request_replenishment_db.
Qed.

Lemma store_process_message_nonneg :
  forall m s,
    adds_negative m = false ->
    nonneg_session (StoreAgent.db s) ->
    nonneg_session (StoreAgent.db (snd (StoreAgent.process_message m s))).
Proof.
  intros m s Hadd Hs. unfold StoreAgent.process_message.
  destruct (String.eqb (message_type m) "SALE_REQUEST").
  { pose proof (handle_sale_request_nonneg m s Hs) as H.
    destruct (_handle_sale_request m s); exact H. }
  destruct (String.eqb (message_type m) "INVENTORY_UPDATE") eqn:Hty.
  { apply String.eqb_eq in Hty.
    pose proof (handle_inventory_update_nonneg m s Hadd Hty Hs) as H.
    destruct (_handle_inventory_update m s) as [[r|e] s']; exact H. }
  destruct (String.eqb (message_type m) "ORDER_UPDATE").
  { pose proof (handle_order_update_nonneg m s Hs) as H.
    destruct (_handle_order_update m s); exact H. }
  destruct (String.eqb (message_type m) "TRANSFER_FAILED"); [|exact Hs].
  pose proof (handle_transfer_failed_db m s) as H.
  destruct (_handle_transfer_failed m s). cbn [snd] in *. now rewrite H.
Qed.

(** The warehouse side. *)

Lemma request_from_supplier_db :
  forall pid q sid w,
    WarehouseAgent.db (WarehouseAgent._request_from_supplier pid q sid w)
    = WarehouseAgent.db w.
Proof. reflexivity. Qed.

Lemma enqueue_transfer_db :
  forall product pid sid prio rq aq w,
    WarehouseAgent.db (snd (WarehouseAgent.enqueue_transfer product pid sid prio rq aq w))
    = WarehouseAgent.db w.
Proof.
  intros. unfold WarehouseAgent.enqueue_transfer. cbn [WarehouseAgent.draw_uuid].
  destruct (WarehouseAgent._calculate_priority_score _ _ _ _); reflexivity.
Qed.

Lemma handle_inventory_request_db :
  forall m w,
    WarehouseAgent.db (snd (WarehouseAgent._handle_inventory_request m w))
    = WarehouseAgent.db w.
Proof.
  intros m w. unfold WarehouseAgent._handle_inventory_request.
  destruct (query_product _ _) as [product|]; [|reflexivity].
  destruct (query_inventory _ _ _) as [inv|], (c_quantity (content m)) as [rq|];
    try reflexivity.
  destruct (_ <? rq); [destruct (0 <? _); [|reflexivity]|];
    match goal with
    | |- context [WarehouseAgent.enqueue_transfer ?a ?b ?c ?d ?e ?f ?g] =>
        pose proof (enqueue_transfer_db a b c d e f g) as H;
        destruct (WarehouseAgent.enqueue_transfer a b c d e f g) as [[t|e0] w1]
    end; exact H.
Qed.

Lemma fold_left_db :
  forall (A : Type) (f : WarehouseAgent.Warehouse -> A -> WarehouseAgent.Warehouse)
         (items : list A) (w : WarehouseAgent.Warehouse),
    (forall a x, WarehouseAgent.db (f a x) = WarehouseAgent.db a) ->
    WarehouseAgent.db (fold_left f items w) = WarehouseAgent.db w.
Proof.
  intros A f items w Hf. revert w.
  induction items as [|x items IH]; intros w; cbn [fold_left]; [reflexivity|].
  now rewrite IH, Hf.
Qed.

Lemma handle_supply_confirmation_db :
  forall m w,
    WarehouseAgent.db (WarehouseAgent._handle_supply_confirmation m w)
    = WarehouseAgent.db w.
Proof.
  intros m w. unfold WarehouseAgent._handle_supply_confirmation.
  destruct (dict_get _ _) as [o|]; [|reflexivity].
  destruct (String.eqb _ "DELIVERED"); [|reflexivity].
  cbn [WarehouseAgent.with_pending_orders WarehouseAgent.db].
  rewrite fold_left_db; [reflexivity|].
  intros a item. destruct (WarehouseAgent.so_store_id o) as [sid|]; [|reflexivity].
  destruct (truthy sid); reflexivity.
Qed.

Lemma handle_transfer_status_update_db :
  forall m w,
    WarehouseAgent.db (WarehouseAgent._handle_transfer_status_update m w)
    = WarehouseAgent.db w.
Proof.
  intros m w. unfold WarehouseAgent._handle_transfer_status_update.
  destruct (dict_get _ _) as [t|]; [|reflexivity].
  destruct (_ || _); [|reflexivity].
  destruct (dict_mem _ _); destruct (String.eqb _ "FAILED"); reflexivity.
Qed.

Lemma warehouse_process_message_db :
  forall m w,
    WarehouseAgent.db (snd (WarehouseAgent.process_message m w)) = WarehouseAgent.db w.
Proof.
  intros m w. unfold WarehouseAgent.process_message.
  destruct (String.eqb _ "INVENTORY_REQUEST").
  { pose proof (handle_inventory_request_db m w) as H.
    destruct (WarehouseAgent._handle_inventory_request m w) as [[r|e] w']; exact H. }
  destruct (String.eqb _ "SUPPLY_CONFIRMATION");
    [apply handle_supply_confirmation_db|].
  destruct (String.eqb _ "TRANSFER_STATUS_UPDATE");
    [apply handle_transfer_status_update_db|reflexivity].
Qed.

Lemma execute_transfer_nonneg :
  forall tid w,
    nonneg_session (WarehouseAgent.db w) ->
    nonneg_session (WarehouseAgent.db (snd (WarehouseAgent.execute_transfer tid w))).
Proof.
  intros tid w Hw. unfold WarehouseAgent.execute_transfer.
  destruct (dict_get tid (WarehouseAgent.pending_transfers w)) as [t|]; [|exact Hw].
  destruct (negb _); [exact Hw|].
  destruct (query_inventory _ _ _) as [r|] eqn:Hq; [|exact Hw].
  destruct (inv_quantity r <? _) eqn:Hlt; [exact Hw|].
  apply Z.ltb_ge in Hlt. cbn.
  apply nonneg_commit, nonneg_add_transaction, nonneg_set_quantity; [lia|exact Hw].
Qed.

Lemma execute_transfers_nonneg :
  forall ids w,
    nonneg_session (WarehouseAgent.db w) ->
    nonneg_session (WarehouseAgent.db (snd (WarehouseAgent.execute_transfers ids w))).
Proof.
  induction ids as [|tid ids IH]; intros w Hw; cbn [WarehouseAgent.execute_transfers].
  - exact Hw.
  - pose proof (execute_transfer_nonneg tid w Hw) as H1.
    destruct (WarehouseAgent.execute_transfer tid w) as [[u|e] w1]; cbn [snd] in *.
    + now apply IH.
    + exact H1.
Qed.

Lemma process_pending_transfers_nonneg :
  forall w,
    nonneg_session (WarehouseAgent.db w) ->
    nonneg_session
      (WarehouseAgent.db (snd (WarehouseAgent._process_pending_transfers w))).
Proof.
  intros w Hw. unfold WarehouseAgent._process_pending_transfers.
  destruct (WarehouseAgent.pending_transfers w); [exact Hw|].
  now apply execute_transfers_nonneg.
Qed.

Lemma check_stock_levels_db :
  forall w, WarehouseAgent.db (WarehouseAgent._check_stock_levels w) = WarehouseAgent.db w.
Proof.
  intros w. unfold WarehouseAgent._check_stock_levels.
  apply fold_left_db. intros a r.
  destruct (query_product _ _) as [product|]; [|reflexivity].
  destruct (_ <? _); [|reflexivity].
  destruct (_ && _); reflexivity.
Qed.

Lemma run_cycle_nonneg :
  forall w,
    nonneg_session (WarehouseAgent.db w) ->
    nonneg_session (WarehouseAgent.db (snd (WarehouseAgent.run_cycle w))).
Proof.
  intros w Hw. unfold WarehouseAgent.run_cycle.
  apply process_pending_transfers_nonneg. now rewrite check_stock_levels_db.
Qed.

Lemma step_nonneg :
  forall a b,
    step harmless a b ->
    nonneg_system a -> nonneg_system b.
Proof.
  intros a b Hstep [Hs Hw]. unfold nonneg_system.
  destruct Hstep as [m s w [_ Hm]|m s w|s w];
    cbn [sys_store sys_warehouse] in *; split; try assumption.
  - now apply store_process_message_nonneg.
  - now rewrite warehouse_process_message_db.
  - now apply run_cycle_nonneg.
Qed.

(** The invariant and what it needs.  Start from a system in which no
    inventory row is negative, and let the store process any messages (sale
    requests, inventory updates, order updates, failure notices) whose
    quantity is an [int], except ADD-type inventory updates with a negative
    quantity, and let the warehouse process messages and run cycles that
    execute its pending transfers.  Then in every state reached no inventory
    row is negative, in the sessions and in what they have committed. *)
Lemma inventory_never_negative :
  forall a b : System,
    nonneg_system a ->
    reachable harmless a b ->
    nonneg_system b.
Proof.
  intros a b Ha Hreach. induction Hreach as [|x y z Hstep _ IH]; [exact Ha|].
  apply IH. eapply step_nonneg; eassumption.
Qed.

(** The mechanisms behind it: a sale that asks for more than the row holds
    is refused and rolled back; a removal never goes below zero. *)
Lemma sale_debit_refused :
  forall tid loc item rest d,
    insufficient (query_inventory d (item_product_id item) loc) (item_quantity item)
    = true ->
    sale_loop tid loc (item :: rest) d = (Short (item_product_id item), rollback d).
Proof. intros tid loc item rest d H. cbn [sale_loop]. now rewrite H. Qed.

Lemma remove_clamps_at_zero :
  forall pid loc q d r d',
    query_inventory d pid loc = Some r ->
    apply_update "REMOVE" pid loc q d = Some d' ->
    d' = set_quantity pid loc (Z.max 0 (inv_quantity r - q)) d
    /\ 0 <= Z.max 0 (inv_quantity r - q).
Proof.
  intros pid loc q d r d' Hq. unfold apply_update. rewrite Hq. cbn.
  intros [= <-]. split; [reflexivity|lia].
Qed.

Lemma transfer_debit_refused :
  forall tid w t r,
    dict_get tid (WarehouseAgent.pending_transfers w) = Some t ->
    WarehouseAgent.tr_status t = "PENDING" ->
    query_inventory (WarehouseAgent.db w) (WarehouseAgent.tr_product_id t)
      (WarehouseAgent.warehouse_id w) = Some r ->
    inv_quantity r < WarehouseAgent.tr_available_quantity t ->
    WarehouseAgent.db (snd (WarehouseAgent.execute_transfer tid w)) = WarehouseAgent.db w
    /\ option_map WarehouseAgent.tr_status
         (dict_get tid
            (WarehouseAgent.pending_transfers
               (snd (WarehouseAgent.execute_transfer tid w))))
       = Some "FAILED".
Proof.
  intros tid w t r Hget Hst Hq Hlt. unfold WarehouseAgent.execute_transfer.
  rewrite Hget, Hst, Hq. cbn [String.eqb Ascii.eqb Bool.eqb negb andb].
  apply Z.ltb_lt in Hlt. rewrite Hlt. cbn [snd]. split; [reflexivity|].
  cbn [WarehouseAgent.send_message WarehouseAgent.pending_transfers
       WarehouseAgent.with_pending_transfers].
  now rewrite dict_get_set_same.
Qed.

Example inventory_never_negative_run :
  nonneg_system Examples.system_start
  /\ reachable harmless Examples.system_start Examples.system_later
  /\ nonneg_system Examples.system_later.
Proof.
  assert (Ha : nonneg_system Examples.system_start).
  { repeat split; repeat constructor; discriminate. }
  assert (Hab : reachable harmless Examples.system_start Examples.system_later).
  { eapply rt1n_trans;
      [apply (step_store_message _ Examples.small_sale); split; reflexivity|].
    eapply rt1n_trans; [apply step_warehouse_cycle|]. apply rt1n_refl. }
  split; [exact Ha|]. split; [exact Hab|].
  exact (inventory_never_negative Examples.system_start Examples.system_later Ha Hab).
Qed.

(** C1. Inventory quantities do not stay non-negative in every reachable
    state: the ADD branch of [_handle_inventory_update] adds the quantity of
    the message without looking at its sign, where the REMOVE branch clamps
    at zero and sales and transfers refuse a debit the row does not cover.
    Store S1 holds 2 units of P1 and no row is negative; an ADD-type update
    of -5 leaves -3 in the session, and the commit of the next sale (one
    unit of P2) makes the -3 permanent. *)
Theorem negative_add_breaks_invariant :
  nonneg_system (mkSystem Examples.store Examples.warehouse)
  /\ reachable (fun _ => True)
       (mkSystem Examples.store Examples.warehouse)
       (mkSystem Examples.store_after_next_sale Examples.warehouse)
  /\ query_inventory (StoreAgent.db Examples.store_after_negative_add) "P1" "S1"
     = Some (mkInventory "P1" "S1" (-3))
  /\ In (mkInventory "P1" "S1" (-3))
        (t_inventory (committed (StoreAgent.db Examples.store_after_next_sale)))
  /\ ~ nonneg_system (mkSystem Examples.store_after_next_sale Examples.warehouse).
Proof.
  split. { repeat split; repeat constructor; discriminate. }
  split.
  { eapply rt1n_trans;
      [apply (step_store_message _ (Examples.inventory_update "P1" "ADD" (-5)));
       exact I|].
    eapply rt1n_trans; [apply (step_store_message _ Examples.small_sale); exact I|].
    apply rt1n_refl. }
  split; [reflexivity|].
  assert (Hin : In (mkInventory "P1" "S1" (-3))
                   (t_inventory
                      (committed (StoreAgent.db Examples.store_after_next_sale))))
    by (left; reflexivity).
  split; [exact Hin|].
  intros [[Hc _] _]. unfold nonneg_tables in Hc. rewrite Forall_forall in Hc.
  specialize (Hc _ Hin). cbn in Hc. lia.
Qed.

(** ** The optimizer *)

Import InventoryOptimizer.

Section RealTests.
Local Open Scope R_scope.

Lemma Rleb_true : forall x y, x <= y -> Rleb x y = true.
Proof. intros x y H. unfold Rleb. destruct (Rle_dec x y); [reflexivity|contradiction]. Qed.

Lemma Rleb_false : forall x y, y < x -> Rleb x y = false.
Proof. intros x y H. unfold Rleb. destruct (Rle_dec x y); [lra|reflexivity]. Qed.

Lemma Rltb_true : forall x y, x < y -> Rltb x y = true.
Proof. intros x y H. unfold Rltb. destruct (Rlt_dec x y); [reflexivity|contradiction]. Qed.

Lemma Rltb_false : forall x y, y <= x -> Rltb x y = false.
Proof. intros x y H. unfold Rltb. destruct (Rlt_dec x y); [lra|reflexivity]. Qed.

Lemma py_div_ok : forall a b, b <> 0 -> py_div a b = Ok (a / b).
Proof. intros a b H. unfold py_div. destruct (Req_dec_T b 0); [contradiction|reflexivity]. Qed.

Lemma py_sqrt_ok : forall x, 0 <= x -> py_sqrt x = Ok (sqrt x).
Proof. intros x H. unfold py_sqrt. now rewrite Rltb_false. Qed.

(** The keyword [demand_std_dev] is not a parameter of
    [calculate_reorder_point]: the call of [optimize_inventory_levels] cannot
    be bound. *)
Lemma reorder_point_call_raises :
  forall self avg lead service_level variability,
    call_calculate_reorder_point self avg lead
      [("service_level", service_level); ("demand_std_dev", variability)]
    = Raise (TypeError
               "calculate_reorder_point() got an unexpected keyword argument 'demand_std_dev'").
Proof. reflexivity. Qed.

Lemma optimize_body_raises :
  forall self product_data forecast_data supplier_data constraints,
    exists e,
      optimize_body self product_data forecast_data supplier_data constraints
      = Raise e.
Proof.
  intros self pd fd sd cs. unfold optimize_body.
  destruct (match forecast fd with [] => _ | _ :: _ => _ end) as [avg var].
  destruct (calculate_eoq self _ _) as [eoq|e]; cbn [bind]; [|now exists e].
  destruct (py_div _ _) as [lead|e]; cbn [bind]; [|now exists e].
  rewrite reorder_point_call_raises. cbn [bind]. eexists; reflexivity.
Qed.

End RealTests.

(** C7. Whatever the product data, the forecast, the supplier data and the
    constraints are, [optimize_inventory_levels] returns the defaulted error
    payload (zeros, stockout probability 100, the caller's current stock and
    the text of the exception): the body of its [try] never reaches the
    composed results. *)
Theorem optimize_returns_error_payload :
  forall (self : Optimizer) (product_data : ProductData) (forecast_data : DataFrame)
         (supplier_data : SupplierData) (constraints : Constraints),
    exists e,
      optimize_inventory_levels self product_data forecast_data supplier_data
        constraints
      = default_results (opt_default (pd_current_stock product_data) 0%R) e.
Proof.
  intros self pd fd sd cs. unfold optimize_inventory_levels.
  destruct (optimize_body_raises self pd fd sd cs) as [e He].
  rewrite He. now exists e.
Qed.

Section RealRuns.
Local Open Scope R_scope.

(** The sample call fails at the binding of [demand_std_dev]. *)
Example optimize_sample :
  optimize_inventory_levels default_optimizer Examples.product_data
    Examples.forecast_data Examples.supplier_data Examples.constraints
  = default_results 50
      (TypeError
         "calculate_reorder_point() got an unexpected keyword argument 'demand_std_dev'").
Proof.
  unfold optimize_inventory_levels, optimize_body.
  cbn [Examples.product_data Examples.forecast_data Examples.supplier_data
       Examples.constraints pd_unit_price pd_current_stock sd_lead_time
       sd_reliability_score cs_service_level forecast lower_bound upper_bound
       opt_default].
  assert (Hmean : series_mean [10; 10; 10] = 10).
  { unfold series_mean, series_sum. cbn [fold_right List.length INR]. field. }
  rewrite Hmean.
  assert (Heoq : exists q, calculate_eoq default_optimizer (10 * 365) 10 = Ok q).
  { unfold calculate_eoq. rewrite !Rleb_false by lra. cbn [orb].
    cbn [default_optimizer holding_cost_pct ordering_cost].
    rewrite py_div_ok by lra. cbn [bind].
    rewrite py_sqrt_ok by lra. cbn [bind]. eexists; reflexivity. }
  destruct Heoq as [q ->]. cbn [bind].
  rewrite py_div_ok by lra. cbn [bind].
  rewrite reorder_point_call_raises. reflexivity.
Qed.

(** Inside the three-sigma band and below the expected demand the code
    subtracts the tail term: the two sign flips of the negative branch cancel. *)
Lemma stockout_below_expected :
  forall current_stock avg_demand demand_std_dev lead_time,
    0 < avg_demand -> 0 < lead_time -> 0 < demand_std_dev ->
    avg_demand * lead_time - 3 * demand_std_dev * sqrt lead_time < current_stock ->
    current_stock < avg_demand * lead_time ->
    let z := (current_stock - avg_demand * lead_time)
             / (demand_std_dev * sqrt lead_time) in
    _calculate_stockout_probability current_stock avg_demand demand_std_dev lead_time
    = Ok (1 / 2 + 1 / 2 * (1 - exp (- (7 / 10) * z * z)) * -1)
    /\ 1 / 2 + 1 / 2 * (1 - exp (- (7 / 10) * z * z)) * -1 < 1 / 2.
Proof.
  intros cs avg sd lt Havg Hlt Hsd Hlow Hhigh z.
  assert (Hroot : 0 < sqrt lt) by now apply sqrt_lt_R0.
  assert (Hsigma : 0 < sd * sqrt lt) by now apply Rmult_lt_0_compat.
  assert (Hz : z < 0).
  { unfold z, Rdiv. apply Rmult_neg_pos; [lra|]. now apply Rinv_0_lt_compat. }
  assert (Hexp : exp (- (7 / 10) * z * z) < 1).
  { rewrite <- exp_0. apply exp_increasing.
    assert (0 < z * z) by nra. nra. }
  split; [|lra].
  unfold _calculate_stockout_probability.
  rewrite Rleb_false by exact Havg.
  rewrite py_sqrt_ok by lra. cbn [bind].
  rewrite Rleb_false by nra.
  rewrite Rleb_false by lra.
  rewrite py_div_ok by lra. cbn [bind]. fold z.
  now rewrite !Rltb_true by exact Hz.
Qed.

(** At or above the expected demand, still inside the band, the tail term is
    subtracted as well. *)
Lemma stockout_above_expected :
  forall current_stock avg_demand demand_std_dev lead_time,
    0 < avg_demand -> 0 < lead_time -> 0 < demand_std_dev ->
    avg_demand * lead_time <= current_stock ->
    current_stock < avg_demand * lead_time + 3 * demand_std_dev * sqrt lead_time ->
    let z := (current_stock - avg_demand * lead_time)
             / (demand_std_dev * sqrt lead_time) in
    _calculate_stockout_probability current_stock avg_demand demand_std_dev lead_time
    = Ok (1 / 2 - 1 / 2 * (1 - exp (- (7 / 10) * z * z))).
Proof.
  intros cs avg sd lt Havg Hlt Hsd Hlow Hhigh z.
  assert (Hroot : 0 < sqrt lt) by now apply sqrt_lt_R0.
  assert (Hsigma : 0 < sd * sqrt lt) by now apply Rmult_lt_0_compat.
  assert (Hz : 0 <= z).
  { unfold z, Rdiv. apply Rmult_le_pos; [lra|].
    left. now apply Rinv_0_lt_compat. }
  unfold _calculate_stockout_probability.
  rewrite Rleb_false by exact Havg.
  rewrite py_sqrt_ok by lra. cbn [bind].
  rewrite Rleb_false by lra.
  rewrite Rleb_false by nra.
  rewrite py_div_ok by lra. cbn [bind]. fold z.
  now rewrite Rltb_false by exact Hz.
Qed.

(** The two ends of the band. *)
Lemma stockout_beyond_band :
  forall current_stock avg_demand demand_std_dev lead_time,
    0 < avg_demand -> 0 <= lead_time ->
    (avg_demand * lead_time + 3 * demand_std_dev * sqrt lead_time <= current_stock ->
     _calculate_stockout_probability current_stock avg_demand demand_std_dev lead_time
     = Ok 0)
    /\ (current_stock < avg_demand * lead_time + 3 * demand_std_dev * sqrt lead_time ->
        current_stock <= avg_demand * lead_time - 3 * demand_std_dev * sqrt lead_time ->
        _calculate_stockout_probability current_stock avg_demand demand_std_dev lead_time
        = Ok 1).
Proof.
  intros cs avg sd lt Havg Hlt. unfold _calculate_stockout_probability.
  rewrite Rleb_false by exact Havg. rewrite py_sqrt_ok by exact Hlt. cbn [bind].
  split.
  - intros H. now rewrite Rleb_true by exact H.
  - intros H1 H2. rewrite Rleb_false by exact H1. now rewrite Rleb_true by exact H2.
Qed.

End RealRuns.

(** C8. With 9 units in stock, a mean demand of 10 a day, a deviation of 1
    and a lead time of 1 day (so z = -1, inside the band and below the
    expected demand) the function returns 1/2 - 1/2 (1 - e^(-0.7)), which is
    below one half, and not 1/2 + 1/2 (1 - e^(-0.7)). *)
Theorem stockout_probability_at_minus_one :
  exists p : R,
    _calculate_stockout_probability 9 10 1 1 = Ok p
    /\ (p = 1 / 2 - 1 / 2 * (1 - exp (- (7 / 10))))%R
    /\ (p < 1 / 2)%R
    /\ (p <> 1 / 2 + 1 / 2 * (1 - exp (- (7 / 10))))%R.
Proof.
  assert (Hroot : sqrt 1 = 1%R) by apply sqrt_1.
  destruct (stockout_below_expected 9 10 1 1) as [Hrun Hlt];
    try rewrite Hroot; try lra.
  assert (Hz : ((9 - 10 * 1) / (1 * sqrt 1) = -1)%R) by (rewrite Hroot; field).
  cbv zeta in Hrun, Hlt. rewrite Hz in Hrun, Hlt.
  replace (- (7 / 10) * -1 * -1)%R with (- (7 / 10))%R in Hrun, Hlt by ring.
  eexists. split; [exact Hrun|]. split; [ring|]. split; [exact Hlt|].
  lra.
Qed.

(** * Further properties *)

(** ** Sales: commit and books *)

Lemma sale_loop_committed :
  forall tid loc items d,
    committed (snd (sale_loop tid loc items d)) = committed d.
Proof.
  intros tid loc items. induction items as [|item rest IH]; intros d.
  - reflexivity.
  - cbn [sale_loop]. destruct (insufficient _ _); [reflexivity|].
    cbn. rewrite IH. reflexivity.
Qed.

Lemma sale_loop_not_failed :
  forall tid loc items d e, fst (sale_loop tid loc items d) <> Failed e.
Proof.
  intros tid loc items. induction items as [|item rest IH]; intros d e.
  - discriminate.
  - cbn [sale_loop]. destruct (insufficient _ _); [discriminate|].
    cbn. apply IH.
Qed.

Lemma sale_loop_short :
  forall tid loc items d pid,
    fst (sale_loop tid loc items d) = Short pid ->
    working (snd (sale_loop tid loc items d)) = committed d.
Proof.
  intros tid loc items. induction items as [|item rest IH]; intros d pid.
  - discriminate.
  - cbn [sale_loop]. destruct (insufficient _ _); [reflexivity|].
    cbn. intros H. now rewrite (IH _ _ H).
Qed.

Lemma process_sale_outcome :
  forall tid s,
    let r := fst (_process_sale tid s) in
    let s' := snd (_process_sale tid s) in
    (r = RSaleSuccess tid /\ clean_session (StoreAgent.db s'))
    \/ (response_status r = "error"
        /\ committed (StoreAgent.db s') = committed (StoreAgent.db s)
        /\ (working (StoreAgent.db s') = working (StoreAgent.db s)
            \/ working (StoreAgent.db s') = committed (StoreAgent.db s))).
Proof.
  intros tid s. unfold _process_sale.
  destruct (dict_get tid (pending_transactions s)) as [t|].
  2:{ right. cbn. repeat split. now left. }
  pose proof (sale_loop_committed tid (store_id s) (pt_items t) (StoreAgent.db s)) as Hc.
  pose proof (sale_loop_short tid (store_id s) (pt_items t) (StoreAgent.db s)) as Hs.
  destruct (sale_loop tid (store_id s) (pt_items t) (StoreAgent.db s)) as [[| pid | e] d];
    cbn [fst snd] in *.
  - destruct (try_commit d) as [d'|e] eqn:Hd; cbn [fst snd].
    + left. split; [reflexivity|]. apply try_commit_inv in Hd. subst d'.
      unfold clean_session. rewrite check_reorder_all_db, mark_completed_db. reflexivity.
    + right. cbn. repeat split; [exact Hc|]. right. exact Hc.
  - right. cbn. repeat split; [exact Hc|]. right. now apply (Hs pid).
  - right. cbn. repeat split; [exact Hc|]. right. exact Hc.
Qed.

(** X1. A sale request that is refused commits nothing.  When the answer is
    neither success nor the [Error processing sale: ...] of the [except]
    clause of [_process_sale] (that clause also covers what runs after the
    commit, so its answer does not tell whether the sale was committed), the
    committed tables are the ones before, and the session either is
    untouched or has been rolled back to them. *)
Theorem refused_sale_commits_nothing :
  forall (m : Message) (s : Store),
    response_status (fst (_handle_sale_request m s)) <> "success" ->
    (forall e : string,
        fst (_handle_sale_request m s) <> RError ("Error processing sale: " ++ e)) ->
    committed (StoreAgent.db (snd (_handle_sale_request m s)))
    = committed (StoreAgent.db s)
    /\ (working (StoreAgent.db (snd (_handle_sale_request m s)))
        = working (StoreAgent.db s)
        \/ working (StoreAgent.db (snd (_handle_sale_request m s)))
           = committed (StoreAgent.db s)).
Proof.
  intros m s H _. revert H. unfold _handle_sale_request.
  destruct (negb _); [intros _; split; [reflexivity|now left]|].
  destruct (check_items _ _ _) as [[|x ins] [|y val]];
    try (intros _; split; [reflexivity|now left]).
  match goal with
  | |- context [_process_sale ?t ?s1] =>
      pose proof (process_sale_outcome t s1) as Hp;
      destruct (_process_sale t s1) as [r s2]
  end.
  cbn [fst snd] in Hp. destruct Hp as [[-> _]|(Herr & Hc & Hw)].
  - cbn. intros H. now contradiction H.
  - rewrite Herr. cbn [String.eqb Ascii.eqb Bool.eqb fst snd]. intros _.
    split; [exact Hc|exact Hw].
Qed.

Lemma refused_sale_commits_nothing_witness :
  response_status (fst (_handle_sale_request MoreExamples.double_sale Examples.store))
  <> "success"
  /\ (forall e : string,
         fst (_handle_sale_request MoreExamples.double_sale Examples.store)
         <> RError ("Error processing sale: " ++ e))
  /\ committed (StoreAgent.db
                  (snd (_handle_sale_request MoreExamples.double_sale Examples.store)))
     = Examples.store_tables
  /\ (working (StoreAgent.db
                 (snd (_handle_sale_request MoreExamples.double_sale Examples.store)))
      = Examples.store_tables
      \/ working (StoreAgent.db
                    (snd (_handle_sale_request MoreExamples.double_sale Examples.store)))
         = Examples.store_tables).
Proof.
  assert (H : response_status
                (fst (_handle_sale_request MoreExamples.double_sale Examples.store))
              <> "success") by (vm_compute; discriminate).
  assert (H' : forall e : string,
             fst (_handle_sale_request MoreExamples.double_sale Examples.store)
             <> RError ("Error processing sale: " ++ e))
    by (intros e; vm_compute; discriminate).
  split; [exact H|]. split; [exact H'|].
  exact (refused_sale_commits_nothing MoreExamples.double_sale Examples.store H H').
Defined.

(** A sale whose commit the database refuses is answered by the [except]
    clause, and nothing of it is committed or left in the session. *)
Example sale_refused_at_commit :
  let s := mkStore "S1"
             (mkSession Examples.store_tables Examples.store_tables
                (fun _ => Some (DatabaseError "connection lost"))) [] [] [] 0 in
  fst (_handle_sale_request Examples.small_sale s)
  = RError "Error processing sale: connection lost"
  /\ StoreAgent.db (snd (_handle_sale_request Examples.small_sale s))
     = StoreAgent.db s.
Proof. split; reflexivity. Qed.

(** The double sale passes the per-line validation, is stopped at its second
    line and rolled back; the transaction stays pending. *)
Example double_sale_rolled_back :
  _handle_sale_request MoreExamples.double_sale Examples.store
  = (RError "Insufficient inventory for product P1",
     with_pending_transactions
       [("TX3", mkPendingTransaction [mkItem "P1" 1; mkItem "P1" 2] absent "pending")]
       Examples.store).
Proof. reflexivity. Qed.

Lemma ledger_sum_app :
  forall l x pid loc,
    fold_right Z.add 0
      (map tx_quantity_change (filter (tx_matches pid loc) (l ++ [x])%list))
    = fold_right Z.add 0 (map tx_quantity_change (filter (tx_matches pid loc) l))
      + (if tx_matches pid loc x then tx_quantity_change x else 0).
Proof.
  intros l x pid loc. induction l as [|y l IH]; cbn [app filter].
  - destruct (tx_matches pid loc x); cbn; lia.
  - destruct (tx_matches pid loc y); cbn [map fold_right]; rewrite IH; lia.
Qed.

(** A debit of [q] units of a product at a location, entered in the ledger
    with reference [ref], leaves every book balance as it was. *)
Lemma debit_keeps_balance :
  forall d pid loc q r ty reason ref pid' loc',
    query_inventory d pid loc = Some r ->
    book_balance
      (working (add_transaction (mkTransaction pid (- q) ty reason loc ref)
                  (set_quantity pid loc (inv_quantity r - q) d))) pid' loc'
    = book_balance (working d) pid' loc'.
Proof.
  intros d pid loc q r ty reason ref pid' loc' Hq.
  unfold book_balance, stock, ledger_sum. cbn.
  rewrite ledger_sum_app. unfold tx_matches at 2. cbn.
  rewrite (String.eqb_sym pid pid'), (String.eqb_sym loc loc').
  unfold query_inventory in Hq.
  destruct (String.eqb pid' pid && String.eqb loc' loc) eqn:Hsame.
  - apply andb_true_iff in Hsame. destruct Hsame as [H1 H2].
    apply String.eqb_eq in H1, H2. subst pid' loc'.
    rewrite (find_set_first_same _ _ _ _ _ Hq), Hq. cbn. lia.
  - rewrite (find_set_first_other _ _ _ _ _ _ Hsame). lia.
Qed.

Lemma sale_loop_completed_balance :
  forall tid loc items d pid' loc',
    fst (sale_loop tid loc items d) = Completed ->
    book_balance (working (snd (sale_loop tid loc items d))) pid' loc'
    = book_balance (working d) pid' loc'.
Proof.
  intros tid loc items. induction items as [|item rest IH]; intros d pid' loc'.
  - reflexivity.
  - cbn [sale_loop].
    destruct (query_inventory d (item_product_id item) loc) as [r|] eqn:Hq;
      cbn [insufficient]; [|discriminate].
    destruct (inv_quantity r <? item_quantity item); [discriminate|].
    cbn [TransactionType_getattr TransactionType_members dict_get].
    cbn [String.eqb Ascii.eqb Bool.eqb available].
    intros H. rewrite (IH _ _ _ H). now apply debit_keeps_balance.
Qed.

(** X2. Starting from a session with nothing uncommitted, a sale request
    leaves the session with nothing uncommitted, and for every product and
    location the stock moves exactly as the ledger does: whatever is debited
    is entered as SALE rows of the same total, and a refused sale changes
    neither. *)
Theorem sale_request_keeps_books :
  forall (m : Message) (s : Store) (pid loc : string),
    clean_session (StoreAgent.db s) ->
    clean_session (StoreAgent.db (snd (_handle_sale_request m s)))
    /\ book_balance (working (StoreAgent.db (snd (_handle_sale_request m s)))) pid loc
       = book_balance (working (StoreAgent.db s)) pid loc.
Proof.
  intros m s pid loc Hclean. unfold _handle_sale_request.
  destruct (negb _); [split; [exact Hclean|reflexivity]|].
  destruct (check_items _ _ _) as [[|x ins] [|y val]];
    try (split; [exact Hclean|reflexivity]).
  set (tid := c_transaction_id (content m)).
  set (s1 := with_pending_transactions _ s).
  assert (Hgoal :
            clean_session (StoreAgent.db (snd (_process_sale tid s1)))
            /\ book_balance (working (StoreAgent.db (snd (_process_sale tid s1)))) pid loc
               = book_balance (working (StoreAgent.db s)) pid loc).
  { unfold _process_sale.
    destruct (dict_get tid (pending_transactions s1)) as [t|];
      [|split; [exact Hclean|reflexivity]].
    change (store_id s1) with (store_id s).
    change (StoreAgent.db s1) with (StoreAgent.db s).
    pose proof (sale_loop_committed tid (store_id s) (pt_items t) (StoreAgent.db s)) as Hc.
    pose proof (sale_loop_short tid (store_id s) (pt_items t) (StoreAgent.db s)) as Hs.
    pose proof (sale_loop_not_failed tid (store_id s) (pt_items t) (StoreAgent.db s)) as Hf.
    pose proof (sale_loop_completed_balance tid (store_id s) (pt_items t)
                  (StoreAgent.db s) pid loc) as Hb.
    destruct (sale_loop tid (store_id s) (pt_items t) (StoreAgent.db s))
      as [[| p | e] d]; cbn [fst snd] in *.
    - destruct (try_commit d) as [d'|e] eqn:Hd; cbn [snd].
      + apply try_commit_inv in Hd. subst d'.
        rewrite check_reorder_all_db, mark_completed_db. cbn.
        split; [reflexivity|]. now apply Hb.
      + cbn. unfold clean_session in *.
        split; [reflexivity|]. rewrite Hc, <- Hclean. reflexivity.
    - cbn. specialize (Hs p eq_refl). unfold clean_session in *.
      split; [congruence|]. rewrite Hs, <- Hclean. reflexivity.
    - now contradiction (Hf e). }
  destruct (_process_sale tid s1) as [r s2]. cbn [snd] in Hgoal.
  destruct (String.eqb _ _); exact Hgoal.
Qed.

Lemma sale_request_keeps_books_witness :
  clean_session (StoreAgent.db Examples.store)
  /\ clean_session
       (StoreAgent.db (snd (_handle_sale_request Examples.small_sale Examples.store)))
  /\ book_balance
       (working
          (StoreAgent.db (snd (_handle_sale_request Examples.small_sale Examples.store))))
       "P2" "S1"
     = 5.
Proof.
  split; [reflexivity|].
  exact (sale_request_keeps_books Examples.small_sale Examples.store "P2" "S1" eq_refl).
Defined.

(** ** Order updates and new orders *)

Lemma order_update_body_tables :
  forall oid status loc d d',
    order_update_body oid status loc d = Ok d' ->
    working d' = working (set_order_status oid
                            (match OrderStatus_getitem status with
                             | Ok st => st
                             | Raise _ => PENDING
                             end) d)
    /\ committed d' = working d'.
Proof.
  intros oid status loc d d'. unfold order_update_body.
  destruct (OrderStatus_getitem status) as [st|e] eqn:Hst; cbn [bind]; [|discriminate].
  destruct (String.eqb status "CANCELLED") eqn:Hc.
  - apply String.eqb_eq in Hc. subst status. discriminate Hst.
  - cbn [bind]. intros H. apply try_commit_inv in H. subst d'. split; reflexivity.
Qed.

(** X3. Whatever the order and whatever the status asked for, an
    ORDER_UPDATE processed on a session with nothing uncommitted leaves every
    inventory row and the whole ledger as they were, in the session and in
    what is committed: no status, not even a cancellation, returns stock. *)
Theorem order_update_moves_no_stock :
  forall (m : Message) (s : Store),
    clean_session (StoreAgent.db s) ->
    let d' := StoreAgent.db (snd (_handle_order_update m s)) in
    clean_session d'
    /\ t_inventory (working d') = t_inventory (working (StoreAgent.db s))
    /\ t_transactions (working d') = t_transactions (working (StoreAgent.db s))
    /\ t_order_items (working d') = t_order_items (working (StoreAgent.db s)).
Proof.
  intros m s Hclean d'. subst d'. unfold _handle_order_update.
  destruct (negb _); [repeat split; exact Hclean|].
  destruct (query_order _ _); [|repeat split; exact Hclean].
  destruct (order_update_body _ _ _ _) as [d|e] eqn:Hb; cbn [snd with_db StoreAgent.db].
  - destruct (order_update_body_tables _ _ _ _ _ Hb) as [Hw Hcm].
    unfold clean_session. rewrite Hcm, Hw. repeat split.
  - unfold clean_session in *. cbn. rewrite <- Hclean. repeat split.
Qed.

Lemma order_update_moves_no_stock_witness :
  clean_session (StoreAgent.db Examples.store)
  /\ clean_session
       (StoreAgent.db
          (snd (_handle_order_update (Examples.order_update "O1" "CANCELED")
                  Examples.store)))
  /\ t_inventory
       (working
          (StoreAgent.db
             (snd (_handle_order_update (Examples.order_update "O1" "CANCELED")
                     Examples.store))))
     = [mkInventory "P1" "S1" 2; mkInventory "P2" "S1" 5]
  /\ t_transactions
       (working
          (StoreAgent.db
             (snd (_handle_order_update (Examples.order_update "O1" "CANCELED")
                     Examples.store))))
     = []
  /\ t_order_items
       (working
          (StoreAgent.db
             (snd (_handle_order_update (Examples.order_update "O1" "CANCELED")
                     Examples.store))))
     = [mkOrderItem "O1" "P1" 1].
Proof.
  split; [reflexivity|].
  exact (order_update_moves_no_stock (Examples.order_update "O1" "CANCELED")
           Examples.store eq_refl).
Defined.

(** X4. [create_order] never creates an order.  It answers with an error or
    with the list of short items, never with an order id; what is committed
    stays as it was, the session is left untouched or rolled back, and no
    replenishment is requested. *)
Theorem create_order_never_succeeds :
  forall (customer_id : string) (items : list Item) (s : Store),
    let r := fst (create_order customer_id items s) in
    let s' := snd (create_order customer_id items s) in
    (forall order_id total, r <> OCreated order_id total)
    /\ committed (StoreAgent.db s') = committed (StoreAgent.db s)
    /\ (working (StoreAgent.db s') = working (StoreAgent.db s)
        \/ working (StoreAgent.db s') = committed (StoreAgent.db s))
    /\ pending_replenishments s' = pending_replenishments s
    /\ StoreAgent.outbox s' = StoreAgent.outbox s.
Proof.
  intros customer_id items s. unfold create_order.
  destruct items as [|item rest]; [cbn; repeat split; [discriminate|now left]|].
  destruct (fst (check_items _ _ _)) as [|x ins];
    [|cbn; repeat split; [discriminate|now left]].
  cbn. repeat split; [discriminate|now right].
Qed.

(** ** Replenishment requests *)

Lemma dict_set_values_forall :
  forall (V : Type) (P : V -> Prop) (d : dict V) k v,
    Forall P (dict_values d) -> P v -> Forall P (dict_values (dict_set k v d)).
Proof.
  intros V P d k v Hd Hv. unfold dict_values in *.
  induction d as [|[k0 v0] d IH]; cbn.
  - constructor; [exact Hv|constructor].
  - inversion Hd; subst. destruct (String.eqb k k0); cbn; constructor; auto.
Qed.

Lemma dict_get_values_forall :
  forall (V : Type) (P : V -> Prop) (d : dict V) k v,
    Forall P (dict_values d) -> dict_get k d = Some v -> P v.
Proof.
  intros V P d k v Hd. unfold dict_values in *.
  induction d as [|[k0 v0] d IH]; cbn; [discriminate|].
  inversion Hd; subst. destruct (String.eqb k k0); [intros [= <-]; assumption|auto].
Qed.

Lemma request_replenishment_no_references :
  forall pid q prio is_retry orig s,
    no_references s ->
    no_references (snd (_request_replenishment pid q prio is_retry orig s)).
Proof.
  intros pid q prio is_retry orig s Hs. unfold no_references, _request_replenishment in *.
  destruct is_retry; cbn [draw_uuid];
    match goal with
    | |- context [dict_mem ?k ?p] => destruct (dict_mem k p)
    end; cbn; try exact Hs; apply dict_set_values_forall; auto.
Qed.

Lemma check_reorder_needed_no_references :
  forall pid s, no_references s -> no_references (_check_reorder_needed pid s).
Proof.
  intros pid s Hs. unfold _check_reorder_needed.
  destruct (query_inventory _ _ _); [|exact Hs].
  destruct (query_product _ _); [|exact Hs].
  destruct (_ <=? _); [|exact Hs].
  destruct (_ =? _); [|exact Hs].
  now apply request_replenishment_no_references.
Qed.

Lemma check_reorder_all_no_references :
  forall items s,
    no_references s ->
    no_references
      (fold_left (fun acc item => _check_reorder_needed (item_product_id item) acc)
                 items s).
Proof.
  induction items as [|item rest IH]; intros s Hs; cbn [fold_left]; [exact Hs|].
  apply IH. now apply check_reorder_needed_no_references.
Qed.

Lemma process_sale_no_references :
  forall tid s, no_references s -> no_references (snd (_process_sale tid s)).
Proof.
  intros tid s Hs. unfold _process_sale.
  destruct (dict_get tid (pending_transactions s)) as [t|]; [|exact Hs].
  destruct (sale_loop _ _ _ _) as [[| |] d]; cbn [snd]; try exact Hs.
  destruct (try_commit d) as [d'|e]; cbn [snd]; [|exact Hs].
  apply check_reorder_all_no_references. unfold mark_completed. cbn.
  destruct (dict_get tid (pending_transactions s)); exact Hs.
Qed.

Lemma handle_transfer_failed_unreferenced :
  forall m s,
    no_references s ->
    snd (_handle_transfer_failed m s) = s
    /\ (fst (_handle_transfer_failed m s) = RAcknowledged "Transfer failure acknowledged"
        \/ response_status (fst (_handle_transfer_failed m s)) = "error").
Proof.
  intros m s Hs. unfold _handle_transfer_failed.
  destruct (negb _); [split; [reflexivity|now right]|].
  destruct (find _ _) as [[rid req]|] eqn:Hf; [|split; [reflexivity|now left]].
  exfalso. apply find_some in Hf. destruct Hf as [Hin Href].
  unfold no_references in Hs. rewrite Forall_forall in Hs.
  specialize (Hs req (in_map snd _ _ Hin)).
  unfold references in Href. cbn in Href. now rewrite Hs in Href.
Qed.

Lemma process_message_no_references :
  forall m s,
    no_references s -> no_references (snd (StoreAgent.process_message m s)).
Proof.
  intros m s Hs. unfold StoreAgent.process_message.
  destruct (String.eqb (message_type m) "SALE_REQUEST").
  { unfold _handle_sale_request.
    destruct (negb _); [exact Hs|].
    destruct (check_items _ _ _) as [[|x ins] [|y val]]; try exact Hs.
    match goal with
    | |- context [_process_sale ?t ?s1] =>
        pose proof (process_sale_no_references t s1 Hs) as Hp;
        destruct (_process_sale t s1) as [r s2]
    end.
    cbn [snd] in *. destruct (String.eqb _ _); exact Hp. }
  destruct (String.eqb (message_type m) "INVENTORY_UPDATE").
  { unfold _handle_inventory_update.
    destruct (negb _); [exact Hs|].
    destruct (apply_update _ _ _ _ _) as [d1|]; [|exact Hs].
    destruct (if String.eqb _ "ADD" then _ else _) as [ty|e]; [|exact Hs].
    match goal with
    | |- context [if truthy ?a then (?a, ?s1) else ?rest] =>
        assert (Hp : pending_replenishments (snd (if truthy a then (a, s1) else rest))
                     = pending_replenishments s)
          by (destruct (truthy a); [reflexivity|];
              match goal with
              | |- context [if truthy ?b then _ else _] => destruct (truthy b)
              end; reflexivity);
        destruct (if truthy a then (a, s1) else rest) as [rid s2]
    end.
    cbn [snd] in *.
    unfold try_commit. destruct (gateway _ _) as [e|].
    { cbn [snd]. unfold no_references in *.
      cbn [pending_replenishments with_db]. rewrite Hp. exact Hs. }
    destruct (truthy _ && dict_mem _ _); cbn [snd]; unfold no_references in *.
    - unfold mark_fulfilled.
      cbn [pending_replenishments with_db].
      destruct (dict_get _ (pending_replenishments s2)) as [r|] eqn:Hg;
        cbn [pending_replenishments with_db with_pending_replenishments];
        rewrite Hp in *; [|exact Hs].
      apply dict_set_values_forall; [exact Hs|]. cbn.
      exact (dict_get_values_forall _ _ _ _ _ Hs Hg).
    - cbn [pending_replenishments with_db]. rewrite Hp. exact Hs. }
  destruct (String.eqb (message_type m) "ORDER_UPDATE").
  { unfold _handle_order_update.
    destruct (negb _); [exact Hs|].
    destruct (query_order _ _); [|exact Hs].
    destruct (order_update_body _ _ _ _); exact Hs. }
  destruct (String.eqb (message_type m) "TRANSFER_FAILED"); [|exact Hs].
  destruct (handle_transfer_failed_unreferenced m s Hs) as [Heq _].
  destruct (_handle_transfer_failed m s) as [r s']. cbn [snd] in *. now subst.
Qed.

(** X5. A store in which no pending request refers to a transfer stays so
    through any messages it processes, and in such a store a TRANSFER_FAILED
    notice changes nothing: it is answered with an error or with the plain
    acknowledgement, no request is marked failed and no retry is sent.  A
    store that starts without pending requests is such a store. *)
Theorem retry_never_fires_for_own_requests :
  forall (s : Store) (ms : list Message) (m : Message),
    no_references s ->
    no_references (deliver ms s)
    /\ snd (_handle_transfer_failed m (deliver ms s)) = deliver ms s
    /\ (fst (_handle_transfer_failed m (deliver ms s))
        = RAcknowledged "Transfer failure acknowledged"
        \/ response_status (fst (_handle_transfer_failed m (deliver ms s))) = "error").
Proof.
  intros s ms m Hs.
  assert (H : no_references (deliver ms s)).
  { unfold deliver. revert s Hs.
    induction ms as [|m0 ms IH]; intros s Hs; cbn [fold_left]; [exact Hs|].
    apply IH. now apply process_message_no_references. }
  split; [exact H|]. now apply handle_transfer_failed_unreferenced.
Qed.

Lemma retry_never_fires_for_own_requests_witness :
  no_references Examples.store
  /\ no_references (deliver [MoreExamples.sellout_sale] Examples.store)
  /\ snd (_handle_transfer_failed (Examples.transfer_failed "T1" "P1")
            (deliver [MoreExamples.sellout_sale] Examples.store))
     = deliver [MoreExamples.sellout_sale] Examples.store
  /\ (fst (_handle_transfer_failed (Examples.transfer_failed "T1" "P1")
             (deliver [MoreExamples.sellout_sale] Examples.store))
      = RAcknowledged "Transfer failure acknowledged"
      \/ response_status
           (fst (_handle_transfer_failed (Examples.transfer_failed "T1" "P1")
                   (deliver [MoreExamples.sellout_sale] Examples.store)))
         = "error").
Proof.
  assert (H : no_references Examples.store) by constructor.
  split; [exact H|].
  exact (retry_never_fires_for_own_requests Examples.store
           [MoreExamples.sellout_sale] (Examples.transfer_failed "T1" "P1") H).
Defined.

(** The sell-out leaves one pending HIGH request of 10 units for P1. *)
Example sellout_requests_replenishment :
  pending_replenishments (deliver [MoreExamples.sellout_sale] Examples.store)
  = [(uuid4 0, mkReplenishment "P1" 10 "HIGH" "pending" (Some 0) None None)]
  /\ StoreAgent.outbox (deliver [MoreExamples.sellout_sale] Examples.store)
     = [replenishment_request "S1" (uuid4 0) "P1" 10 "HIGH"].
Proof. split; reflexivity. Qed.

Lemma dict_set_fresh :
  forall (V : Type) (d : dict V) k v,
    dict_mem k d = false -> dict_set k v d = (d ++ [(k, v)])%list.
Proof.
  intros V d k v. unfold dict_mem. induction d as [|[k0 v0] d IH]; cbn.
  - reflexivity.
  - destruct (String.eqb k k0); [discriminate|]. intros H. now rewrite IH.
Qed.

Lemma pending_quantity_app :
  forall pid p k r,
    pending_quantity pid (p ++ [(k, r)])%list
    = pending_quantity pid p
      + (if String.eqb (rr_product_id r) pid && String.eqb (rr_status r) "pending"
         then rr_quantity r else 0).
Proof.
  intros pid p k r. unfold pending_quantity, dict_values.
  induction p as [|[k0 r0] p IH]; cbn [app map filter snd].
  - destruct (_ && _); cbn; lia.
  - destruct (String.eqb (rr_product_id r0) pid && String.eqb (rr_status r0) "pending");
      cbn [map fold_right]; rewrite IH; lia.
Qed.

(** X6. The reorder check does not ask twice: once it has run for a product,
    running it again for the same product changes nothing, because the
    request it may have sent is now pending.  (The id drawn for a new
    request must not be in use already.) *)
Theorem reorder_check_asks_once :
  forall (product_id : string) (s : Store),
    dict_mem (uuid4 (StoreAgent.uuid_next s)) (pending_replenishments s) = false ->
    _check_reorder_needed product_id (_check_reorder_needed product_id s)
    = _check_reorder_needed product_id s.
Proof.
  intros pid s Hfresh.
  remember (_check_reorder_needed pid s) as s1 eqn:Hs1.
  unfold _check_reorder_needed in Hs1.
  destruct (query_inventory (StoreAgent.db s) pid (store_id s)) as [inv|] eqn:Hinv.
  2:{ subst s1. unfold _check_reorder_needed. now rewrite Hinv. }
  destruct (query_product (StoreAgent.db s) pid) as [product|] eqn:Hprod.
  2:{ subst s1. unfold _check_reorder_needed. now rewrite Hinv, Hprod. }
  destruct (inv_quantity inv <=? prod_minimum_stock product) eqn:Hlow.
  2:{ subst s1. unfold _check_reorder_needed. now rewrite Hinv, Hprod, Hlow. }
  destruct (pending_quantity pid (pending_replenishments s) =? 0) eqn:Hpend.
  2:{ subst s1. unfold _check_reorder_needed. now rewrite Hinv, Hprod, Hlow, Hpend. }
  set (order_qty := Z.max 10 (prod_minimum_stock product * 4)) in *.
  assert (Hreq : snd (_request_replenishment pid order_qty "HIGH" false absent s)
                 = send_message
                     (replenishment_request (store_id s)
                        (uuid4 (StoreAgent.uuid_next s)) pid order_qty "HIGH")
                     (with_pending_replenishments
                        (pending_replenishments s
                         ++ [(uuid4 (StoreAgent.uuid_next s),
                              mkReplenishment pid order_qty "HIGH" "pending"
                                (Some 0) None None)])%list
                        (snd (draw_uuid s)))).
  { unfold _request_replenishment. cbn [draw_uuid snd fst pending_replenishments].
    rewrite Hfresh. cbn [snd]. now rewrite (dict_set_fresh _ _ _ _ Hfresh). }
  rewrite Hreq in Hs1. subst s1. unfold _check_reorder_needed.
  cbn [send_message with_pending_replenishments StoreAgent.db store_id
       pending_replenishments draw_uuid snd].
  rewrite Hinv, Hprod, Hlow, pending_quantity_app.
  cbn [rr_product_id rr_status rr_quantity].
  rewrite String.eqb_refl. cbn [String.eqb Ascii.eqb Bool.eqb andb].
  apply Z.eqb_eq in Hpend. rewrite Hpend.
  replace (0 + order_qty =? 0) with false; [reflexivity|].
  symmetry. apply Z.eqb_neq. unfold order_qty. lia.
Qed.

Lemma reorder_check_asks_once_witness :
  dict_mem (uuid4 (StoreAgent.uuid_next MoreExamples.store_sold_out))
           (pending_replenishments MoreExamples.store_sold_out) = false
  /\ StoreAgent.outbox (_check_reorder_needed "P1" MoreExamples.store_sold_out)
     = [replenishment_request "S1" (uuid4 0) "P1" 10 "HIGH"]
  /\ _check_reorder_needed "P1"
       (_check_reorder_needed "P1" MoreExamples.store_sold_out)
     = _check_reorder_needed "P1" MoreExamples.store_sold_out.
Proof.
  split; [reflexivity|]. split; [reflexivity|].
  exact (reorder_check_asks_once "P1" MoreExamples.store_sold_out eq_refl).
Defined.

(** ** Removals and the ledger *)

(** X7. A REMOVE-type update for a product the store has a row for offers the
    database the row set to max(0, old - q) and a TRANSFER row of exactly -q
    in the ledger: what is offered keeps the stock and the ledger in step
    precisely when the row held at least q, a clamped removal is booked in
    full.  If the database accepts the commit, the handler answers success
    with the new quantity and the offered tables are the committed ones.  If
    the commit raises, the handler answers [Error updating inventory: ...]
    with the exception's text and the session is rolled back to what was
    committed before. *)
Theorem removal_is_booked_in_full :
  forall (m : Message) (s : Store) (row : Inventory),
    c_update_type (content m) = Some "REMOVE" ->
    truthy (c_product_id (content m)) = true ->
    opt_default (c_quantity (content m)) 0 <> 0 ->
    query_inventory (StoreAgent.db s) (c_product_id (content m)) (store_id s)
    = Some row ->
    let pid := c_product_id (content m) in
    let q := opt_default (c_quantity (content m)) 0 in
    let d := StoreAgent.db s in
    let answer := fst (_handle_inventory_update m s) in
    let d' := StoreAgent.db (snd (_handle_inventory_update m s)) in
    exists offered : Tables,
      stock offered pid (store_id s) = Z.max 0 (inv_quantity row - q)
      /\ ledger_sum offered pid (store_id s)
         = ledger_sum (working d) pid (store_id s) - q
      /\ (book_balance offered pid (store_id s)
          = book_balance (working d) pid (store_id s)
          <-> q <= inv_quantity row)
      /\ match gateway d offered with
         | None =>
             answer = Ok (RInventorySuccess pid (Z.max 0 (inv_quantity row - q)))
             /\ committed d' = offered /\ working d' = offered
         | Some e =>
             answer = Ok (RError ("Error updating inventory: " ++ Exn_str e))
             /\ committed d' = committed d /\ working d' = committed d
         end.
Proof.
  intros m s row Hty Hpid Hq Hrow pid q d answer d'.
  subst answer d'. unfold _handle_inventory_update.
  rewrite Hty. cbn [opt_default].
  fold pid in Hpid, Hrow |- *. fold q in Hq |- *.
  rewrite Hpid. apply Z.eqb_neq in Hq. rewrite Hq. cbn [negb andb].
  unfold apply_update. rewrite Hrow.
  cbn [String.eqb Ascii.eqb Bool.eqb].
  cbn [TransactionType_getattr TransactionType_members dict_get
       String.eqb Ascii.eqb Bool.eqb].
  set (newq := Z.max 0 (inv_quantity row - q)).
  match goal with
  | |- context [if truthy ?a then (?a, ?s1) else ?rest] =>
      assert (Hs2 : StoreAgent.db (snd (if truthy a then (a, s1) else rest))
                    = set_quantity pid (store_id s) newq d
                    /\ store_id (snd (if truthy a then (a, s1) else rest)) = store_id s)
        by (destruct (truthy a); [split; reflexivity|];
            match goal with
            | |- context [if truthy ?b then _ else _] => destruct (truthy b)
            end; split; reflexivity);
      destruct (if truthy a then (a, s1) else rest) as [rid s2]
  end.
  cbn [snd] in Hs2. destruct Hs2 as [Hdb Hid].
  assert (Hm : forall (c : bool) s3,
             StoreAgent.db (if c then mark_fulfilled (c_request_id (content m)) s3
                            else s3) = StoreAgent.db s3).
  { intros c s3. destruct c; [|reflexivity]. unfold mark_fulfilled.
    destruct (dict_get _ (pending_replenishments s3)); reflexivity. }
  set (tx := mkTransaction pid (- q) TRANSFER
               (opt_default (c_reason (content m)) "Warehouse transfer")
               (store_id s) rid).
  set (d2 := add_transaction tx (set_quantity pid (store_id s) newq d)).
  unfold query_inventory in Hrow. fold d in Hrow.
  assert (Hstock : stock (working d2) pid (store_id s) = newq).
  { unfold stock. cbn. now rewrite (find_set_first_same _ _ _ _ _ Hrow). }
  assert (Hledger : ledger_sum (working d2) pid (store_id s)
                    = ledger_sum (working d) pid (store_id s) - q).
  { unfold ledger_sum. cbn. rewrite ledger_sum_app. unfold tx_matches at 2. cbn.
    rewrite !String.eqb_refl. cbn. lia. }
  exists (working d2).
  split; [exact Hstock|]. split; [exact Hledger|].
  split.
  { unfold book_balance. rewrite Hstock, Hledger.
    unfold stock at 1. rewrite Hrow. unfold newq. lia. }
  rewrite Hdb. fold tx. fold d2. unfold try_commit.
  replace (gateway d2) with (gateway d) by reflexivity.
  destruct (gateway d (working d2)) as [e|].
  - cbn [fst snd with_db StoreAgent.db]. split; [reflexivity|].
    split; reflexivity.
  - cbn [fst snd]. rewrite !Hm. cbn [with_db StoreAgent.db].
    split; [|split; reflexivity].
    unfold query_inventory, available. cbn [commit working].
    change (match find (inv_matches pid (store_id s)) (t_inventory (working d2)) with
            | Some r => inv_quantity r
            | None => 0
            end) with (stock (working d2) pid (store_id s)).
    now rewrite Hstock.
Qed.

Lemma removal_is_booked_in_full_witness :
  c_update_type (content (MoreExamples.removal "P1" 5)) = Some "REMOVE"
  /\ truthy (c_product_id (content (MoreExamples.removal "P1" 5))) = true
  /\ opt_default (c_quantity (content (MoreExamples.removal "P1" 5))) 0 <> 0
  /\ query_inventory (StoreAgent.db Examples.store) "P1" "S1"
     = Some (mkInventory "P1" "S1" 2)
  /\ exists offered : Tables,
       stock offered "P1" "S1" = Z.max 0 (2 - 5)
       /\ ledger_sum offered "P1" "S1"
          = ledger_sum (working (StoreAgent.db Examples.store)) "P1" "S1" - 5
       /\ (book_balance offered "P1" "S1"
           = book_balance (working (StoreAgent.db Examples.store)) "P1" "S1"
           <-> 5 <= 2)
       /\ match gateway (StoreAgent.db Examples.store) offered with
          | None =>
              fst (_handle_inventory_update (MoreExamples.removal "P1" 5)
                     Examples.store)
              = Ok (RInventorySuccess "P1" (Z.max 0 (2 - 5)))
              /\ committed (StoreAgent.db
                    (snd (_handle_inventory_update (MoreExamples.removal "P1" 5)
                            Examples.store))) = offered
              /\ working (StoreAgent.db
                    (snd (_handle_inventory_update (MoreExamples.removal "P1" 5)
                            Examples.store))) = offered
          | Some e =>
              fst (_handle_inventory_update (MoreExamples.removal "P1" 5)
                     Examples.store)
              = Ok (RError ("Error updating inventory: " ++ Exn_str e))
              /\ committed (StoreAgent.db
                    (snd (_handle_inventory_update (MoreExamples.removal "P1" 5)
                            Examples.store)))
                 = committed (StoreAgent.db Examples.store)
              /\ working (StoreAgent.db
                    (snd (_handle_inventory_update (MoreExamples.removal "P1" 5)
                            Examples.store)))
                 = committed (StoreAgent.db Examples.store)
          end.
Proof.
  assert (Hq : opt_default (c_quantity (content (MoreExamples.removal "P1" 5))) 0 <> 0)
    by discriminate.
  split; [reflexivity|]. split; [reflexivity|]. split; [exact Hq|].
  split; [reflexivity|].
  exact (removal_is_booked_in_full (MoreExamples.removal "P1" 5) Examples.store
           (mkInventory "P1" "S1" 2) eq_refl eq_refl Hq eq_refl).
Defined.

(** On a database with 32-bit integers a removal of 2^31 + 1 units is
    refused at the commit: the answer is the error of the [except] clause
    and the session is back at the committed tables.  The same removal on a
    database that accepts it empties the row and is booked in full. *)
Example oversized_removal :
  fst (_handle_inventory_update (MoreExamples.removal "P1" (2 ^ 31 + 1))
         MoreExamples.store_on_int4)
  = Ok (RError "Error updating inventory: integer out of range")
  /\ StoreAgent.db (snd (_handle_inventory_update
                           (MoreExamples.removal "P1" (2 ^ 31 + 1))
                           MoreExamples.store_on_int4))
     = StoreAgent.db MoreExamples.store_on_int4
  /\ fst (_handle_inventory_update (MoreExamples.removal "P1" (2 ^ 31 + 1))
            Examples.store)
     = Ok (RInventorySuccess "P1" 0)
  /\ ledger_sum (working (StoreAgent.db
                            (snd (_handle_inventory_update
                                    (MoreExamples.removal "P1" (2 ^ 31 + 1))
                                    Examples.store)))) "P1" "S1"
     = - (2 ^ 31 + 1).
Proof. repeat split; reflexivity. Qed.

(** ** The warehouse: requests from stores *)

(** X8. When the warehouse answers an inventory request, the answer is one of
    three kinds.  REJECTED: nothing changes.  BACKORDERED: the warehouse
    holds nothing of the product, no transfer is recorded and one
    SUPPLY_REQUEST goes to the supplier agent.  APPROVED or PARTIAL: exactly
    one transfer is recorded, PENDING, under the id the answer carries and
    with a score in the priority index, and the quantity it reserves is never
    more than the warehouse holds nor more than was requested. *)
Theorem inventory_request_outcome :
  forall (m resp : Message) (w w' : WarehouseAgent.Warehouse),
    WarehouseAgent._handle_inventory_request m w = (Ok resp, w') ->
    let held := available (query_inventory (WarehouseAgent.db w)
                             (c_product_id (content m))
                             (WarehouseAgent.warehouse_id w)) in
    let tid := uuid4 (WarehouseAgent.uuid_next w) in
    (c_status (content resp) = "REJECTED" /\ w' = w)
    \/ (c_status (content resp) = "BACKORDERED"
        /\ held <= 0
        /\ WarehouseAgent.pending_transfers w' = WarehouseAgent.pending_transfers w
        /\ WarehouseAgent.transfer_priorities w' = WarehouseAgent.transfer_priorities w
        /\ exists req,
             WarehouseAgent.outbox w' = (WarehouseAgent.outbox w ++ [req])%list
             /\ message_type req = "SUPPLY_REQUEST"
             /\ recipient req = "supplier_agent")
    \/ ((c_status (content resp) = "APPROVED" \/ c_status (content resp) = "PARTIAL")
        /\ c_transfer_id (content resp) = tid
        /\ WarehouseAgent.outbox w' = WarehouseAgent.outbox w
        /\ exists t score,
             WarehouseAgent.pending_transfers w'
             = dict_set tid t (WarehouseAgent.pending_transfers w)
             /\ WarehouseAgent.transfer_priorities w'
                = dict_set tid score (WarehouseAgent.transfer_priorities w)
             /\ WarehouseAgent.tr_status t = "PENDING"
             /\ WarehouseAgent.tr_available_quantity t <= held
             /\ WarehouseAgent.tr_available_quantity t
                <= WarehouseAgent.tr_requested_quantity t).
Proof.
  intros m resp w w'. unfold WarehouseAgent._handle_inventory_request.
  destruct (query_product _ _) as [product|].
  2:{ intros [= <- <-]. left. split; reflexivity. }
  destruct (query_inventory _ _ _) as [inv|] eqn:Hinv;
    destruct (c_quantity (content m)) as [rq|] eqn:Hrq; cbn [available].
  - destruct (inv_quantity inv <? rq) eqn:Hlt.
    + destruct (0 <? inv_quantity inv) eqn:Hpos.
      * unfold WarehouseAgent.enqueue_transfer. cbn [WarehouseAgent.draw_uuid].
        destruct (WarehouseAgent._calculate_priority_score _ _ _ _) as [score|e];
          [|discriminate].
        intros [= <- <-]. right. right.
        apply Z.ltb_lt in Hlt.
        split; [now right|]. split; [reflexivity|]. split; [reflexivity|].
        eexists. exists score. split; [reflexivity|]. split; [reflexivity|].
        cbn. repeat split; lia.
      * intros [= <- <-]. right. left. apply Z.ltb_ge in Hpos.
        split; [reflexivity|]. split; [exact Hpos|]. split; [reflexivity|].
        split; [reflexivity|]. eexists. cbn. repeat split.
    + unfold WarehouseAgent.enqueue_transfer. cbn [WarehouseAgent.draw_uuid].
      destruct (WarehouseAgent._calculate_priority_score _ _ _ _) as [score|e];
        [|discriminate].
      intros [= <- <-]. right. right. apply Z.ltb_ge in Hlt.
      split; [now left|]. split; [reflexivity|]. split; [reflexivity|].
      eexists. exists score. split; [reflexivity|]. split; [reflexivity|].
      cbn. repeat split; lia.
  - discriminate.
  - intros [= <- <-]. right. left.
    split; [reflexivity|]. split; [lia|]. split; [reflexivity|].
    split; [reflexivity|]. eexists. cbn. repeat split.
  - intros [= <- <-]. right. left.
    split; [reflexivity|]. split; [lia|]. split; [reflexivity|].
    split; [reflexivity|]. eexists. cbn. repeat split.
Qed.

Lemma inventory_request_outcome_witness :
  (exists resp w',
      WarehouseAgent._handle_inventory_request
        (Examples.inventory_request "P1" 5 "HIGH") Examples.warehouse = (Ok resp, w')
      /\ c_status (content resp) = "PARTIAL"
      /\ exists t score,
           WarehouseAgent.pending_transfers w' = [(uuid4 0, t)]
           /\ WarehouseAgent.transfer_priorities w' = [(uuid4 0, score)]
           /\ WarehouseAgent.tr_available_quantity t <= 2).
Proof.
  destruct (WarehouseAgent._handle_inventory_request
              (Examples.inventory_request "P1" 5 "HIGH") Examples.warehouse)
    as [[resp|e] w'] eqn:E; [|discriminate E].
  exists resp, w'. split; [reflexivity|].
  pose proof (inventory_request_outcome _ _ _ _ E) as H.
  assert (Hst : c_status (content resp) = "PARTIAL").
  { vm_compute in E. injection E as <- <-. reflexivity. }
  split; [exact Hst|].
  destruct H as [[Hr _]|[[Hb _]|(_ & _ & _ & t & score & Hp & Hs & _ & Hh & _)]].
  - rewrite Hst in Hr. discriminate Hr.
  - rewrite Hst in Hb. discriminate Hb.
  - exists t, score. split; [exact Hp|]. split; [exact Hs|]. exact Hh.
Defined.

(** ** The warehouse: stock, cycles and the ledger *)

(** X9. Messages alone never move warehouse stock: whatever inventory
    requests, supply confirmations (a DELIVERED one included) and transfer
    status updates the warehouse processes, its database session is the one
    it had before.  Stock changes only when a cycle executes a transfer. *)
Theorem warehouse_messages_move_no_stock :
  forall (ms : list Message) (w : WarehouseAgent.Warehouse),
    WarehouseAgent.db (deliver_warehouse ms w) = WarehouseAgent.db w.
Proof.
  intros ms. unfold deliver_warehouse.
  induction ms as [|m ms IH]; intros w; cbn [fold_left]; [reflexivity|].
  rewrite IH. apply warehouse_process_message_db.
Qed.

(** A delivered supply order is struck off and announced to the store, and
    the stock of the product stays at 2. *)
Example delivery_adds_no_stock :
  let w' := deliver_warehouse [MoreExamples.delivery_confirmation]
              MoreExamples.warehouse_awaiting_supply in
  WarehouseAgent.pending_orders w' = []
  /\ map message_type (WarehouseAgent.outbox w') = ["INVENTORY_AVAILABLE"]
  /\ stock (working (WarehouseAgent.db w')) "P1" "main" = 2.
Proof. repeat split. Qed.











(** Across passes a transfer can be debited again: the handler of status
    updates stores whatever status it is sent, so an update that says
    PENDING puts an executed transfer back in line.  The LOW transfer of the
    two queued ones (5 x P2 out of 50) is debited by the first pass, set back
    to PENDING by such an update, and debited once more by the next pass. *)
Example rearmed_transfer_runs_again :
  let w1 := snd (WarehouseAgent._process_pending_transfers
                   Examples.warehouse_two_queued) in
  let w2 := snd (WarehouseAgent.process_message
                   (MoreExamples.status_update (uuid4 0) "PENDING") w1) in
  let w3 := snd (WarehouseAgent._process_pending_transfers w2) in
  stock (working (WarehouseAgent.db w1)) "P2" "main" = 45
  /\ is_pending (uuid4 0) w1 = false
  /\ is_pending (uuid4 0) w2 = true
  /\ stock (working (WarehouseAgent.db w3)) "P2" "main" = 40
  /\ map tx_quantity_change
         (filter (fun x => String.eqb (tx_reference_id x) (uuid4 0)) (ledger w3))
     = [-5; -5].
Proof. cbv zeta. repeat split; vm_compute; reflexivity. Qed.

Lemma execute_transfer_books :
  forall tid w pid loc,
    clean_session (WarehouseAgent.db w) ->
    clean_session (WarehouseAgent.db (snd (WarehouseAgent.execute_transfer tid w)))
    /\ book_balance
         (working (WarehouseAgent.db (snd (WarehouseAgent.execute_transfer tid w))))
         pid loc
       = book_balance (working (WarehouseAgent.db w)) pid loc.
Proof.
  intros tid w pid loc Hclean. unfold WarehouseAgent.execute_transfer.
  destruct (dict_get _ _) as [t|]; [|split; [exact Hclean|reflexivity]].
  destruct (negb _); [split; [exact Hclean|reflexivity]|].
  destruct (query_inventory _ _ _) as [r|] eqn:Hq;
    [|split; [exact Hclean|reflexivity]].
  destruct (_ <? _); [split; [exact Hclean|reflexivity]|].
  cbn [TransactionType_getattr TransactionType_members dict_get
       String.eqb Ascii.eqb Bool.eqb snd].
  cbn [WarehouseAgent.send_message WarehouseAgent.with_db WarehouseAgent.db
       WarehouseAgent.with_pending_transfers].
  split; [reflexivity|].
  cbn [commit working]. now apply debit_keeps_balance.
Qed.

Lemma execute_transfers_books :
  forall ids w pid loc,
    clean_session (WarehouseAgent.db w) ->
    clean_session (WarehouseAgent.db (snd (WarehouseAgent.execute_transfers ids w)))
    /\ book_balance
         (working (WarehouseAgent.db (snd (WarehouseAgent.execute_transfers ids w))))
         pid loc
       = book_balance (working (WarehouseAgent.db w)) pid loc.
Proof.
  induction ids as [|tid ids IH]; intros w pid loc Hclean;
    cbn [WarehouseAgent.execute_transfers]; [split; [exact Hclean|reflexivity]|].
  destruct (execute_transfer_books tid w pid loc Hclean) as [Hc Hb].
  destruct (WarehouseAgent.execute_transfer tid w) as [[u|e] w1]; cbn [snd] in *.
  - destruct (IH w1 pid loc Hc) as [Hc' Hb']. split; [exact Hc'|congruence].
  - split; assumption.
Qed.

(** X11. A warehouse cycle keeps the books: starting with nothing
    uncommitted it ends with nothing uncommitted, and for every product and
    location the stock has moved exactly as the ledger has.  Every unit that
    leaves is entered as a TRANSFER row, and a transfer that fails moves
    neither. *)
Theorem warehouse_cycle_keeps_books :
  forall (w : WarehouseAgent.Warehouse) (pid loc : string),
    clean_session (WarehouseAgent.db w) ->
    clean_session (WarehouseAgent.db (snd (WarehouseAgent.run_cycle w)))
    /\ book_balance (working (WarehouseAgent.db (snd (WarehouseAgent.run_cycle w))))
         pid loc
       = book_balance (working (WarehouseAgent.db w)) pid loc.
Proof.
  intros w pid loc Hclean.
  unfold WarehouseAgent.run_cycle, WarehouseAgent._process_pending_transfers.
  pose proof (check_stock_levels_db w) as Hdb.
  destruct (WarehouseAgent.pending_transfers (WarehouseAgent._check_stock_levels w)).
  - cbn [snd]. rewrite Hdb. split; [exact Hclean|reflexivity].
  - rewrite <- Hdb in Hclean.
    destruct (execute_transfers_books
                (map fst (WarehouseAgent.sorted_desc
                            (WarehouseAgent.transfer_priorities
                               (WarehouseAgent._check_stock_levels w))))
                (WarehouseAgent._check_stock_levels w) pid loc Hclean) as [Hc Hb].
    split; [exact Hc|]. now rewrite Hb, Hdb.
Qed.

Lemma warehouse_cycle_keeps_books_witness :
  clean_session (WarehouseAgent.db Examples.warehouse_two_queued)
  /\ clean_session
       (WarehouseAgent.db (snd (WarehouseAgent.run_cycle Examples.warehouse_two_queued)))
  /\ book_balance
       (working
          (WarehouseAgent.db
             (snd (WarehouseAgent.run_cycle Examples.warehouse_two_queued))))
       "P2" "main"
     = 50.
Proof.
  split; [reflexivity|].
  exact (warehouse_cycle_keeps_books Examples.warehouse_two_queued "P2" "main" eq_refl).
Defined.

(** In that cycle 5 units of P2 leave: the stock is 45 and the ledger -5. *)
Example two_queued_cycle_books :
  stock (working (WarehouseAgent.db
                    (snd (WarehouseAgent.run_cycle Examples.warehouse_two_queued))))
        "P2" "main" = 45
  /\ ledger_sum (working (WarehouseAgent.db
                            (snd (WarehouseAgent.run_cycle
                                    Examples.warehouse_two_queued))))
                "P2" "main" = -5.
Proof. split; reflexivity. Qed.

(** ** The warehouse: supply requests *)

Lemma already_ordered_none :
  forall pid w,
    none_ordered w ->
    WarehouseAgent.already_ordered pid (WarehouseAgent.pending_orders w) = false.
Proof.
  intros pid w Hw. unfold WarehouseAgent.already_ordered, none_ordered in *.
  induction (dict_values (WarehouseAgent.pending_orders w)) as [|o l IH];
    [reflexivity|].
  inversion Hw as [|? ? Ho Hl]; subst. cbn [existsb].
  unfold counts_as_ordered in Ho. rewrite Ho, andb_false_r. cbn [orb]. now apply IH.
Qed.

Lemma request_from_supplier_none_ordered :
  forall pid q sid w,
    none_ordered w -> none_ordered (WarehouseAgent._request_from_supplier pid q sid w).
Proof.
  intros pid q sid w Hw. unfold none_ordered, WarehouseAgent._request_from_supplier.
  cbn. apply dict_set_values_forall; [exact Hw|reflexivity].
Qed.

(** One step of the scan of [_check_stock_levels], on two warehouses that
    have the same database and name and no order that counts as ordered:
    both send the same envelope, or both send none. *)
Lemma stock_scan_in_step :
  forall rows a b,
    WarehouseAgent.db a = WarehouseAgent.db b ->
    WarehouseAgent.warehouse_id a = WarehouseAgent.warehouse_id b ->
    none_ordered a -> none_ordered b ->
    let f := fun (acc : WarehouseAgent.Warehouse) (inventory : Inventory) =>
               match query_product (WarehouseAgent.db acc) (inv_product_id inventory) with
               | None => acc
               | Some product =>
                   if inv_quantity inventory <? prod_minimum_stock product then
                     let quantity_to_order :=
                       prod_maximum_stock product - inv_quantity inventory in
                     if negb (WarehouseAgent.already_ordered (prod_id product)
                                (WarehouseAgent.pending_orders acc))
                        && (0 <? quantity_to_order)
                     then WarehouseAgent._request_from_supplier (prod_id product)
                            (Some quantity_to_order) None acc
                     else acc
                   else acc
               end in
    exists sent,
      WarehouseAgent.outbox (fold_left f rows a)
      = (WarehouseAgent.outbox a ++ sent)%list
      /\ WarehouseAgent.outbox (fold_left f rows b)
         = (WarehouseAgent.outbox b ++ sent)%list
      /\ none_ordered (fold_left f rows a)
      /\ none_ordered (fold_left f rows b)
      /\ WarehouseAgent.warehouse_id (fold_left f rows a) = WarehouseAgent.warehouse_id a.
Proof.
  intros rows a b Hdb Hid Ha Hb f. revert a b Hdb Hid Ha Hb.
  induction rows as [|r rows IH]; intros a b Hdb Hid Ha Hb; cbn [fold_left].
  - exists []. rewrite !app_nil_r. repeat split; assumption.
  - assert (Hstep :
              (f a r = a /\ f b r = b)
              \/ (exists pid q,
                     f a r = WarehouseAgent._request_from_supplier pid q None a
                     /\ f b r = WarehouseAgent._request_from_supplier pid q None b)).
    { unfold f. rewrite <- Hdb.
      destruct (query_product _ _) as [product|]; [|now left].
      destruct (_ <? _); [|now left].
      rewrite (already_ordered_none _ a Ha), (already_ordered_none _ b Hb).
      cbn [negb andb]. destruct (0 <? _); [|now left].
      right. eexists. eexists. split; reflexivity. }
    destruct Hstep as [[-> ->]|(pid & q & -> & ->)].
    + now apply IH.
    + destruct (IH (WarehouseAgent._request_from_supplier pid q None a)
                  (WarehouseAgent._request_from_supplier pid q None b))
        as (sent & Hsa & Hsb & Hna & Hnb & Hwid);
        try (now apply request_from_supplier_none_ordered); try assumption.
      assert (Hout : forall x,
                 WarehouseAgent.outbox
                   (WarehouseAgent._request_from_supplier pid q None x)
                 = (WarehouseAgent.outbox x
                    ++ [supply_request (WarehouseAgent.warehouse_id x) pid q None])%list)
        by reflexivity.
      exists (supply_request (WarehouseAgent.warehouse_id a) pid q None :: sent).
      rewrite Hsa, Hsb, !Hout, <- Hid, <- !app_assoc.
      split; [reflexivity|]. split; [reflexivity|].
      split; [exact Hna|]. split; [exact Hnb|]. exact Hwid.
Qed.

(** X12. The stock check does not remember its own requests.  As long as no
    tracked supply order is PENDING, CONFIRMED or SHIPPED (the orders the
    check itself records are REQUESTED), a second check right after the first
    sends the very same SUPPLY_REQUESTs again. *)
Theorem stock_check_repeats_requests :
  forall w : WarehouseAgent.Warehouse,
    none_ordered w ->
    exists sent,
      WarehouseAgent.outbox (WarehouseAgent._check_stock_levels w)
      = (WarehouseAgent.outbox w ++ sent)%list
      /\ WarehouseAgent.outbox
           (WarehouseAgent._check_stock_levels (WarehouseAgent._check_stock_levels w))
         = (WarehouseAgent.outbox w ++ sent ++ sent)%list.
Proof.
  intros w Hw.
  set (w1 := WarehouseAgent._check_stock_levels w).
  set (rows := filter (fun r => String.eqb (inv_location_id r)
                                           (WarehouseAgent.warehouse_id w))
                      (t_inventory (working (WarehouseAgent.db w)))).
  destruct (stock_scan_in_step rows w w eq_refl eq_refl Hw Hw)
    as (sent0 & _ & _ & Hn0 & _ & Hid0).
  change (none_ordered w1) in Hn0.
  change (WarehouseAgent.warehouse_id w1 = WarehouseAgent.warehouse_id w) in Hid0.
  assert (Hdb : WarehouseAgent.db w1 = WarehouseAgent.db w)
    by apply check_stock_levels_db.
  destruct (stock_scan_in_step rows w w1 (eq_sym Hdb) (eq_sym Hid0) Hw Hn0)
    as (sent & Hsa & Hsb & _).
  change (WarehouseAgent.outbox w1 = (WarehouseAgent.outbox w ++ sent)%list) in Hsa.
  exists sent. split; [exact Hsa|].
  assert (Hrows : filter (fun r => String.eqb (inv_location_id r)
                                              (WarehouseAgent.warehouse_id w1))
                         (t_inventory (working (WarehouseAgent.db w1)))
                  = rows) by (now rewrite Hdb, Hid0).
  match type of Hsb with
  | WarehouseAgent.outbox (fold_left ?F _ _) = _ =>
      change (WarehouseAgent._check_stock_levels w1)
        with (fold_left F
                (filter (fun r => String.eqb (inv_location_id r)
                                             (WarehouseAgent.warehouse_id w1))
                        (t_inventory (working (WarehouseAgent.db w1)))) w1)
  end.
  rewrite Hrows, Hsb, Hsa, <- app_assoc. reflexivity.
Qed.

Lemma stock_check_repeats_requests_witness :
  none_ordered MoreExamples.warehouse_low
  /\ exists sent,
       sent <> []
       /\ WarehouseAgent.outbox
            (WarehouseAgent._check_stock_levels MoreExamples.warehouse_low)
          = sent
       /\ WarehouseAgent.outbox
            (WarehouseAgent._check_stock_levels
               (WarehouseAgent._check_stock_levels MoreExamples.warehouse_low))
          = (sent ++ sent)%list.
Proof.
  assert (H : none_ordered MoreExamples.warehouse_low) by constructor.
  split; [exact H|].
  destruct (stock_check_repeats_requests MoreExamples.warehouse_low H)
    as (sent & H1 & H2).
  exists sent. cbn [MoreExamples.warehouse_low WarehouseAgent.outbox app] in H1, H2.
  split; [|split; [exact H1|exact H2]].
  intros ->. vm_compute in H1. discriminate H1.
Defined.

(** ** The optimizer: order quantity and safety stock *)

Section OptimizerFacts.
Local Open Scope R_scope.

Lemma ceil_spec : forall x, IZR (ceil x) - 1 < x <= IZR (ceil x).
Proof.
  intros x. unfold ceil. rewrite minus_IZR.
  destruct (archimed (- x)) as [H1 H2]. lra.
Qed.

Lemma ceil_unique :
  forall x (n : Z), IZR n - 1 < x <= IZR n -> ceil x = n.
Proof.
  intros x n [H1 H2]. destruct (ceil_spec x) as [H3 H4].
  assert (Hlt1 : IZR (ceil x) < IZR (n + 1)) by (rewrite plus_IZR; lra).
  assert (Hlt2 : IZR n < IZR (ceil x + 1)) by (rewrite plus_IZR; lra).
  apply lt_IZR in Hlt1, Hlt2. lia.
Qed.

(** The figures of the default optimizer: 3650 units a year at a unit cost
    of 10 give an order quantity of 242. *)
Example eoq_of_3650_at_10 : calculate_eoq default_optimizer 3650 10 = Ok 242%Z.
Proof.
  unfold calculate_eoq. rewrite !Rleb_false by lra. cbn [orb].
  cbn [default_optimizer holding_cost_pct ordering_cost].
  rewrite py_div_ok by lra. cbn [bind].
  replace (2 * 3650 * 20 / (10 * (25 / 100))) with 58400 by field.
  rewrite py_sqrt_ok by lra. cbn [bind]. f_equal.
  apply ceil_unique. split.
  - replace (IZR 242 - 1) with (sqrt (241 * 241)) by (rewrite sqrt_square; lra).
    apply sqrt_lt_1; lra.
  - replace (IZR 242) with (sqrt (242 * 242)) by (rewrite sqrt_square; lra).
    apply sqrt_le_1; lra.
Qed.

Lemma z_score_monotone :
  forall sl1 sl2 : R, sl1 <= sl2 ->
    0 < (if Rleb (99 / 100) sl1 then 2326 / 1000
         else if Rleb (95 / 100) sl1 then 1645 / 1000 else 1282 / 1000)
      <= (if Rleb (99 / 100) sl2 then 2326 / 1000
          else if Rleb (95 / 100) sl2 then 1645 / 1000 else 1282 / 1000).
Proof.
  intros sl1 sl2 H. unfold Rleb.
  destruct (Rle_dec (99 / 100) sl1), (Rle_dec (99 / 100) sl2),
    (Rle_dec (95 / 100) sl1), (Rle_dec (95 / 100) sl2); lra.
Qed.

(** X14. For a positive demand and lead time and a non-negative deviation
    the safety stock is computed without error, is never negative, and a
    higher service level never lowers it. *)
Theorem safety_stock_grows_with_service_level :
  forall (self : Optimizer) (avg_daily_demand lead_time_days sl1 sl2 sd : R),
    0 < avg_daily_demand -> 0 < lead_time_days -> 0 <= sd -> sl1 <= sl2 ->
    exists s1 s2 : R,
      calculate_safety_stock self avg_daily_demand lead_time_days sl1 (Some sd)
        = Ok s1
      /\ calculate_safety_stock self avg_daily_demand lead_time_days sl2 (Some sd)
         = Ok s2
      /\ 0 <= s1 <= s2.
Proof.
  intros self avg L sl1 sl2 sd Havg HL Hsd Hsl.
  unfold calculate_safety_stock.
  rewrite !Rleb_false by assumption. cbn [orb].
  rewrite py_sqrt_ok by lra. cbn [bind].
  eexists. eexists. split; [reflexivity|]. split; [reflexivity|].
  pose proof (z_score_monotone sl1 sl2 Hsl) as [Hz1 Hz2].
  pose proof (sqrt_pos L) as Hr.
  set (z1 := if Rleb (99 / 100) sl1 then _ else _) in *.
  set (z2 := if Rleb (99 / 100) sl2 then _ else _) in *.
  assert (Hm : 0 <= sd * sqrt L) by now apply Rmult_le_pos.
  rewrite !Rmult_assoc. split.
  - apply Rmult_le_pos; lra.
  - apply Rmult_le_compat_r; lra.
Qed.

Lemma safety_stock_grows_with_service_level_witness :
  exists s1 s2 : R,
    calculate_safety_stock default_optimizer 10 4 (90 / 100) (Some 3) = Ok s1
    /\ calculate_safety_stock default_optimizer 10 4 (99 / 100) (Some 3) = Ok s2
    /\ 0 <= s1 <= s2.
Proof.
  apply (safety_stock_grows_with_service_level default_optimizer 10 4
           (90 / 100) (99 / 100) 3); lra.
Defined.

End OptimizerFacts.

(** ** The supplier agent: dictionaries with distinct keys *)

Lemma dict_get_not_key :
  forall (V : Type) (d : dict V) k, ~ In k (dict_keys d) -> dict_get k d = None.
Proof.
  intros V d k. induction d as [|[k0 v0] d IH]; cbn; [reflexivity|].
  intros H. destruct (String.eqb k k0) eqn:Hk.
  - apply String.eqb_eq in Hk. subst. exfalso. apply H. now left.
  - apply IH. intros Hin. apply H. now right.
Qed.

Lemma dict_get_of_entry :
  forall (V : Type) (d : dict V) k v,
    NoDup (dict_keys d) -> In (k, v) d -> dict_get k d = Some v.
Proof.
  intros V d k v. induction d as [|[k0 v0] d IH]; cbn; [contradiction|].
  intros Hnd [Heq|Hin].
  - injection Heq as -> ->. now rewrite String.eqb_refl.
  - inversion Hnd as [|? ? Hnot Hnd']; subst.
    destruct (String.eqb k k0) eqn:Hk.
    + apply String.eqb_eq in Hk. subst. exfalso. apply Hnot.
      change (In (fst (k0, v)) (map fst d)). now apply in_map.
    + now apply IH.
Qed.

Lemma dict_get_entry :
  forall (V : Type) (d : dict V) k v, dict_get k d = Some v -> In (k, v) d.
Proof.
  intros V d k v. induction d as [|[k0 v0] d IH]; cbn; [discriminate|].
  destruct (String.eqb k k0) eqn:Hk.
  - apply String.eqb_eq in Hk. subst. intros [= ->]. now left.
  - intros H. right. now apply IH.
Qed.

Lemma dict_get_del_other :
  forall (V : Type) (d : dict V) k k',
    String.eqb k k' = false -> dict_get k (dict_del k' d) = dict_get k d.
Proof.
  intros V d k k' Hne. induction d as [|[k0 v0] d IH]; cbn; [reflexivity|].
  destruct (String.eqb k' k0) eqn:Hk; cbn.
  - apply String.eqb_eq in Hk. subst k0. now rewrite Hne.
  - destruct (String.eqb k k0); [reflexivity|exact IH].
Qed.

Lemma dict_get_del_same :
  forall (V : Type) (d : dict V) k,
    NoDup (dict_keys d) -> dict_get k (dict_del k d) = None.
Proof.
  intros V d k. induction d as [|[k0 v0] d IH]; cbn; [reflexivity|].
  intros Hnd. inversion Hnd as [|? ? Hnot Hnd']; subst.
  destruct (String.eqb k k0) eqn:Hk; cbn.
  - apply String.eqb_eq in Hk. subst k0. now apply dict_get_not_key.
  - rewrite Hk. now apply IH.
Qed.

Lemma dict_keys_del_incl :
  forall (V : Type) (d : dict V) k x,
    In x (dict_keys (dict_del k d)) -> In x (dict_keys d).
Proof.
  intros V d k x. induction d as [|[k0 v0] d IH]; cbn; [tauto|].
  destruct (String.eqb k k0); cbn; [now right|]. intros [H|H]; [now left|].
  right. now apply IH.
Qed.

Lemma dict_del_keys_nodup :
  forall (V : Type) (d : dict V) k,
    NoDup (dict_keys d) -> NoDup (dict_keys (dict_del k d)).
Proof.
  intros V d k. induction d as [|[k0 v0] d IH]; cbn; [trivial|].
  intros Hnd. inversion Hnd as [|? ? Hnot Hnd']; subst.
  destruct (String.eqb k k0); cbn; [exact Hnd'|].
  constructor; [|now apply IH].
  intros Hin. apply Hnot. now apply (dict_keys_del_incl V d k).
Qed.

Lemma dict_keys_set_incl :
  forall (V : Type) (d : dict V) k v x,
    In x (dict_keys (dict_set k v d)) -> x = k \/ In x (dict_keys d).
Proof.
  intros V d k v x. induction d as [|[k0 v0] d IH]; cbn.
  - intros [H|[]]. now left.
  - destruct (String.eqb k k0) eqn:Hk; cbn.
    + intros [H|H]; right; [now left|now right].
    + intros [H|H]; [right; now left|].
      destruct (IH H) as [H1|H1]; [now left|right; now right].
Qed.

Lemma dict_set_keys_nodup :
  forall (V : Type) (d : dict V) k v,
    NoDup (dict_keys d) -> NoDup (dict_keys (dict_set k v d)).
Proof.
  intros V d k v. induction d as [|[k0 v0] d IH]; cbn.
  - intros _. constructor; [intros []|constructor].
  - intros Hnd. inversion Hnd as [|? ? Hnot Hnd']; subst.
    destruct (String.eqb k k0) eqn:Hk; cbn.
    + constructor; assumption.
    + constructor; [|now apply IH].
      intros Hin. destruct (dict_keys_set_incl V d k v k0 Hin) as [H|H].
      * subst. now rewrite String.eqb_refl in Hk.
      * now apply Hnot.
Qed.

Lemma dict_del_values_forall :
  forall (V : Type) (P : V -> Prop) (d : dict V) k,
    Forall P (dict_values d) -> Forall P (dict_values (dict_del k d)).
Proof.
  intros V P d k Hd. unfold dict_values in *.
  induction d as [|[k0 v0] d IH]; cbn; [constructor|].
  inversion Hd; subst. destruct (String.eqb k k0); cbn; [assumption|].
  constructor; auto.
Qed.

(** ** The supplier agent: one pass of the status loop *)

Import SupplierAgent.

Lemma send_message_pending_orders :
  forall m a, pending_orders (snd (send_message m a)) = pending_orders a.
Proof. intros m a. unfold send_message. destruct (forallb _ _); reflexivity. Qed.

Lemma update_order_outcome :
  forall dice now k o a,
    pass_outcome now k o a (snd (update_order dice now (k, o) a)).
Proof.
  intros dice now k o a. unfold update_order.
  destruct (last_update (po_updates o)) as [last|]; [|now apply pass_kept].
  destruct (in_list (po_status o) _).
  { cbn [snd]. destruct (days 30 <? now - up_timestamp last).
    - now apply pass_forgot.
    - now apply pass_kept. }
  unfold new_status, randint.
  destruct (String.eqb (po_status o) "PLACED") eqn:H1.
  { apply String.eqb_eq in H1.
    destruct (hours _ <? _).
    - rewrite H1. cbn. apply pass_advanced with (o' := log "CONFIRMED" now
        "Order status updated to CONFIRMED" o).
      + split; [now rewrite H1|reflexivity].
      + apply dict_get_set_same.
    - rewrite String.eqb_refl. now apply pass_kept. }
  destruct (String.eqb (po_status o) "CONFIRMED") eqn:H2.
  { apply String.eqb_eq in H2.
    destruct (hours _ <? _).
    - rewrite H2. cbn. apply pass_advanced with (o' := log "PROCESSING" now
        "Order status updated to PROCESSING" o).
      + split; [now rewrite H2|reflexivity].
      + apply dict_get_set_same.
    - rewrite String.eqb_refl. now apply pass_kept. }
  destruct (String.eqb (po_status o) "PROCESSING") eqn:H3.
  { apply String.eqb_eq in H3.
    destruct (days _ <? _).
    - rewrite H3. cbn.
      match goal with
      | |- context [dict_set k ?v (dict_set k _ _)] =>
          apply pass_advanced with (o' := v)
      end.
      + split; [now rewrite H3|reflexivity].
      + apply dict_get_set_same.
    - rewrite String.eqb_refl. now apply pass_kept. }
  destruct (String.eqb (po_status o) "SHIPPED") eqn:H4.
  { apply String.eqb_eq in H4.
    destruct (po_expected_delivery o <=? now).
    - rewrite H4. cbn. apply pass_advanced with (o' := log "DELIVERED" now
        "Order status updated to DELIVERED" o).
      + split; [now rewrite H4|reflexivity].
      + apply dict_get_set_same.
    - rewrite String.eqb_refl. now apply pass_kept. }
  rewrite String.eqb_refl. now apply pass_kept.
Qed.

Lemma update_order_other :
  forall dice now k o a k',
    String.eqb k' k = false ->
    dict_get k' (pending_orders (snd (update_order dice now (k, o) a)))
    = dict_get k' (pending_orders a).
Proof.
  intros dice now k o a k' Hne. unfold update_order.
  destruct (last_update (po_updates o)) as [last|]; [|reflexivity].
  destruct (in_list (po_status o) _).
  { cbn [snd]. destruct (days 30 <? now - up_timestamp last); [|reflexivity].
    now apply dict_get_del_other. }
  unfold new_status, randint.
  repeat match goal with
         | |- context [if ?c then _ else _] => destruct c; cbn
         end;
    rewrite ?dict_get_set_other by exact Hne; reflexivity.
Qed.

Lemma update_order_keys_nodup :
  forall dice now k o a,
    NoDup (dict_keys (pending_orders a)) ->
    NoDup (dict_keys (pending_orders (snd (update_order dice now (k, o) a)))).
Proof.
  intros dice now k o a Hnd. unfold update_order.
  destruct (last_update (po_updates o)) as [last|]; [|exact Hnd].
  destruct (in_list (po_status o) _).
  { cbn [snd]. destruct (days 30 <? now - up_timestamp last); [|exact Hnd].
    now apply dict_del_keys_nodup. }
  unfold new_status, randint.
  repeat match goal with
         | |- context [if ?c then _ else _] => destruct c; cbn
         end;
    repeat apply dict_set_keys_nodup; exact Hnd.
Qed.

(** ** The supplier agent: the status loop *)

Lemma update_loop_other :
  forall dice now snapshot a k,
    ~ In k (map fst snapshot) ->
    dict_get k (pending_orders (snd (for_each (update_order dice now) snapshot a)))
    = dict_get k (pending_orders a).
Proof.
  intros dice now snapshot. induction snapshot as [|[k1 o1] rest IH];
    intros a k Hnot; [reflexivity|].
  cbn [for_each].
  assert (Hne : String.eqb k k1 = false).
  { apply String.eqb_neq. intros ->. apply Hnot. now left. }
  pose proof (update_order_other dice now k1 o1 a k Hne) as Hstep.
  destruct (update_order dice now (k1, o1) a) as [[e|] a1]; cbn [snd] in *.
  - exact Hstep.
  - rewrite IH; [exact Hstep|]. intros Hin. apply Hnot. now right.
Qed.

Lemma update_loop_keys_nodup :
  forall dice now snapshot a,
    NoDup (dict_keys (pending_orders a)) ->
    NoDup (dict_keys
             (pending_orders (snd (for_each (update_order dice now) snapshot a)))).
Proof.
  intros dice now snapshot. induction snapshot as [|[k1 o1] rest IH];
    intros a Hnd; [exact Hnd|].
  cbn [for_each].
  pose proof (update_order_keys_nodup dice now k1 o1 a Hnd) as Hstep.
  destruct (update_order dice now (k1, o1) a) as [[e|] a1]; cbn [snd] in *.
  - exact Hstep.
  - now apply IH.
Qed.

(** An order of the snapshot is either not reached, because the loop raised
    before, or the loop leaves it as its own pass left it. *)
Lemma update_loop_at :
  forall dice now snapshot a k o,
    NoDup (map fst snapshot) ->
    NoDup (dict_keys (pending_orders a)) ->
    In (k, o) snapshot ->
    let result := for_each (update_order dice now) snapshot a in
    (fst result <> None
     /\ dict_get k (pending_orders (snd result)) = dict_get k (pending_orders a))
    \/ exists a0,
         NoDup (dict_keys (pending_orders a0))
         /\ dict_get k (pending_orders a0) = dict_get k (pending_orders a)
         /\ dict_get k (pending_orders (snd result))
            = dict_get k (pending_orders (snd (update_order dice now (k, o) a0))).
Proof.
  intros dice now snapshot. induction snapshot as [|[k1 o1] rest IH];
    intros a k o Hkeys Hnd Hin; [contradiction|].
  cbn zeta. cbn [for_each].
  inversion Hkeys as [|? ? Hfresh Hkeys']; subst.
  destruct Hin as [Heq|Hin].
  - injection Heq as -> ->. right. exists a. split; [exact Hnd|].
    split; [reflexivity|].
    destruct (update_order dice now (k, o) a) as [[e|] a1] eqn:Hstep;
      cbn [snd]; [reflexivity|].
    now apply update_loop_other.
  - assert (Hne : String.eqb k k1 = false).
    { apply String.eqb_neq. intros ->. apply Hfresh.
      change (In (fst (k1, o)) (map fst rest)). now apply in_map. }
    pose proof (update_order_other dice now k1 o1 a k Hne) as Hother.
    pose proof (update_order_keys_nodup dice now k1 o1 a Hnd) as Hnd1.
    destruct (update_order dice now (k1, o1) a) as [[e|] a1]; cbn [snd fst] in *.
    + left. split; [discriminate|exact Hother].
    + destruct (IH a1 k o Hkeys' Hnd1 Hin) as [[Hr Hk]|[a0 [Ha0 [Hk0 Hk]]]].
      * left. split; [exact Hr|]. now rewrite Hk.
      * right. exists a0. split; [exact Ha0|]. split; [|exact Hk].
        now rewrite Hk0.
Qed.

(** X18. One call of [_update_order_statuses] moves an order at most one
    status forward along PLACED, CONFIRMED, PROCESSING, SHIPPED, DELIVERED:
    every order tracked afterwards was tracked before, and is either
    untouched or one status later with one more log entry, stamped with the
    clock reading of the call. *)
Theorem status_moves_one_step_forward :
  forall (clock : nat -> Z) (dice : nat -> Z) (a : Agent) (k : string)
         (o' : PlacedOrder),
    NoDup (dict_keys (pending_orders a)) ->
    dict_get k (pending_orders (snd (_update_order_statuses clock dice a)))
    = Some o' ->
    exists o,
      dict_get k (pending_orders a) = Some o
      /\ (o' = o \/ advanced (clock (clock_reads a)) o o').
Proof.
  intros clock dice a k o' Hnd Hget.
  unfold _update_order_statuses, utcnow in Hget. cbn [pending_orders] in Hget.
  set (now := clock (clock_reads a)) in *.
  set (a1 := mkAgent _ _ _ _ _) in *.
  assert (Hp : pending_orders a1 = pending_orders a) by reflexivity.
  destruct (in_dec string_dec k (map fst (pending_orders a))) as [Hin|Hnot].
  - apply in_map_iff in Hin. destruct Hin as [[k0 o] [Hk Hin]].
    cbn in Hk. subst k0. exists o.
    pose proof (dict_get_of_entry _ _ _ _ Hnd Hin) as Ho.
    split; [exact Ho|].
    assert (Hnd1 : NoDup (dict_keys (pending_orders a1))) by exact Hnd.
    destruct (update_loop_at dice now (pending_orders a) a1 k o Hnd Hnd1 Hin)
      as [[_ Hk]|[a0 [Ha0 [Hk0 Hk]]]].
    + rewrite Hk, Hp, Ho in Hget. injection Hget as ->. now left.
    + rewrite Hk in Hget. rewrite Hp, Ho in Hk0.
      destruct (update_order_outcome dice now k o a0) as [Hsame|Hdel|o2 Hadv Ho2].
      * rewrite Hsame, Hk0 in Hget. injection Hget as ->. now left.
      * rewrite Hdel, dict_get_del_same in Hget by exact Ha0. discriminate.
      * rewrite Ho2 in Hget. injection Hget as ->. now right.
  - rewrite update_loop_other in Hget by exact Hnot.
    rewrite Hp, dict_get_not_key in Hget by exact Hnot. discriminate.
Qed.

Lemma status_moves_one_step_forward_witness :
  NoDup (dict_keys (pending_orders MoreExamples.supplier))
  /\ exists o' o,
       dict_get "PO1"
         (pending_orders
            (snd (_update_order_statuses MoreExamples.clock_at_five_hours
                    MoreExamples.no_dice MoreExamples.supplier))) = Some o'
       /\ dict_get "PO1" (pending_orders MoreExamples.supplier) = Some o
       /\ (o' = o \/ advanced (hours 5) o o').
Proof.
  assert (Hnd : NoDup (dict_keys (pending_orders MoreExamples.supplier))).
  { cbn. repeat (constructor; [cbn; intuition congruence|]). constructor. }
  split; [exact Hnd|].
  assert (Hget :
    dict_get "PO1"
      (pending_orders
         (snd (_update_order_statuses MoreExamples.clock_at_five_hours
                 MoreExamples.no_dice MoreExamples.supplier)))
    = Some (log "CONFIRMED" (hours 5) "Order status updated to CONFIRMED"
              (MoreExamples.supplier_order "PO1" "PLACED" 0)))
    by reflexivity.
  destruct (status_moves_one_step_forward MoreExamples.clock_at_five_hours
              MoreExamples.no_dice MoreExamples.supplier "PO1" _ Hnd Hget)
    as [o [Ho Hstep]].
  eexists. exists o. split; [exact Hget|]. split; [exact Ho|exact Hstep].
Defined.

(** ** The supplier agent: the log and the status *)

Lemma last_update_snoc :
  forall us u, last_update (us ++ [u]) = Some u.
Proof.
  induction us as [|u0 us IH]; intros u; [reflexivity|].
  cbn. destruct (us ++ [u])%list eqn:Happ.
  - destruct us; discriminate.
  - rewrite <- Happ. apply IH.
Qed.

Lemma log_logged :
  forall status t message o, logged (log status t message o) = true.
Proof.
  intros status t message o. unfold logged, log. cbn.
  rewrite last_update_snoc. cbn. apply String.eqb_refl.
Qed.

Lemma update_order_logged :
  forall dice now k o a,
    logged o = true ->
    all_logged a ->
    fst (update_order dice now (k, o) a) = None
    /\ all_logged (snd (update_order dice now (k, o) a)).
Proof.
  intros dice now k o a Ho Ha. unfold update_order.
  unfold logged in Ho.
  destruct (last_update (po_updates o)) as [last|] eqn:Hlast; [|discriminate].
  destruct (in_list (po_status o) _).
  { cbn [fst snd]. split; [reflexivity|].
    destruct (days 30 <? now - up_timestamp last); [|exact Ha].
    now apply dict_del_values_forall. }
  assert (Hshift : forall t, logged (with_expected_delivery t o) = true).
  { intros t. unfold logged. cbn. now rewrite Hlast. }
  unfold new_status, randint, all_logged.
  repeat match goal with
         | |- context [if ?c then _ else _] => destruct c; cbn
         end;
    (split; [reflexivity|]);
    repeat (apply dict_set_values_forall;
            [|first [apply log_logged | apply Hshift]]);
    exact Ha.
Qed.

Lemma update_loop_logged :
  forall dice now snapshot a,
    Forall (fun o => logged o = true) (dict_values snapshot) ->
    all_logged a ->
    fst (for_each (update_order dice now) snapshot a) = None
    /\ all_logged (snd (for_each (update_order dice now) snapshot a)).
Proof.
  intros dice now snapshot. induction snapshot as [|[k1 o1] rest IH];
    intros a Hsnap Ha; [now split|].
  cbn [for_each]. unfold dict_values in Hsnap. cbn in Hsnap.
  inversion Hsnap as [|? ? Ho Hrest]; subst.
  destruct (update_order_logged dice now k1 o1 a Ho Ha) as [Hr Ha1].
  destruct (update_order dice now (k1, o1) a) as [[e|] a1]; cbn [fst snd] in *;
    [discriminate|].
  now apply IH.
Qed.

Lemma update_order_statuses_logged :
  forall clock dice a,
    all_logged a ->
    fst (_update_order_statuses clock dice a) = None
    /\ all_logged (snd (_update_order_statuses clock dice a)).
Proof.
  intros clock dice a Ha. unfold _update_order_statuses, utcnow.
  cbn [pending_orders]. now apply update_loop_logged.
Qed.

Lemma deliver_order_logged :
  forall clock k o a,
    logged o = true ->
    fst (deliver_order clock (k, o) a) = None
    /\ pending_orders (snd (deliver_order clock (k, o) a)) = pending_orders a.
Proof.
  intros clock k o a Ho. unfold deliver_order, logged in *.
  destruct (last_update (po_updates o)) as [last|]; [|discriminate].
  unfold utcnow.
  repeat match goal with
         | |- context [if ?c then _ else _] => destruct c; cbn
         end; now split.
Qed.

Lemma deliver_loop_logged :
  forall clock snapshot a,
    Forall (fun o => logged o = true) (dict_values snapshot) ->
    fst (for_each (deliver_order clock) snapshot a) = None
    /\ pending_orders (snd (for_each (deliver_order clock) snapshot a))
       = pending_orders a.
Proof.
  intros clock snapshot. induction snapshot as [|[k1 o1] rest IH];
    intros a Hsnap; [now split|].
  cbn [for_each]. unfold dict_values in Hsnap. cbn in Hsnap.
  inversion Hsnap as [|? ? Ho Hrest]; subst.
  destruct (deliver_order_logged clock k1 o1 a Ho) as [Hr Hp].
  destruct (deliver_order clock (k1, o1) a) as [[e|] a1]; cbn [fst snd] in *;
    [discriminate|].
  destruct (IH a1 Hrest) as [Hr2 Hp2]. split; [exact Hr2|]. now rewrite Hp2.
Qed.

(** X19. That the last entry of every order's log carries the order's
    status is an invariant of the supplier: a cancellation keeps it and a
    cycle keeps it.  Under it a cycle raises nothing. *)
Theorem log_carries_the_status :
  forall (clock : nat -> Z) (dice : nat -> Z) (m : Message) (a : Agent),
    all_logged a ->
    all_logged (snd (_handle_order_cancellation clock m a))
    /\ fst (run_cycle clock dice a) = None
    /\ all_logged (snd (run_cycle clock dice a)).
Proof.
  intros clock dice m a Ha. split.
  - unfold _handle_order_cancellation.
    destruct (negb (truthy _)); [exact Ha|].
    destruct (dict_get _ _) as [order|]; [|exact Ha].
    destruct (in_list _ _); [exact Ha|].
    unfold utcnow. cbn. unfold all_logged. cbn.
    apply dict_set_values_forall; [exact Ha|apply log_logged].
  - unfold run_cycle.
    destruct (update_order_statuses_logged clock dice a Ha) as [Hr Ha1].
    destruct (_update_order_statuses clock dice a) as [[e|] a1];
      cbn [fst snd] in *; [discriminate|].
    unfold _process_deliveries.
    destruct (deliver_loop_logged clock (pending_orders a1) a1 Ha1) as [Hr2 Hp].
    split; [exact Hr2|]. unfold all_logged. now rewrite Hp.
Qed.

Lemma log_carries_the_status_witness :
  all_logged MoreExamples.supplier
  /\ all_logged
       (snd (_handle_order_cancellation MoreExamples.clock_at_five_hours
               (MoreExamples.cancellation "PO1") MoreExamples.supplier))
  /\ fst (run_cycle MoreExamples.clock_at_five_hours MoreExamples.no_dice
            MoreExamples.supplier) = None
  /\ all_logged
       (snd (run_cycle MoreExamples.clock_at_five_hours MoreExamples.no_dice
               MoreExamples.supplier)).
Proof.
  assert (Ha : all_logged MoreExamples.supplier).
  { unfold all_logged. cbn. repeat constructor. }
  split; [exact Ha|].
  exact (log_carries_the_status MoreExamples.clock_at_five_hours
           MoreExamples.no_dice (MoreExamples.cancellation "PO1")
           MoreExamples.supplier Ha).
Defined.

(** ** The supplier agent: how long a status lasts *)

Lemma randint_between :
  forall dice lo hi a, lo <= hi -> lo <= fst (randint dice lo hi a) <= hi.
Proof.
  intros dice lo hi a H. unfold randint. cbn [fst].
  pose proof (Z.mod_pos_bound (dice (dice_rolls a)) (hi - lo + 1)). lia.
Qed.

Lemma randint_pending_orders :
  forall dice lo hi a,
    pending_orders (snd (randint dice lo hi a)) = pending_orders a.
Proof. reflexivity. Qed.

Lemma update_order_overdue :
  forall dice now k o a last w,
    last_update (po_updates o) = Some last ->
    longest_wait (po_status o) = Some w ->
    w < now - up_timestamp last ->
    exists o',
      dict_get k (pending_orders (snd (update_order dice now (k, o) a))) = Some o'
      /\ advanced now o o'.
Proof.
  intros dice now k o a last w Hlast Hw Hlate.
  unfold update_order. rewrite Hlast.
  unfold longest_wait in Hw. unfold new_status.
  destruct (String.eqb (po_status o) "PLACED") eqn:H1.
  { apply String.eqb_eq in H1. injection Hw as <-.
    pose proof (randint_between dice 1 4 a) as Hb.
    destruct (randint dice 1 4 a) as [h a1]. cbn [fst] in Hb.
    assert (Hlt : (hours h <? now - up_timestamp last) = true)
      by (apply Z.ltb_lt; unfold hours in *; lia).
    rewrite H1. cbv beta iota zeta. rewrite Hlt. cbn.
    eexists. split; [apply dict_get_set_same|].
    split; [now rewrite H1|reflexivity]. }
  destruct (String.eqb (po_status o) "CONFIRMED") eqn:H2.
  { apply String.eqb_eq in H2. injection Hw as <-.
    pose proof (randint_between dice 6 24 a) as Hb.
    destruct (randint dice 6 24 a) as [h a1]. cbn [fst] in Hb.
    assert (Hlt : (hours h <? now - up_timestamp last) = true)
      by (apply Z.ltb_lt; unfold hours in *; lia).
    rewrite H2. cbv beta iota zeta. rewrite Hlt. cbn.
    eexists. split; [apply dict_get_set_same|].
    split; [now rewrite H2|reflexivity]. }
  destruct (String.eqb (po_status o) "PROCESSING") eqn:H3; [|discriminate].
  apply String.eqb_eq in H3. injection Hw as <-.
  pose proof (randint_between dice 1 3 a) as Hb.
  destruct (randint dice 1 3 a) as [d a1]. cbn [fst] in Hb.
  assert (Hlt : (days d <? now - up_timestamp last) = true)
    by (apply Z.ltb_lt; unfold days in *; lia).
  rewrite H3. cbv beta iota zeta. rewrite Hlt.
  destruct (randint dice 1 3 a1) as [d' a2]. cbn.
  eexists. split; [apply dict_get_set_same|].
  split; [now rewrite H3|reflexivity].
Qed.

Lemma update_order_young :
  forall dice now k o a last w,
    last_update (po_updates o) = Some last ->
    shortest_wait (po_status o) = Some w ->
    now - up_timestamp last <= w ->
    pending_orders (snd (update_order dice now (k, o) a)) = pending_orders a.
Proof.
  intros dice now k o a last w Hlast Hw Hearly.
  unfold update_order. rewrite Hlast.
  unfold shortest_wait in Hw. unfold new_status.
  destruct (String.eqb (po_status o) "PLACED") eqn:H1.
  { apply String.eqb_eq in H1. injection Hw as <-.
    pose proof (randint_between dice 1 4 a) as Hb.
    pose proof (randint_pending_orders dice 1 4 a) as Hp.
    destruct (randint dice 1 4 a) as [h a1]. cbn [fst snd] in Hb, Hp.
    assert (Hlt : (hours h <? now - up_timestamp last) = false)
      by (apply Z.ltb_ge; unfold hours in *; lia).
    rewrite H1. cbv beta iota zeta. rewrite Hlt. cbn. exact Hp. }
  destruct (String.eqb (po_status o) "CONFIRMED") eqn:H2.
  { apply String.eqb_eq in H2. injection Hw as <-.
    pose proof (randint_between dice 6 24 a) as Hb.
    pose proof (randint_pending_orders dice 6 24 a) as Hp.
    destruct (randint dice 6 24 a) as [h a1]. cbn [fst snd] in Hb, Hp.
    assert (Hlt : (hours h <? now - up_timestamp last) = false)
      by (apply Z.ltb_ge; unfold hours in *; lia).
    rewrite H2. cbv beta iota zeta. rewrite Hlt. cbn. exact Hp. }
  destruct (String.eqb (po_status o) "PROCESSING") eqn:H3; [|discriminate].
  apply String.eqb_eq in H3. injection Hw as <-.
  pose proof (randint_between dice 1 3 a) as Hb.
  pose proof (randint_pending_orders dice 1 3 a) as Hp.
  destruct (randint dice 1 3 a) as [d a1]. cbn [fst snd] in Hb, Hp.
  assert (Hlt : (days d <? now - up_timestamp last) = false)
    by (apply Z.ltb_ge; unfold days in *; lia).
  rewrite H3. cbv beta iota zeta. rewrite Hlt. cbn. exact Hp.
Qed.

(** X20. Whatever the random draws, an order that has been PLACED for more
    than 4 hours, CONFIRMED for more than 24 hours or PROCESSING for more
    than 3 days is moved to the next status by the next call of
    [_update_order_statuses]. *)
Theorem overdue_order_moves_on :
  forall (clock : nat -> Z) (dice : nat -> Z) (a : Agent) (k : string)
         (o : PlacedOrder) (t w : Z),
    NoDup (dict_keys (pending_orders a)) ->
    all_logged a ->
    dict_get k (pending_orders a) = Some o ->
    last_logged o = Some t ->
    longest_wait (po_status o) = Some w ->
    w < clock (clock_reads a) - t ->
    exists o',
      dict_get k (pending_orders (snd (_update_order_statuses clock dice a)))
      = Some o'
      /\ advanced (clock (clock_reads a)) o o'.
Proof.
  intros clock dice a k o t w Hnd Ha Ho Ht Hw Hlate.
  unfold last_logged in Ht.
  destruct (last_update (po_updates o)) as [last|] eqn:Hlast; [|discriminate].
  injection Ht as <-.
  unfold _update_order_statuses, utcnow. cbn [pending_orders].
  set (now := clock (clock_reads a)) in *.
  set (a1 := mkAgent _ _ _ _ _).
  assert (Hnd1 : NoDup (dict_keys (pending_orders a1))) by exact Hnd.
  assert (Ha1 : all_logged a1) by exact Ha.
  pose proof (dict_get_entry _ _ _ _ Ho) as Hin.
  destruct (update_loop_logged dice now (pending_orders a) a1 Ha Ha1) as [Hr _].
  destruct (update_loop_at dice now (pending_orders a) a1 k o Hnd Hnd1 Hin)
    as [[Hraised _]|[a0 [_ [_ Hk]]]]; [contradiction|].
  rewrite Hk. now apply (update_order_overdue dice now k o a0 last w).
Qed.

Lemma overdue_order_moves_on_witness :
  exists o',
    dict_get "PO1"
      (pending_orders
         (snd (_update_order_statuses MoreExamples.clock_at_five_hours
                 MoreExamples.no_dice MoreExamples.supplier))) = Some o'
    /\ advanced (hours 5) (MoreExamples.supplier_order "PO1" "PLACED" 0) o'.
Proof.
  apply (overdue_order_moves_on MoreExamples.clock_at_five_hours
           MoreExamples.no_dice MoreExamples.supplier "PO1"
           (MoreExamples.supplier_order "PO1" "PLACED" 0) 0 (hours 4)).
  - cbn. repeat (constructor; [cbn; intuition congruence|]). constructor.
  - unfold all_logged. cbn. repeat constructor.
  - reflexivity.
  - reflexivity.
  - reflexivity.
  - vm_compute. reflexivity.
Defined.

(** X21. Whatever the random draws, an order that has been PLACED for at
    most 1 hour, CONFIRMED for at most 6 hours or PROCESSING for at most
    1 day is left as it is by a call of [_update_order_statuses]. *)
Theorem young_order_stays :
  forall (clock : nat -> Z) (dice : nat -> Z) (a : Agent) (k : string)
         (o : PlacedOrder) (t w : Z),
    NoDup (dict_keys (pending_orders a)) ->
    dict_get k (pending_orders a) = Some o ->
    last_logged o = Some t ->
    shortest_wait (po_status o) = Some w ->
    clock (clock_reads a) - t <= w ->
    dict_get k (pending_orders (snd (_update_order_statuses clock dice a)))
    = Some o.
Proof.
  intros clock dice a k o t w Hnd Ho Ht Hw Hearly.
  unfold last_logged in Ht.
  destruct (last_update (po_updates o)) as [last|] eqn:Hlast; [|discriminate].
  injection Ht as <-.
  unfold _update_order_statuses, utcnow. cbn [pending_orders].
  set (now := clock (clock_reads a)) in *.
  set (a1 := mkAgent _ _ _ _ _).
  assert (Hnd1 : NoDup (dict_keys (pending_orders a1))) by exact Hnd.
  assert (Ho1 : dict_get k (pending_orders a1) = Some o) by exact Ho.
  pose proof (dict_get_entry _ _ _ _ Ho) as Hin.
  destruct (update_loop_at dice now (pending_orders a) a1 k o Hnd Hnd1 Hin)
    as [[_ Hk]|[a0 [_ [Hk0 Hk]]]].
  - now rewrite Hk.
  - rewrite Hk, (update_order_young dice now k o a0 last w Hlast Hw Hearly), Hk0.
    exact Ho1.
Qed.

Lemma young_order_stays_witness :
  dict_get "PO1"
    (pending_orders
       (snd (_update_order_statuses (fun _ => minutes 30) MoreExamples.no_dice
               MoreExamples.supplier)))
  = Some (MoreExamples.supplier_order "PO1" "PLACED" 0).
Proof.
  apply (young_order_stays (fun _ => minutes 30) MoreExamples.no_dice
           MoreExamples.supplier "PO1"
           (MoreExamples.supplier_order "PO1" "PLACED" 0) 0 (hours 1)).
  - cbn. repeat (constructor; [cbn; intuition congruence|]). constructor.
  - reflexivity.
  - reflexivity.
  - reflexivity.
  - vm_compute. discriminate.
Defined.

(** ** The supplier agent: cancellations and follow-ups *)

Lemma update_order_closed_recent :
  forall dice now k o a last,
    last_update (po_updates o) = Some last ->
    in_list (po_status o) ["DELIVERED"; "CANCELLED"; "REJECTED"] = true ->
    now - up_timestamp last <= days 30 ->
    snd (update_order dice now (k, o) a) = a.
Proof.
  intros dice now k o a last Hlast Hclosed Hrecent.
  unfold update_order. rewrite Hlast, Hclosed.
  assert (Hlt : (days 30 <? now - up_timestamp last) = false)
    by (apply Z.ltb_ge; lia).
  now rewrite Hlt.
Qed.

Lemma cancellation_runs :
  forall clock m a order,
    truthy (c_order_id (content m)) = true ->
    dict_get (c_order_id (content m)) (pending_orders a) = Some order ->
    in_list (po_status order) ["SHIPPED"; "DELIVERED"] = false ->
    exists sent,
      _handle_order_cancellation clock m a
      = (Ok (mkReply "success"
               ("Order " ++ c_order_id (content m) ++ " cancelled successfully")),
         mkAgent (agent_id a)
           (dict_set (c_order_id (content m))
              (cancelled (clock (clock_reads a)) (c_reason (content m)) order)
              (pending_orders a))
           (outbox a ++ [sent])%list (S (clock_reads a)) (dice_rolls a)).
Proof.
  intros clock m a order Hid Hget Hopen.
  unfold _handle_order_cancellation. rewrite Hid, Hget, Hopen.
  eexists. reflexivity.
Qed.

(** X22. A cancellation of a tracked order that is neither SHIPPED nor
    DELIVERED succeeds, whatever the status is otherwise, and sets the status
    CANCELLED with one more log entry.  A status update that follows within
    30 days leaves the cancelled order exactly as it is. *)
Theorem cancelled_order_stays_cancelled :
  forall (clock : nat -> Z) (dice : nat -> Z) (m : Message) (a : Agent)
         (order : PlacedOrder),
    NoDup (dict_keys (pending_orders a)) ->
    truthy (c_order_id (content m)) = true ->
    dict_get (c_order_id (content m)) (pending_orders a) = Some order ->
    in_list (po_status order) ["SHIPPED"; "DELIVERED"] = false ->
    clock (S (clock_reads a)) - clock (clock_reads a) <= days 30 ->
    fst (_handle_order_cancellation clock m a)
    = Ok (mkReply "success"
            ("Order " ++ c_order_id (content m) ++ " cancelled successfully"))
    /\ dict_get (c_order_id (content m))
         (pending_orders (snd (_handle_order_cancellation clock m a)))
       = Some (cancelled (clock (clock_reads a)) (c_reason (content m)) order)
    /\ dict_get (c_order_id (content m))
         (pending_orders
            (snd (_update_order_statuses clock dice
                    (snd (_handle_order_cancellation clock m a)))))
       = Some (cancelled (clock (clock_reads a)) (c_reason (content m)) order).
Proof.
  intros clock dice m a order Hnd Hid Hget Hopen Hsoon.
  destruct (cancellation_runs clock m a order Hid Hget Hopen) as [sent Hrun].
  rewrite Hrun. cbn [fst snd pending_orders].
  set (k := c_order_id (content m)) in *.
  set (oc := cancelled (clock (clock_reads a)) (c_reason (content m)) order).
  split; [reflexivity|]. split; [apply dict_get_set_same|].
  unfold _update_order_statuses, utcnow. cbn [pending_orders clock_reads].
  set (a1 := mkAgent _ _ _ _ _).
  assert (Hnd1 : NoDup (dict_keys (dict_set k oc (pending_orders a))))
    by now apply dict_set_keys_nodup.
  assert (Hin : In (k, oc) (dict_set k oc (pending_orders a)))
    by (apply dict_get_entry, dict_get_set_same).
  destruct (update_loop_at dice (clock (S (clock_reads a)))
              (dict_set k oc (pending_orders a)) a1 k oc Hnd1 Hnd1 Hin)
    as [[_ Hk]|[a0 [_ [Hk0 Hk]]]].
  - rewrite Hk. apply dict_get_set_same.
  - rewrite Hk.
    rewrite (update_order_closed_recent dice (clock (S (clock_reads a))) k oc a0
               (mkUpdate "CANCELLED" (clock (clock_reads a))
                  ("Order cancelled: "
                   ++ opt_default (c_reason (content m)) "No reason provided"))).
    + rewrite Hk0. apply dict_get_set_same.
    + apply last_update_snoc.
    + reflexivity.
    + exact Hsoon.
Qed.

Lemma cancelled_order_stays_cancelled_witness :
  fst (_handle_order_cancellation MoreExamples.clock_at_five_hours
         (MoreExamples.cancellation "PO1") MoreExamples.supplier)
  = Ok (mkReply "success" "Order PO1 cancelled successfully")
  /\ dict_get "PO1"
       (pending_orders
          (snd (_handle_order_cancellation MoreExamples.clock_at_five_hours
                  (MoreExamples.cancellation "PO1") MoreExamples.supplier)))
     = Some (cancelled (hours 5) (Some "no longer needed")
               (MoreExamples.supplier_order "PO1" "PLACED" 0))
  /\ dict_get "PO1"
       (pending_orders
          (snd (_update_order_statuses MoreExamples.clock_at_five_hours
                  MoreExamples.no_dice
                  (snd (_handle_order_cancellation
                          MoreExamples.clock_at_five_hours
                          (MoreExamples.cancellation "PO1")
                          MoreExamples.supplier)))))
     = Some (cancelled (hours 5) (Some "no longer needed")
               (MoreExamples.supplier_order "PO1" "PLACED" 0)).
Proof.
  apply (cancelled_order_stays_cancelled MoreExamples.clock_at_five_hours
           MoreExamples.no_dice (MoreExamples.cancellation "PO1")
           MoreExamples.supplier
           (MoreExamples.supplier_order "PO1" "PLACED" 0)).
  - cbn. repeat (constructor; [cbn; intuition congruence|]). constructor.
  - reflexivity.
  - reflexivity.
  - reflexivity.
  - vm_compute. discriminate.
Defined.

(** X23. A follow-up for a tracked order whose log holds an entry never
    answers: the status message carries the log with its [datetime] objects,
    [send_message] cannot render it, and the handler raises [TypeError]
    with the agent unchanged. *)
Theorem followup_of_tracked_order_raises :
  forall (m : Message) (a : Agent) (order : PlacedOrder),
    truthy (c_order_id (content m)) = true ->
    dict_get (c_order_id (content m)) (pending_orders a) = Some order ->
    po_updates order <> [] ->
    _handle_order_followup m a
    = (Raise (TypeError "Object of type datetime is not JSON serializable"), a).
Proof.
  intros m a order Hid Hget Hlog.
  unfold _handle_order_followup. rewrite Hid, Hget. cbn [negb].
  unfold send_message. cbn [n_content dict_values map snd forallb].
  destruct (po_updates order) as [|u us]; [contradiction|]. reflexivity.
Qed.

Lemma followup_of_tracked_order_raises_witness :
  _handle_order_followup (MoreExamples.followup "PO1") MoreExamples.supplier
  = (Raise (TypeError "Object of type datetime is not JSON serializable"),
     MoreExamples.supplier).
Proof.
  apply (followup_of_tracked_order_raises (MoreExamples.followup "PO1")
           MoreExamples.supplier (MoreExamples.supplier_order "PO1" "PLACED" 0)).
  - reflexivity.
  - reflexivity.
  - discriminate.
Defined.

(** ** The supplier agent: delivery details *)

Lemma deliveries_sent_send :
  forall k m a,
    deliveries_sent k (snd (send_message m a))
    = (deliveries_sent k a
       + (if forallb json_serializable (dict_values (n_content m))
          then (if is_delivery_of k m then 1 else 0) else 0))%nat.
Proof.
  intros k m a. unfold send_message, deliveries_sent.
  destruct (forallb _ _); cbn [snd outbox].
  - rewrite filter_app, length_app. cbn [filter].
    destruct (is_delivery_of k m); reflexivity.
  - now rewrite Nat.add_0_r.
Qed.

Lemma deliver_order_sent :
  forall clock k o a k',
    (deliveries_sent k' a
     <= deliveries_sent k' (snd (deliver_order clock (k, o) a)))%nat.
Proof.
  intros clock k o a k'. unfold deliver_order.
  destruct (negb _); [apply Nat.le_refl|].
  destruct (last_update _) as [last|]; [|apply Nat.le_refl].
  destruct (negb _); [apply Nat.le_refl|].
  unfold utcnow. cbv beta iota zeta.
  destruct (_ <? _); [|apply Nat.le_refl].
  match goal with
  | |- context [send_message ?m ?a0] =>
      pose proof (deliveries_sent_send k' m a0) as Hsend;
      destruct (send_message m a0) as [[u|e] a3]
  end; cbn [snd] in *; rewrite Hsend; apply Nat.le_add_r.
Qed.

Lemma deliver_order_fresh :
  forall clock k o a last,
    po_status o = "DELIVERED" ->
    last_update (po_updates o) = Some last ->
    up_status last = "DELIVERED" ->
    (forall n, clock n - up_timestamp last < minutes 5) ->
    deliveries_sent k (snd (deliver_order clock (k, o) a))
    = S (deliveries_sent k a).
Proof.
  intros clock k o a last Hstatus Hlast Hlogged Hfresh.
  unfold deliver_order. rewrite Hstatus, Hlast, Hlogged.
  rewrite !String.eqb_refl. cbn [negb].
  unfold utcnow. cbv beta iota zeta.
  assert (Hlt : (clock (clock_reads a) - up_timestamp last <? minutes 5) = true)
    by (apply Z.ltb_lt, Hfresh).
  rewrite Hlt.
  match goal with
  | |- context [send_message ?m ?a0] =>
      pose proof (deliveries_sent_send k m a0) as Hsend;
      assert (Hok : forallb json_serializable (dict_values (n_content m)) = true)
        by reflexivity;
      assert (Hdel : is_delivery_of k m = true)
        by (unfold is_delivery_of; cbn; now rewrite String.eqb_refl);
      rewrite Hok, Hdel in Hsend;
      destruct (send_message m a0) as [[u|e] a3]
  end; cbn [snd] in *; rewrite Hsend; unfold deliveries_sent; cbn [outbox]; lia.
Qed.

Lemma deliver_loop_sent :
  forall clock snapshot a k',
    (deliveries_sent k' a
     <= deliveries_sent k' (snd (for_each (deliver_order clock) snapshot a)))%nat.
Proof.
  intros clock snapshot. induction snapshot as [|[k1 o1] rest IH];
    intros a k'; [apply Nat.le_refl|].
  cbn [for_each].
  pose proof (deliver_order_sent clock k1 o1 a k') as Hstep.
  destruct (deliver_order clock (k1, o1) a) as [[e|] a1]; cbn [snd] in *.
  - exact Hstep.
  - eapply Nat.le_trans; [exact Hstep|apply IH].
Qed.

Lemma deliver_loop_fresh :
  forall clock snapshot a k o last,
    Forall (fun o => logged o = true) (dict_values snapshot) ->
    In (k, o) snapshot ->
    po_status o = "DELIVERED" ->
    last_update (po_updates o) = Some last ->
    up_status last = "DELIVERED" ->
    (forall n, clock n - up_timestamp last < minutes 5) ->
    (S (deliveries_sent k a)
     <= deliveries_sent k (snd (for_each (deliver_order clock) snapshot a)))%nat.
Proof.
  intros clock snapshot. induction snapshot as [|[k1 o1] rest IH];
    intros a k o last Hsnap Hin Hstatus Hlast Hlogged Hfresh; [contradiction|].
  cbn [for_each]. unfold dict_values in Hsnap. cbn in Hsnap.
  inversion Hsnap as [|? ? Ho Hrest]; subst.
  destruct (deliver_order_logged clock k1 o1 a Ho) as [Hr _].
  destruct Hin as [Heq|Hin].
  - injection Heq as -> ->.
    pose proof (deliver_order_fresh clock k o a last Hstatus Hlast Hlogged Hfresh)
      as Hstep.
    destruct (deliver_order clock (k, o) a) as [[e|] a1]; cbn [fst snd] in *;
      [discriminate|].
    rewrite <- Hstep. apply deliver_loop_sent.
  - pose proof (deliver_order_sent clock k1 o1 a k) as Hstep.
    destruct (deliver_order clock (k1, o1) a) as [[e|] a1]; cbn [fst snd] in *;
      [discriminate|].
    eapply Nat.le_trans; [apply le_n_S, Hstep|].
    now apply (IH a1 k o last).
Qed.

(** X24. [_process_deliveries] keeps the orders it announces: while the
    clock reads less than five minutes after the DELIVERED entry of an
    order's log, every call sends the delivery details of that order again,
    so two calls send them at least twice. *)
Theorem delivery_details_repeat :
  forall (clock : nat -> Z) (a : Agent) (k : string) (o : PlacedOrder) (t : Z),
    all_logged a ->
    dict_get k (pending_orders a) = Some o ->
    po_status o = "DELIVERED" ->
    last_logged o = Some t ->
    (forall n, clock n - t < minutes 5) ->
    pending_orders (snd (_process_deliveries clock a)) = pending_orders a
    /\ (deliveries_sent k a + 2
        <= deliveries_sent k
             (snd (_process_deliveries clock (snd (_process_deliveries clock a)))))%nat.
Proof.
  intros clock a k o t Ha Ho Hstatus Ht Hfresh.
  unfold last_logged in Ht.
  destruct (last_update (po_updates o)) as [last|] eqn:Hlast; [|discriminate].
  injection Ht as <-.
  assert (Hlogged : up_status last = "DELIVERED").
  { pose proof (dict_get_values_forall _ _ _ _ _ Ha Ho) as Hl.
    unfold logged in Hl. rewrite Hlast in Hl. cbn beta in Hl.
    apply String.eqb_eq in Hl. now rewrite Hl. }
  pose proof (dict_get_entry _ _ _ _ Ho) as Hin.
  unfold _process_deliveries.
  destruct (deliver_loop_logged clock (pending_orders a) a Ha) as [_ Hp].
  split; [exact Hp|].
  pose proof (deliver_loop_fresh clock (pending_orders a) a k o last Ha Hin
                Hstatus Hlast Hlogged Hfresh) as H1.
  set (a1 := snd (for_each (deliver_order clock) (pending_orders a) a)) in *.
  rewrite Hp.
  pose proof (deliver_loop_fresh clock (pending_orders a) a1 k o last Ha Hin
                Hstatus Hlast Hlogged Hfresh) as H2.
  lia.
Qed.

Lemma delivery_details_repeat_witness :
  pending_orders
    (snd (_process_deliveries MoreExamples.clock_at_delivery
            MoreExamples.supplier))
  = pending_orders MoreExamples.supplier
  /\ (deliveries_sent "PO2" MoreExamples.supplier + 2
      <= deliveries_sent "PO2"
           (snd (_process_deliveries MoreExamples.clock_at_delivery
                   (snd (_process_deliveries MoreExamples.clock_at_delivery
                           MoreExamples.supplier)))))%nat.
Proof.
  apply (delivery_details_repeat MoreExamples.clock_at_delivery
           MoreExamples.supplier "PO2"
           (MoreExamples.supplier_order "PO2" "DELIVERED"
              (days 10 + minutes 2))
           (days 10 + minutes 2)).
  - unfold all_logged. cbn. repeat constructor.
  - reflexivity.
  - reflexivity.
  - reflexivity.
  - intros n. unfold MoreExamples.clock_at_delivery, minutes, days.
    pose proof (Nat.le_min_r n 10). lia.
Defined.
